(** * Recorder app: operator commands, call log and source regeneration

    A shallow embedding of the [RecorderApp] class of the recorder
    (the dispatcher [_handleUIEvent], the three command executors, the
    signal handler [_onSignalAdded] and the source regeneration
    [_updateActions]) together with the properties its specification states
    about them.

    Conventions of the embedding.
    - A JavaScript string is a [string]; one [ascii] stands for one code
      unit below 256.
    - A value of type [any] that the code only stores or forwards is a
      [Value]; a thrown value is an [Exn].
    - Synchronous methods are state transformers over the [World] that
      return a [Completion] (normal or thrown); the state survives a throw,
      as object mutation does in JavaScript.
    - An [async] method is a [Task]: it runs on the current state up to its
      first suspension at the browser boundary and then waits for the
      completion of the operation it started.
    - Recorded actions are objects: the action list holds references into
      a store, so that a mutation through one reference is seen through
      every other. Each action object owns its array of signals. *)

From stdpp Require Import gmap strings list.
From Stdlib Require Import ZArith String Ascii List Lia DecimalString.
Import ListNotations.

Local Open Scope string_scope.

(** ** Strings and values *)

(** [String.prototype.trim] strips white space and line terminators. Among
    the code units below 256 these are U+0009 to U+000D, U+0020 and
    U+00A0. *)
Definition isWhiteSpace (c : ascii) : bool :=
  let n := nat_of_ascii c in
  ((9 <=? n)%nat && (n <=? 13)%nat) || (n =? 32)%nat || (n =? 160)%nat.

Fixpoint trimStart (s : string) : string :=
  match s with
  | EmptyString => EmptyString
  | String c r => if isWhiteSpace c then trimStart r else s
  end.

Fixpoint trimEnd (s : string) : string :=
  match s with
  | EmptyString => EmptyString
  | String c r =>
      match trimEnd r with
      | EmptyString => if isWhiteSpace c then EmptyString else String c EmptyString
      | r' => String c r'
      end
  end.

Definition trim (s : string) : string := trimEnd (trimStart s).

Fixpoint onlyWhiteSpace (s : string) : bool :=
  match s with
  | EmptyString => true
  | String c r => isWhiteSpace c && onlyWhiteSpace r
  end.

(** A required string input is blank when it is absent ([undefined] or
    [null]) or holds nothing but white space. *)
Definition blank (o : option string) : bool :=
  match o with
  | None => true
  | Some s => onlyWhiteSpace s
  end.

(** Truthiness of a string: every string but the empty one. *)
Definition truthy (s : string) : bool := negb (String.eqb s "").

(** [!x?.trim()] for an optional string [x]. *)
Definition notTrimmed (o : option string) : bool :=
  match o with
  | None => true
  | Some s => negb (truthy (trim s))
  end.

(** Interpolation of a possibly absent string in a template literal. *)
Definition interpolate (o : option string) : string :=
  match o with
  | None => "undefined"
  | Some s => s
  end.

(** Number of occurrences of the line feed in a text, which is
    [text.split("\n").length - 1]. *)
Fixpoint countNewlines (s : string) : nat :=
  match s with
  | EmptyString => 0
  | String c r => (if Ascii.eqb c "010"%char then 1 else 0) + countNewlines r
  end.

(** Values the commands produce. Numbers are the integers of magnitude
    below 10^21, the ones [String] prints in decimal without an
    exponent. *)
Inductive Value : Type :=
| VUndefined
| VNull
| VBoolean (b : bool)
| VNumber (n : Z)
| VString (s : string)
| VObject (fields : list (string * Z)).

(** [String(v)], for the numbers of [Value]. *)
Definition String_ (v : Value) : string :=
  match v with
  | VUndefined => "undefined"
  | VNull => "null"
  | VBoolean true => "true"
  | VBoolean false => "false"
  | VNumber n => NilZero.string_of_int (Z.to_int n)
  | VString s => s
  | VObject _ => "[object Object]"
  end.

(** A thrown value: an [Error] object with its message, or any other
    value. *)
Inductive Exn : Type :=
| Error_ (message : string)
| Raised (v : Value).

(** [e instanceof Error ? e.message : String(e)]. *)
Definition errorMessage (e : Exn) : string :=
  match e with
  | Error_ m => m
  | Raised v => String_ v
  end.

Inductive Completion (A : Type) : Type :=
| Normal (a : A)
| Thrown (e : Exn).
Arguments Normal {A} a.
Arguments Thrown {A} e.

(** ** Recorder data *)

Record Page := { guid : string }.

Record Frame := { _page : Page; frameName : string }.

Definition mainFrame (p : Page) : Frame := {| _page := p; frameName := "" |}.

Record Signal := { signalName : string; signalUrl : option string }.

Module FrameDescription.
Record t := { pageGuid : string; pageAlias : string; framePath : list string }.
End FrameDescription.

(** The fields an action variant adds to the shared ones. *)
Inductive ActionDetail : Type :=
| DClick (modifiers : Z) (button : string) (clickCount : Z)
| DFill (text : string)
| DPress (key : string) (modifiers : Z)
| DCheck
| DUncheck
| DSelect (options : list string)
| DArgs (args : list string)
| DRecorded (kind : string).

Module Action.
Record t := {
  name : string;
  selector : string;
  signals : list Signal;
  detail : ActionDetail
}.

(** [action.signals.push(signal)] *)
Definition pushSignal (s : Signal) (a : t) : t :=
  {| name := name a; selector := selector a;
     signals := (signals a ++ [s])%list; detail := detail a |}.
End Action.

Module ActionInContext.
Record t := {
  frame : FrameDescription.t;
  action : Action.t;
  startTime : Z
}.

Definition pushSignal (s : Signal) (a : t) : t :=
  {| frame := frame a; action := Action.pushSignal s (action a);
     startTime := startTime a |}.
End ActionInContext.

Module SignalInContext.
Record t := {
  frame : FrameDescription.t;
  signal : Signal;
  timestamp : Z
}.
End SignalInContext.

Inductive CallLogStatus : Type := InProgress | Done | Error | Paused.

Module CallLog.
Record t := {
  id : nat;
  title : string;
  messages : list string;
  status : CallLogStatus;
  error : option string;
  duration : option Z;
  selector : option string;
  createdAt : Z
}.
End CallLog.

Module Source.
Record t := {
  isRecorded : bool;
  id : string;
  label : string;
  text : string;
  language : string;
  highlight : list (nat * string);
  revealLine : option nat;
  group : option string;
  header : option string;
  footer : option string;
  actions : option (list string)
}.
End Source.

Module LanguageGenerator.
Record t := {
  id : string;
  name : string;
  groupName : string;
  highlighter : string
}.
End LanguageGenerator.

(** What [generateCode] returns. *)
Module Generated.
Record t := {
  header : string;
  footer : string;
  actionTexts : list string;
  text : string
}.
End Generated.

Record LanguageGeneratorOptions := {
  browserName : string;
  deviceName : option string;
  saveStorage : option string;
  generateAutoExpect : option bool
}.

(** The [params] object of an inbound event: every field the dispatcher or
    an executor reads, absent when the object does not have it. *)
Module Params.
Record t := {
  fileId : option string;
  autoExpect : option bool;
  mode : option string;
  selector : option string;
  ariaTemplate : option string;
  locator : option string;
  action : option string;
  extraction : option string;
  args : option (list string);
  code : option string
}.

Definition empty : t :=
  {| fileId := None; autoExpect := None; mode := None; selector := None;
     ariaTemplate := None; locator := None; action := None;
     extraction := None; args := None; code := None |}.
End Params.

Record EventData := { event : string; params : Params.t }.

(** ** The session state *)

(** Calls on the recorder whose effect is outside this class. *)
Inductive RecorderCall : Type :=
| RClear
| RSetLanguage (language : string)
| RSetMode (mode : option string)
| RResume
| RPause
| RStep
| RSetHighlightedSelector (selector : string)
| RSetHighlightedAriaTemplate (template : string).

(** Modelled from the spec: the [Recorder] class is not part of the
    sources. Its state, as far as the commands touch it: the tracked
    pages with their aliases in insertion order (a [Map<Page, string>]),
    the temporary call log with its session-local ids, and the calls
    received. *)
Record Recorder := {
  pageAliases : list (Page * string);
  callLog : list CallLog.t;
  nextLogId : nat;
  calls : list RecorderCall
}.

(** Calls the app evaluates on the page of the control surface. Delivery
    failures are swallowed by the source ([.catch(() => {})]). *)
Inductive UICall : Type :=
| PlaywrightSetSources (sources : list Source.t)
| PlaywrightSelectSource (sourceId : string)
| PlaywrightExtractionResult (result : Value) (extraction : option string).

(** Modelled from the spec: the [ThrottledFile] class is not part of the
    sources. The persisted output target keeps the text last set, to be
    written later, coalesced. *)
Record ThrottledFile := { file : string; content : option string }.

Record RecorderApp := {
  _recorder : Recorder;
  _uiPage : list UICall;
  _languageGeneratorOptions : LanguageGeneratorOptions;
  _throttledOutputFile : option ThrottledFile;
  _actions : list nat;
  _userSources : list Source.t;
  _recorderSources : list Source.t;
  _primaryGeneratorId : string;
  _selectedGeneratorId : string
}.

(** The process: the app, the store of action objects, the clock read by
    [Date.now()], the console, and the promise rejections nobody
    handled. *)
Record World := {
  recorderApp : RecorderApp;
  store : gmap nat ActionInContext.t;
  now : Z;
  console : list (string * Exn);
  unhandledRejections : list Exn
}.

Definition recorder (w : World) : Recorder := _recorder (recorderApp w).

Definition withApp (f : RecorderApp -> RecorderApp) (w : World) : World :=
  {| recorderApp := f (recorderApp w); store := store w; now := now w;
     console := console w; unhandledRejections := unhandledRejections w |}.

Definition withStore (f : gmap nat ActionInContext.t -> gmap nat ActionInContext.t)
    (w : World) : World :=
  {| recorderApp := recorderApp w; store := f (store w); now := now w;
     console := console w; unhandledRejections := unhandledRejections w |}.

Definition consoleError (label : string) (e : Exn) (w : World) : World :=
  {| recorderApp := recorderApp w; store := store w; now := now w;
     console := (console w ++ [(label, e)])%list;
     unhandledRejections := unhandledRejections w |}.

Definition unhandledRejection (e : Exn) (w : World) : World :=
  {| recorderApp := recorderApp w; store := store w; now := now w;
     console := console w;
     unhandledRejections := (unhandledRejections w ++ [e])%list |}.

Definition withRecorder (f : Recorder -> Recorder) (a : RecorderApp) : RecorderApp :=
  {| _recorder := f (_recorder a); _uiPage := _uiPage a;
     _languageGeneratorOptions := _languageGeneratorOptions a;
     _throttledOutputFile := _throttledOutputFile a;
     _actions := _actions a; _userSources := _userSources a;
     _recorderSources := _recorderSources a;
     _primaryGeneratorId := _primaryGeneratorId a;
     _selectedGeneratorId := _selectedGeneratorId a |}.

Definition evaluateOnUI (c : UICall) (a : RecorderApp) : RecorderApp :=
  {| _recorder := _recorder a; _uiPage := (_uiPage a ++ [c])%list;
     _languageGeneratorOptions := _languageGeneratorOptions a;
     _throttledOutputFile := _throttledOutputFile a;
     _actions := _actions a; _userSources := _userSources a;
     _recorderSources := _recorderSources a;
     _primaryGeneratorId := _primaryGeneratorId a;
     _selectedGeneratorId := _selectedGeneratorId a |}.

Definition setOptions (o : LanguageGeneratorOptions) (a : RecorderApp) : RecorderApp :=
  {| _recorder := _recorder a; _uiPage := _uiPage a;
     _languageGeneratorOptions := o;
     _throttledOutputFile := _throttledOutputFile a;
     _actions := _actions a; _userSources := _userSources a;
     _recorderSources := _recorderSources a;
     _primaryGeneratorId := _primaryGeneratorId a;
     _selectedGeneratorId := _selectedGeneratorId a |}.

Definition setThrottledOutputFile (f : option ThrottledFile) (a : RecorderApp) : RecorderApp :=
  {| _recorder := _recorder a; _uiPage := _uiPage a;
     _languageGeneratorOptions := _languageGeneratorOptions a;
     _throttledOutputFile := f;
     _actions := _actions a; _userSources := _userSources a;
     _recorderSources := _recorderSources a;
     _primaryGeneratorId := _primaryGeneratorId a;
     _selectedGeneratorId := _selectedGeneratorId a |}.

Definition setActions (l : list nat) (a : RecorderApp) : RecorderApp :=
  {| _recorder := _recorder a; _uiPage := _uiPage a;
     _languageGeneratorOptions := _languageGeneratorOptions a;
     _throttledOutputFile := _throttledOutputFile a;
     _actions := l; _userSources := _userSources a;
     _recorderSources := _recorderSources a;
     _primaryGeneratorId := _primaryGeneratorId a;
     _selectedGeneratorId := _selectedGeneratorId a |}.

Definition setRecorderSources (l : list Source.t) (a : RecorderApp) : RecorderApp :=
  {| _recorder := _recorder a; _uiPage := _uiPage a;
     _languageGeneratorOptions := _languageGeneratorOptions a;
     _throttledOutputFile := _throttledOutputFile a;
     _actions := _actions a; _userSources := _userSources a;
     _recorderSources := l;
     _primaryGeneratorId := _primaryGeneratorId a;
     _selectedGeneratorId := _selectedGeneratorId a |}.

Definition setSelectedGeneratorId (i : string) (a : RecorderApp) : RecorderApp :=
  {| _recorder := _recorder a; _uiPage := _uiPage a;
     _languageGeneratorOptions := _languageGeneratorOptions a;
     _throttledOutputFile := _throttledOutputFile a;
     _actions := _actions a; _userSources := _userSources a;
     _recorderSources := _recorderSources a;
     _primaryGeneratorId := _primaryGeneratorId a;
     _selectedGeneratorId := i |}.

(** ** Synchronous code: state and exceptions *)

Definition M (A : Type) : Type := World -> Completion A * World.

Definition ret {A} (a : A) : M A := fun w => (Normal a, w).

Definition throw {A} (e : Exn) : M A := fun w => (Thrown e, w).

Definition bind {A B} (m : M A) (k : A -> M B) : M B :=
  fun w =>
    match m w with
    | (Normal a, w') => k a w'
    | (Thrown e, w') => (Thrown e, w')
    end.

Definition modify (f : World -> World) : M unit := fun w => (Normal tt, f w).

Definition gets {A} (f : World -> A) : M A := fun w => (Normal (f w), w).

Definition liftCompletion {A} (c : Completion A) : M A := fun w => (c, w).

Notation "x <- m ;; k" := (bind m (fun x => k))
  (at level 100, m at next level, right associativity).
Notation "m ;; k" := (bind m (fun _ => k))
  (at level 100, right associativity).

(** ** Asynchronous code: tasks *)

Inductive FrameQuery : Type :=
| InnerText
| TextContent
| GetAttribute (name : string)
| IsVisible
| IsEnabled
| IsChecked
| LocatorCount
| ElementBoundingBox.

(** The operations that reach the live page. Their completion is in the
    hands of the browser; a deadline that passes completes the operation
    with a thrown timeout error. *)
Inductive ExternalOp : Type :=
| PerformAction (aliases : list (Page * string)) (a : ActionInContext.t)
| Query (frame : Frame) (selector : string) (q : FrameQuery) (strict : bool)
    (timeout : Z)
| Evaluate (page : Page) (code : string).

(** The promise of an [async] call, seen from its caller: settled, or
    suspended on an operation with the state it left behind and the rest
    of the body, which resumes on whatever the state is by then. *)
Inductive Task (A : Type) : Type :=
| Settled (c : Completion A) (w : World)
| Suspended (op : ExternalOp) (w : World)
    (k : Completion Value -> World -> Task A).
Arguments Settled {A} c w.
Arguments Suspended {A} op w k.

(** [await t] followed by the rest of the body. *)
Fixpoint await {A B} (t : Task A) (k : Completion A -> World -> Task B) : Task B :=
  match t with
  | Settled c w => k c w
  | Suspended op w k' => Suspended op w (fun c w' => await (k' c w') k)
  end.

(** The state when control returns to the caller of the [async] method. *)
Definition worldOf {A} (t : Task A) : World :=
  match t with
  | Settled _ w => w
  | Suspended _ w _ => w
  end.

(** Runs a task to its settlement when nothing else touches the session
    in between: every operation completes as [env] says and the body
    resumes on the state it left. *)
Fixpoint run {A} (env : ExternalOp -> Completion Value) (t : Task A)
    : Completion A * World :=
  match t with
  | Settled c w => (c, w)
  | Suspended op w k => run env (k (env op) w)
  end.

(** ** The recorder's helpers *)

(** [Map.prototype.get] on the page aliases; the key is the page object,
    which its guid identifies. *)
Fixpoint aliasOf (p : Page) (aliases : list (Page * string)) : option string :=
  match aliases with
  | []%list => None
  | ((q, a) :: rest)%list =>
      if String.eqb (guid q) (guid p) then Some a else aliasOf p rest
  end.

(** [x || d] for an optional string [x]. *)
Definition orElse (o : option string) (d : string) : string :=
  match o with
  | Some s => if truthy s then s else d
  | None => d
  end.

Definition recordCall (c : RecorderCall) (r : Recorder) : Recorder :=
  {| pageAliases := pageAliases r; callLog := callLog r;
     nextLogId := nextLogId r; calls := (calls r ++ [c])%list |}.

(** Modelled from the spec: [Recorder.pushTemporaryCallLog] is not part of
    the sources. Creating an entry allocates an id, inserts an in-progress
    entry for the action and returns the id at once. *)
Definition pushTemporaryCallLog (a : ActionInContext.t) (w : World) : nat * World :=
  let r := recorder w in
  let entry :=
    {| CallLog.id := nextLogId r;
       CallLog.title := Action.name (ActionInContext.action a);
       CallLog.messages := [];
       CallLog.status := InProgress;
       CallLog.error := None;
       CallLog.duration := None;
       CallLog.selector := Some (Action.selector (ActionInContext.action a));
       CallLog.createdAt := now w |} in
  (nextLogId r,
   withApp (withRecorder (fun r =>
     {| pageAliases := pageAliases r;
        callLog := (callLog r ++ [entry])%list;
        nextLogId := S (nextLogId r);
        calls := calls r |})) w).

(** Modelled from the spec: completing an entry sets the terminal status
    and the duration since creation; an error stores the message, a done
    command that returned a value stores the value as a message. An entry
    that is not in progress makes no further transition. *)
Definition completeEntry (logId : nat) (st : CallLogStatus) (payload : option Value)
    (time : Z) (e : CallLog.t) : CallLog.t :=
  match CallLog.status e, Nat.eqb (CallLog.id e) logId with
  | InProgress, true =>
      match st with
      | Done =>
          {| CallLog.id := CallLog.id e; CallLog.title := CallLog.title e;
             CallLog.messages :=
               match payload with
               | None | Some VUndefined => CallLog.messages e
               | Some v => (CallLog.messages e ++ [String_ v])%list
               end;
             CallLog.status := Done;
             CallLog.error := CallLog.error e;
             CallLog.duration := Some (time - CallLog.createdAt e)%Z;
             CallLog.selector := CallLog.selector e;
             CallLog.createdAt := CallLog.createdAt e |}
      | Error =>
          {| CallLog.id := CallLog.id e; CallLog.title := CallLog.title e;
             CallLog.messages := CallLog.messages e;
             CallLog.status := Error;
             CallLog.error := option_map String_ payload;
             CallLog.duration := Some (time - CallLog.createdAt e)%Z;
             CallLog.selector := CallLog.selector e;
             CallLog.createdAt := CallLog.createdAt e |}
      | _ => e
      end
  | _, _ => e
  end.

(** Modelled from the spec: [Recorder.updateTemporaryCallLog] is not part
    of the sources. The entry is addressed by its id and mutated in
    place. *)
Definition updateTemporaryCallLog (logId : nat) (st : CallLogStatus)
    (payload : option Value) (w : World) : World :=
  withApp (withRecorder (fun r =>
    {| pageAliases := pageAliases r;
       callLog := List.map (completeEntry logId st payload (now w)) (callLog r);
       nextLogId := nextLogId r;
       calls := calls r |})) w.

(** ** Toasts of the control surface *)

(** The state kept by [useToast] and its two updates. The id of a new
    toast is built from the clock and a random number and is an input
    here. *)
Module Toast.
Inductive ToastType : Type := success | error | info.

Record ToastMessage := {
  id : string;
  type : ToastType;
  message : string;
  duration : option Z
}.

(** [setToasts(prev => [...prev, toast])] *)
Definition addToast (newId : string) (type : ToastType) (message : string)
    (duration : option Z) (toasts : list ToastMessage) : list ToastMessage :=
  (toasts ++ [{| id := newId; type := type; message := message;
                 duration := duration |}])%list.

(** [setToasts(prev => prev.filter(toast => toast.id !== id))] *)
Definition removeToast (oldId : string) (toasts : list ToastMessage)
    : list ToastMessage :=
  List.filter (fun toast => negb (String.eqb (id toast) oldId)) toasts.

Definition showSuccess (newId message : string) : list ToastMessage -> list ToastMessage :=
  addToast newId success message (Some 3000%Z).

Definition showError (newId message : string) : list ToastMessage -> list ToastMessage :=
  addToast newId error message (Some 5000%Z).

Definition showInfo (newId message : string) : list ToastMessage -> list ToastMessage :=
  addToast newId info message (Some 4000%Z).

(** The delay of the removal [ToastContainer] schedules for a toast:
    none when the duration is 0, otherwise [toast.duration || 5000]. *)
Definition dismissAfter (toast : ToastMessage) : option Z :=
  match duration toast with
  | Some d => if (d =? 0)%Z then None else Some d
  | None => Some 5000%Z
  end.
End Toast.

(** ** The version script *)

(** The transformations [updatePackageVersion] and [updateRootOverrides]
    apply to a parsed [package.json] between reading and writing it. An
    object is the list of its entries in insertion order; assigning to a
    key it has keeps the order. *)
Module Publish.
Inductive OverrideValue : Type :=
| OverrideString (value : string)
| OverrideObject (entries : list (string * string)).

Record PackageJson := {
  version : string;
  dependencies : option (list (string * string));
  overrides : option (list (string * OverrideValue))
}.

(** [String.prototype.includes] *)
Fixpoint includes (needle s : string) : bool :=
  String.prefix needle s
  || match s with
     | EmptyString => false
     | String _ r => includes needle r
     end.

Fixpoint dropChars (n : nat) (s : string) : string :=
  match n, s with
  | O, _ => s
  | S n', String _ r => dropChars n' r
  | S _, EmptyString => EmptyString
  end.

(** The longest prefix without the character [@], and what follows it. *)
Fixpoint untilAt (s : string) : string * string :=
  match s with
  | EmptyString => (EmptyString, EmptyString)
  | String c r =>
      if Ascii.eqb c "@"%char then (EmptyString, s)
      else let (name, rest) := untilAt r in (String c name, rest)
  end.

(** [value.match(/^npm:(@sh_michael\/[^@]+)@/)], giving the group. *)
Definition matchInternal (value : string) : option string :=
  if String.prefix "npm:@sh_michael/" value then
    let (name, rest) := untilAt (dropChars 16 value) in
    match name, rest with
    | String _ _, String _ _ => Some ("@sh_michael/" ++ name)
    | _, _ => None
    end
  else None.

Definition updateDependency (newVersion : string) (entry : string * string)
    : string * string :=
  if String.prefix "@sh_michael/" (fst entry) then (fst entry, newVersion) else entry.

Definition updatePackageVersion (newVersion : string) (packageJson : PackageJson)
    : PackageJson :=
  {| version := newVersion;
     dependencies :=
       option_map (List.map (updateDependency newVersion)) (dependencies packageJson);
     overrides := overrides packageJson |}.

Definition updateOverride (newVersion : string) (entry : string * OverrideValue)
    : string * OverrideValue :=
  match snd entry with
  | OverrideString value =>
      if includes "@sh_michael/" value then
        match matchInternal value with
        | Some package =>
            (fst entry, OverrideString ("npm:" ++ package ++ "@" ++ newVersion))
        | None => entry
        end
      else entry
  | OverrideObject _ => entry
  end.

Definition updateRootOverrides (newVersion : string) (packageJson : PackageJson)
    : PackageJson :=
  {| version := version packageJson;
     dependencies := dependencies packageJson;
     overrides :=
       option_map (List.map (updateOverride newVersion)) (overrides packageJson) |}.
End Publish.

(** ** The operation dropdown *)

Module ActionDropdown.
Definition actions : list string :=
  ["click"; "dblclick"; "fill"; "press"; "check"; "uncheck"; "selectOption";
   "hover"; "scroll"].

Definition extractions : list string :=
  ["innerText"; "textContent"; "getAttribute"; "isVisible"; "isEnabled";
   "isChecked"; "count"; "boundingBox"].

Inductive OperationType : Type := action | extraction.

Definition options (type : OperationType) : list string :=
  match type with
  | action => actions
  | extraction => extractions
  end.

(** The state of the two selects after the type select changes: the new
    type, and the value the handler sets for it. *)
Definition onTypeChange (newType : OperationType) : OperationType * string :=
  (newType,
   match newType with
   | action => "click"
   | extraction => "innerText"
   end).
End ActionDropdown.

(** ** The app *)

Definition dquote : string := String (ascii_of_nat 34) EmptyString.

Section RecorderApp.

(** The code generation and the frame scan are imported from modules that
    are not part of the sources. *)
Variable languageSet : list LanguageGenerator.t.
Variable collapseActions : list ActionInContext.t -> list ActionInContext.t.
Variable generateCode :
  list ActionInContext.t -> LanguageGenerator.t -> LanguageGeneratorOptions ->
  Completion Generated.t.
Variable scanFrames : string -> list (Page * string) -> Frame.

(** Modelled from the spec: [Recorder.frameForSelector] is not part of the
    sources. Resolution scans the selector against the live frames of the
    tracked pages; if no page is tracked it fails with "no pages
    available". *)
Definition frameForSelector (selector : string) (r : Recorder) : Completion Frame :=
  match pageAliases r with
  | []%list => Thrown (Error_ "No pages available")
  | aliases => Normal (scanFrames selector aliases)
  end.

Definition _sendExtractionResultToUI (result : Value) (extraction : option string)
    (w : World) : World :=
  withApp (evaluateOnUI (PlaywrightExtractionResult result extraction)) w.

Definition _pushAllSources : M unit :=
  modify (withApp (fun a =>
    evaluateOnUI (PlaywrightSetSources (_userSources a ++ _recorderSources a)%list) a)).

Definition _revealSource (sourceId : option string) : M unit :=
  match sourceId with
  | None => ret tt
  | Some i =>
      if truthy i then modify (withApp (evaluateOnUI (PlaywrightSelectSource i)))
      else ret tt
  end.

Definition setContent (t : string) (f : ThrottledFile) : ThrottledFile :=
  {| file := file f; content := Some t |}.

Definition makeSource (g : LanguageGenerator.t) (c : Generated.t) : Source.t :=
  {| Source.isRecorded := true;
     Source.label := LanguageGenerator.name g;
     Source.group := Some (LanguageGenerator.groupName g);
     Source.id := LanguageGenerator.id g;
     Source.text := Generated.text c;
     Source.header := Some (Generated.header c);
     Source.footer := Some (Generated.footer c);
     Source.actions := Some (Generated.actionTexts c);
     Source.language := LanguageGenerator.highlighter g;
     Source.highlight := [];
     Source.revealLine := Some (countNewlines (Generated.text c)) |}.

(** The [for] loop of [_updateActions] over the generators that remain,
    with the local variables [recorderSources] and [revealSourceId]. *)
Fixpoint forEachGenerator (reveal : bool) (actions : list ActionInContext.t)
    (generators : list LanguageGenerator.t)
    (recorderSources : list Source.t) (revealSourceId : option string)
    : M (list Source.t * option string) :=
  match generators with
  | []%list => ret (recorderSources, revealSourceId)
  | (languageGenerator :: rest)%list =>
      options <- gets (fun w => _languageGeneratorOptions (recorderApp w)) ;;
      generated <- liftCompletion (generateCode actions languageGenerator options) ;;
      let source := makeSource languageGenerator generated in
      primary <- gets (fun w => _primaryGeneratorId (recorderApp w)) ;;
      (if String.eqb (LanguageGenerator.id languageGenerator) primary
       then modify (withApp (fun a =>
              setThrottledOutputFile
                (option_map (setContent (Source.text source)) (_throttledOutputFile a)) a))
       else ret tt) ;;
      selected <- gets (fun w => _selectedGeneratorId (recorderApp w)) ;;
      forEachGenerator reveal actions rest
        (recorderSources ++ [source])%list
        (if reveal && String.eqb (Source.id source) selected
         then Some (Source.id source) else revealSourceId)
  end.

Definition _updateActions (reveal : bool) : M unit :=
  actions <- gets (fun w =>
    collapseActions (omap (fun l => store w !! l) (_actions (recorderApp w)))) ;;
  r <- forEachGenerator reveal actions languageSet [] None ;;
  modify (withApp (setRecorderSources (fst r))) ;;
  _pushAllSources ;;
  _revealSource (snd r).

Definition _onActionAdded (action : nat) : M unit :=
  modify (withApp (fun a => setActions (_actions a ++ [action])%list a)) ;;
  _updateActions true.

(** [Array.prototype.findLast] on the action list, the predicate reading
    the objects through the store. *)
Definition findLastOnPage (pageGuid : string) (w : World) : option nat :=
  List.find
    (fun l =>
       match store w !! l with
       | Some a =>
           String.eqb (FrameDescription.pageGuid (ActionInContext.frame a)) pageGuid
       | None => false
       end)
    (rev (_actions (recorderApp w))).

Definition _onSignalAdded (signal : SignalInContext.t) : M unit :=
  lastAction <- gets (findLastOnPage
    (FrameDescription.pageGuid (SignalInContext.frame signal))) ;;
  match lastAction with
  | Some l =>
      modify (withStore
        (alter (ActionInContext.pushSignal (SignalInContext.signal signal)) l))
  | None => ret tt
  end ;;
  _updateActions false.

Definition _buildSyntheticAction (selector : string) (actionName : option string)
    (args : list string) : Completion Action.t :=
  let baseFields (name : string) (d : ActionDetail) : Action.t :=
    {| Action.name := name; Action.selector := selector;
       Action.signals := []; Action.detail := d |} in
  let isCase (c : string) : bool :=
    match actionName with
    | Some n => String.eqb n c
    | None => false
    end in
  if isCase "click" then Normal (baseFields "click" (DClick 0 "left" 1))
  else if isCase "dblclick" then Normal (baseFields "click" (DClick 0 "left" 2))
  else if isCase "fill" then Normal (baseFields "fill" (DFill (orElse (head args) "")))
  else if isCase "press" then Normal (baseFields "press" (DPress (orElse (head args) "Enter") 0))
  else if isCase "check" then Normal (baseFields "check" DCheck)
  else if isCase "uncheck" then Normal (baseFields "uncheck" DUncheck)
  else if isCase "selectOption" then
    Normal (baseFields "select"
      (DSelect (match head args with
                | Some a => if truthy a then [a] else []
                | None => []
                end)))
  else Thrown (Error_ ("Unsupported action: " ++ interpolate actionName)).

(** The enclosing [try { ... } catch (error) { throw error; }] of the
    executors rethrows what it catches and is the identity on tasks. *)
Definition _executeUIAction (params : Params.t) (w : World) : Task unit :=
  let locator := Params.locator params in
  let action := Params.action params in
  let args := default [] (Params.args params) in
  if notTrimmed locator then Settled (Thrown (Error_ "Locator is required")) w
  else
    let locator := default "" locator in
    let pageAliases := pageAliases (recorder w) in
    if (length pageAliases =? 0)%nat
    then Settled (Thrown (Error_ "No pages available for action execution")) w
    else
      match frameForSelector locator (recorder w) with
      | Thrown e => Settled (Thrown e) w
      | Normal frame =>
          match _buildSyntheticAction locator action args with
          | Thrown e => Settled (Thrown e) w
          | Normal actionObject =>
              let frameDescription :=
                {| FrameDescription.pageGuid := guid (_page frame);
                   FrameDescription.pageAlias :=
                     orElse (aliasOf (_page frame) pageAliases) "page";
                   FrameDescription.framePath := [] |} in
              let actionInContext :=
                {| ActionInContext.frame := frameDescription;
                   ActionInContext.action := actionObject;
                   ActionInContext.startTime := now w |} in
              let (callLogId, w1) := pushTemporaryCallLog actionInContext w in
              Suspended (PerformAction pageAliases actionInContext) w1
                (fun c w2 =>
                   match c with
                   | Normal _ =>
                       Settled (Normal tt)
                         (updateTemporaryCallLog callLogId Done None w2)
                   | Thrown e =>
                       Settled (Thrown e)
                         (updateTemporaryCallLog callLogId Error
                            (Some (VString (errorMessage e))) w2)
                   end)
          end
      end.

Definition _performExtraction (frame : Frame) (selector : string)
    (extraction : option string) (args : option (list string)) (w : World)
    : Task Value :=
  let isCase (c : string) : bool :=
    match extraction with
    | Some n => String.eqb n c
    | None => false
    end in
  let call (q : FrameQuery) (strict : bool) : Task Value :=
    Suspended (Query frame selector q strict 5000) w Settled in
  if isCase "innerText" then call InnerText true
  else if isCase "textContent" then call TextContent true
  else if isCase "getAttribute" then
    call (GetAttribute (orElse (head (default [] args)) "")) true
  else if isCase "isVisible" then call IsVisible true
  else if isCase "isEnabled" then call IsEnabled true
  else if isCase "isChecked" then call IsChecked true
  else if isCase "count" then call LocatorCount false
  else if isCase "boundingBox" then call ElementBoundingBox true
  else Settled (Thrown (Error_ ("Unsupported extraction: " ++ interpolate extraction))) w.

Definition _executeUIExtraction (params : Params.t) (w : World) : Task unit :=
  let locator := Params.locator params in
  let extraction := Params.extraction params in
  let args := default [] (Params.args params) in
  if notTrimmed locator then Settled (Thrown (Error_ "Locator is required")) w
  else
    let locator := default "" locator in
    match frameForSelector locator (recorder w) with
    | Thrown e => Settled (Thrown e) w
    | Normal frame =>
        let frameDescription :=
          {| FrameDescription.pageGuid := guid (_page frame);
             FrameDescription.pageAlias := "page";
             FrameDescription.framePath := [] |} in
        let (callLogId, w1) :=
          pushTemporaryCallLog
            {| ActionInContext.frame := frameDescription;
               ActionInContext.action :=
                 {| Action.name := "extract_" ++ interpolate extraction;
                    Action.selector := locator;
                    Action.signals := [];
                    Action.detail := DArgs args |};
               ActionInContext.startTime := now w |} w in
        await (_performExtraction frame locator extraction (Some args) w1)
          (fun c w2 =>
             match c with
             | Normal result =>
                 let w3 := updateTemporaryCallLog callLogId Done (Some result) w2 in
                 Settled (Normal tt)
                   (_sendExtractionResultToUI result extraction w3)
             | Thrown e =>
                 Settled (Thrown e)
                   (updateTemporaryCallLog callLogId Error
                      (Some (VString (errorMessage e))) w2)
             end)
    end.

(** The code runs as the body of a function built from it; whatever it
    throws, or the construction of the function throws, is wrapped. *)
Definition _executePlaywrightCode (page : Page) (code : string) (w : World)
    : Task Value :=
  Suspended (Evaluate page code) w
    (fun c w' =>
       match c with
       | Normal result => Settled (Normal result) w'
       | Thrown error =>
           Settled
             (Thrown (Error_ ("Failed to execute code " ++ dquote ++ code ++ dquote
                              ++ ": " ++ errorMessage error)))
             w'
       end).

(** The tail [\s*\(\s*\)?\s*$] of both patterns, read from the end of the
    text: what precedes the tail, reversed, when the tail is there. *)
Definition callTail (reversed : string) : option string :=
  let r1 := trimStart reversed in
  let r2 :=
    match r1 with
    | String c r' => if Ascii.eqb c ")"%char then trimStart r' else r1
    | EmptyString => r1
    end in
  match r2 with
  | String c r' => if Ascii.eqb c "("%char then Some (trimStart r') else None
  | EmptyString => None
  end.

Definition extractionMethods : list string :=
  ["innerText"; "textContent"; "isVisible"; "isEnabled"; "isChecked";
   "getAttribute"; "count"; "boundingBox"].

Definition _isExtractionCommand (code : string) : bool :=
  let trimmedCode := trim code in
  match callTail (String.rev trimmedCode) with
  | None => false
  | Some before =>
      existsb (fun m => String.prefix (String.rev ("." ++ m)) before) extractionMethods
      || existsb (fun m => String.eqb (String.rev ("page." ++ m)) before) ["title"; "url"]
  end.

Definition _executeArbitraryCode (params : Params.t) (w : World) : Task unit :=
  let code := Params.code params in
  if notTrimmed code then Settled (Thrown (Error_ "Code is required")) w
  else
    let code := default "" code in
    let pageAliases := pageAliases (recorder w) in
    match pageAliases with
    | []%list => Settled (Thrown (Error_ "No pages available for code execution")) w
    | ((page, _) :: _)%list =>
        let pageAlias := orElse (aliasOf page pageAliases) "page" in
        let frameDescription :=
          {| FrameDescription.pageGuid := guid page;
             FrameDescription.pageAlias := pageAlias;
             FrameDescription.framePath := [] |} in
        let (callLogId, w1) :=
          pushTemporaryCallLog
            {| ActionInContext.frame := frameDescription;
               ActionInContext.action :=
                 {| Action.name := "execute_code";
                    Action.selector := "";
                    Action.signals := [];
                    Action.detail := DArgs [code] |};
               ActionInContext.startTime := now w |} w in
        await (_executePlaywrightCode page code w1)
          (fun c w2 =>
             match c with
             | Normal result =>
                 let w3 := updateTemporaryCallLog callLogId Done (Some result) w2 in
                 Settled (Normal tt)
                   (match result with
                    | VUndefined => w3
                    | _ =>
                        _sendExtractionResultToUI result
                          (Some (if _isExtractionCommand code
                                 then "extraction" else "action"))
                          w3
                    end)
             | Thrown e =>
                 Settled (Thrown e)
                   (updateTemporaryCallLog callLogId Error
                      (Some (VString (errorMessage e))) w2)
             end)
    end.

(** ** The dispatcher *)

(** A promise the dispatcher leaves behind, with the handler attached by
    [.catch], if any. *)
Record Floating := {
  promise : Task unit;
  onRejected : option (Exn -> World -> World)
}.

(** What one call of [_handleUIEvent] amounts to for its caller: how the
    call completed, the state at that moment, and the promise it left. *)
Record Dispatched := {
  completion : Completion unit;
  after : World;
  floating : option Floating
}.

Definition returned (r : Completion unit * World) : Dispatched :=
  {| completion := fst r; after := snd r; floating := None |}.

(** [void promise] *)
Definition discarded (t : Task unit) : Dispatched :=
  {| completion := Normal tt; after := worldOf t;
     floating := Some {| promise := t; onRejected := None |} |}.

(** [promise.catch(handler)] *)
Definition caught (t : Task unit) (handler : Exn -> World -> World) : Dispatched :=
  {| completion := Normal tt; after := worldOf t;
     floating := Some {| promise := t; onRejected := Some handler |} |}.

Definition callRecorder (c : RecorderCall) : M unit :=
  modify (withApp (withRecorder (recordCall c))).

Definition _handleUIEvent (data : EventData) (w : World) : Dispatched :=
  let p := params data in
  let isEvent (c : string) : bool := String.eqb (event data) c in
  if isEvent "clear" then
    returned
      ((modify (withApp (setActions [])) ;;
        _updateActions true ;;
        callRecorder RClear) w)
  else if isEvent "fileChanged" then
    returned
      ((sources <- gets (fun w => (_recorderSources (recorderApp w) ++ _userSources (recorderApp w))%list) ;;
        match
          List.find
            (fun s =>
               match Params.fileId p with
               | Some i => String.eqb (Source.id s) i
               | None => false
               end)
            sources
        with
        | Some source =>
            (if Source.isRecorded source
             then modify (withApp (setSelectedGeneratorId (Source.id source)))
             else ret tt) ;;
            callRecorder (RSetLanguage (Source.language source))
        | None => ret tt
        end) w)
  else if isEvent "setAutoExpect" then
    returned
      ((modify (withApp (fun a =>
          setOptions
            {| browserName := browserName (_languageGeneratorOptions a);
               deviceName := deviceName (_languageGeneratorOptions a);
               saveStorage := saveStorage (_languageGeneratorOptions a);
               generateAutoExpect := Params.autoExpect p |} a)) ;;
        _updateActions false) w)
  else if isEvent "setMode" then returned (callRecorder (RSetMode (Params.mode p)) w)
  else if isEvent "resume" then returned (callRecorder RResume w)
  else if isEvent "pause" then returned (callRecorder RPause w)
  else if isEvent "step" then returned (callRecorder RStep w)
  else if isEvent "highlightRequested" then
    returned
      (((match Params.selector p with
         | Some s => if truthy s then callRecorder (RSetHighlightedSelector s) else ret tt
         | None => ret tt
         end) ;;
        (match Params.ariaTemplate p with
         | Some t => if truthy t then callRecorder (RSetHighlightedAriaTemplate t) else ret tt
         | None => ret tt
         end)) w)
  else if isEvent "performAction" then discarded (_executeUIAction p w)
  else if isEvent "performExtraction" then discarded (_executeUIExtraction p w)
  else if isEvent "executeArbitraryCode" then
    caught (_executeArbitraryCode p w)
      (consoleError "Failed to execute arbitrary code:")
  else
    {| completion := Thrown (Error_ ("Unknown event: " ++ event data));
       after := w; floating := None |}.

(** ** The event loop around one dispatch *)

(** Settlement of the promise a dispatch left behind: a rejection goes to
    the attached handler; without one it is an unhandled rejection of the
    process. *)
Definition settle (env : ExternalOp -> Completion Value) (f : Floating) : World :=
  match run env (promise f) with
  | (Normal _, w) => w
  | (Thrown e, w) =>
      match onRejected f with
      | Some handler => handler e w
      | None => unhandledRejection e w
      end
  end.

(** The binding [dispatch] exposed to the control surface, followed by the
    settlement of what the event started. *)
Definition dispatch (env : ExternalOp -> Completion Value) (data : EventData)
    (w : World) : Completion unit * World :=
  let d := _handleUIEvent data w in
  (completion d,
   match floating d with
   | Some f => settle env f
   | None => after d
   end).

(** ** The vocabulary of the specification *)

(** The three operator-issued commands and their executors. *)
Inductive Command : Type := PerformActionCommand | PerformExtractionCommand
                          | ExecuteArbitraryCodeCommand.

Definition execute (c : Command) : Params.t -> World -> Task unit :=
  match c with
  | PerformActionCommand => _executeUIAction
  | PerformExtractionCommand => _executeUIExtraction
  | ExecuteArbitraryCodeCommand => _executeArbitraryCode
  end.

Definition eventOf (c : Command) : string :=
  match c with
  | PerformActionCommand => "performAction"
  | PerformExtractionCommand => "performExtraction"
  | ExecuteArbitraryCodeCommand => "executeArbitraryCode"
  end.

(** The input a command requires: its locator, or its code. *)
Definition requiredInput (c : Command) (p : Params.t) : option string :=
  match c with
  | PerformActionCommand | PerformExtractionCommand => Params.locator p
  | ExecuteArbitraryCodeCommand => Params.code p
  end.

Definition validationMessage (c : Command) : string :=
  match c with
  | PerformActionCommand | PerformExtractionCommand => "Locator is required"
  | ExecuteArbitraryCodeCommand => "Code is required"
  end.

Definition passesValidation (c : Command) (p : Params.t) : bool :=
  negb (blank (requiredInput c p)).

Definition isNormal {A} (c : Completion A) : bool :=
  match c with
  | Normal _ => true
  | Thrown _ => false
  end.

(** Resolution finds the tracked pages and, for a locator, a frame. *)
Definition passesResolution (c : Command) (p : Params.t) (w : World) : bool :=
  match c with
  | PerformActionCommand =>
      negb (length (pageAliases (recorder w)) =? 0)%nat
      && isNormal (frameForSelector (default "" (Params.locator p)) (recorder w))
  | PerformExtractionCommand =>
      isNormal (frameForSelector (default "" (Params.locator p)) (recorder w))
  | ExecuteArbitraryCodeCommand =>
      negb (length (pageAliases (recorder w)) =? 0)%nat
  end.

(** The action kinds declared by [PerformActionParams], and the ones the
    [switch] of [_buildSyntheticAction] has a case for. *)
Definition declaredActions : list string :=
  ["click"; "dblclick"; "fill"; "press"; "check"; "uncheck"; "selectOption";
   "hover"; "scroll"].

Definition supportedActions : list string :=
  ["click"; "dblclick"; "fill"; "press"; "check"; "uncheck"; "selectOption"].

Definition unsupported (kinds : list string) (kind : option string) : Prop :=
  match kind with
  | Some k => ~ In k kinds
  | None => True
  end.

(** A command can be built when it is not an action, or its kind has a
    case. *)
Definition buildable (c : Command) (p : Params.t) : Prop :=
  match c with
  | PerformActionCommand =>
      exists k, Params.action p = Some k /\ In k supportedActions
  | _ => True
  end.

(** The fixed set of extraction kinds with the read-only query and the
    strictness each one stands for. *)
Definition queryFor (kind : string) (args : list string) : option (FrameQuery * bool) :=
  if String.eqb kind "innerText" then Some (InnerText, true)
  else if String.eqb kind "textContent" then Some (TextContent, true)
  else if String.eqb kind "getAttribute" then
    Some (GetAttribute (orElse (head args) ""), true)
  else if String.eqb kind "isVisible" then Some (IsVisible, true)
  else if String.eqb kind "isEnabled" then Some (IsEnabled, true)
  else if String.eqb kind "isChecked" then Some (IsChecked, true)
  else if String.eqb kind "count" then Some (LocatorCount, false)
  else if String.eqb kind "boundingBox" then Some (ElementBoundingBox, true)
  else None.

Definition extractionKinds : list string :=
  ["innerText"; "textContent"; "getAttribute"; "isVisible"; "isEnabled";
   "isChecked"; "count"; "boundingBox"].

(** The error path of a command: the entry goes to [error] with the
    message of the failure and the failure is raised again. *)
Definition reportFailure (callLogId : nat) (e : Exn) (w : World) : Task unit :=
  Settled (Thrown e)
    (updateTemporaryCallLog callLogId Error (Some (VString (errorMessage e))) w).

(** The event kinds the dispatcher recognises. *)
Definition recognizedEvents : list string :=
  ["clear"; "fileChanged"; "setAutoExpect"; "setMode"; "resume"; "pause"; "step";
   "highlightRequested"; "performAction"; "performExtraction";
   "executeArbitraryCode"].

(** One new entry, in progress, under a fresh id. *)
Definition entryCreated (w w1 : World) (e : CallLog.t) : Prop :=
  callLog (recorder w1) = (callLog (recorder w) ++ [e])%list
  /\ CallLog.status e = InProgress
  /\ CallLog.error e = None
  /\ CallLog.id e = nextLogId (recorder w)
  /\ nextLogId (recorder w1) = S (nextLogId (recorder w)).

(** The one transition of the entry when the command settles as [c] on
    the state [w2]: to [done], or to [error] with the message of the
    failure that is raised again. *)
Definition entryCompleted (logId : nat) (c : Completion unit) (w2 w3 : World) : Prop :=
  match c with
  | Normal _ =>
      exists payload,
        callLog (recorder w3)
        = List.map (completeEntry logId Done payload (now w2)) (callLog (recorder w2))
  | Thrown e =>
      callLog (recorder w3)
      = List.map (completeEntry logId Error (Some (VString (errorMessage e))) (now w2))
          (callLog (recorder w2))
  end
  /\ nextLogId (recorder w3) = nextLogId (recorder w2).

(** What the caller of a command gets when the operation the command
    awaits completes as [r]: nothing on success, the failure itself
    otherwise. *)
Definition reraised (r : Completion Value) : Completion unit :=
  match r with
  | Normal _ => Normal tt
  | Thrown e => Thrown e
  end.

(** The operation a command started on [w] awaits, begun on [w1]: the
    action that was built, performed on the tracked pages; the query of
    the extraction on the resolved frame; the evaluation of the code on
    the first tracked page, with its wrapping of what the code throws. *)
Definition operationOf (c : Command) (p : Params.t) (w w1 : World)
    (body : Task Value) : Prop :=
  match c with
  | PerformActionCommand =>
      exists a,
        _buildSyntheticAction (default "" (Params.locator p)) (Params.action p)
          (default [] (Params.args p))
        = Normal (ActionInContext.action a)
        /\ body = Suspended (PerformAction (pageAliases (recorder w)) a) w1 Settled
  | PerformExtractionCommand =>
      exists frame,
        frameForSelector (default "" (Params.locator p)) (recorder w) = Normal frame
        /\ body = _performExtraction frame (default "" (Params.locator p))
                    (Params.extraction p) (Some (default [] (Params.args p))) w1
  | ExecuteArbitraryCodeCommand =>
      exists page pageAlias others,
        pageAliases (recorder w) = ((page, pageAlias) :: others)%list
        /\ body = _executePlaywrightCode page (default "" (Params.code p)) w1
  end.

(** The command [t] goes the way of the operation [body], suspended on
    the same operations from the same states; when the operation
    completes as [r], the entry makes its one transition, to [done] or
    to [error] with the message of the failure of [r], and the command
    has settled, with that very failure when there is one. *)
Inductive follows (logId : nat) : Task Value -> Task unit -> Prop :=
| follows_settled r w2 w3 :
    entryCompleted logId (reraised r) w2 w3 ->
    follows logId (Settled r w2) (Settled (reraised r) w3)
| follows_suspended op w1 kb kt :
    (forall c w2, follows logId (kb c w2) (kt c w2)) ->
    follows logId (Suspended op w1 kb) (Suspended op w1 kt).

(** The life of the entry of the command [c] started on [w]: created in
    progress before the operation begins, then one transition when the
    operation completes, after which the command has settled. *)
Definition lifecycle (c : Command) (p : Params.t) (w : World) (t : Task unit) : Prop :=
  exists e w1 body,
    entryCreated w w1 e
    /\ operationOf c p w w1 body
    /\ follows (CallLog.id e) body t.

(** The entry once the command [c] has settled. *)
Definition settledEntry (c : Completion unit) (e : CallLog.t) : Prop :=
  match c with
  | Normal _ => CallLog.status e = Done /\ CallLog.error e = None
  | Thrown err =>
      CallLog.status e = Error /\ CallLog.error e = Some (errorMessage err)
  end.

(** Failure of frame resolution for want of a page, with the state, and
    so the call log, as it was. *)
Definition failsWithNoPages (w : World) (t : Task unit) : Prop :=
  exists e, t = Settled (Thrown e) w
            /\ String.prefix "No pages available" (errorMessage e) = true.

(** Whether the action object behind a reference is on a page. *)
Definition onPage (pageGuid : string) (w : World) (l : nat) : bool :=
  match store w !! l with
  | Some a => String.eqb (FrameDescription.pageGuid (ActionInContext.frame a)) pageGuid
  | None => false
  end.

(** The actions handed to the generators. *)
Definition collapsed (w : World) : list ActionInContext.t :=
  collapseActions (omap (fun l => store w !! l) (_actions (recorderApp w))).

(** A generator produces the Source [s] from what [generateCode] returns
    for it. *)
Definition produces (actions : list ActionInContext.t) (options : LanguageGeneratorOptions)
    (g : LanguageGenerator.t) (s : Source.t) : Prop :=
  exists c, generateCode actions g options = Normal c /\ s = makeSource g c.

Definition generates (actions : list ActionInContext.t) (options : LanguageGeneratorOptions)
    (g : LanguageGenerator.t) : Prop :=
  isNormal (generateCode actions g options) = true.

(** Isolation of the generators, as the specification asks for it: when a
    generator throws, every generator that does not throw still has its
    Source among the regenerated ones, and regeneration completes. *)
Definition isolatesGenerators (reveal : bool) (w : World) : Prop :=
  forall g e,
    In g languageSet ->
    generateCode (collapsed w) g (_languageGeneratorOptions (recorderApp w)) = Thrown e ->
    fst (_updateActions reveal w) = Normal tt
    /\ forall g' c,
        In g' languageSet ->
        generateCode (collapsed w) g' (_languageGeneratorOptions (recorderApp w)) = Normal c ->
        In (makeSource g' c) (_recorderSources (recorderApp (snd (_updateActions reveal w)))).

(** ** A sample session *)

Definition samplePage : Page := {| guid := "page@1" |}.

Definition sampleScan (selector : string) (aliases : list (Page * string)) : Frame :=
  match aliases with
  | ((p, _) :: _)%list => mainFrame p
  | []%list => mainFrame samplePage
  end.

Definition sampleOptions : LanguageGeneratorOptions :=
  {| browserName := "chromium"; deviceName := None; saveStorage := None;
     generateAutoExpect := None |}.

Definition sampleApp (aliases : list (Page * string)) : RecorderApp :=
  {| _recorder := {| pageAliases := aliases; callLog := []; nextLogId := 0; calls := [] |};
     _uiPage := [];
     _languageGeneratorOptions := sampleOptions;
     _throttledOutputFile := None;
     _actions := [];
     _userSources := [];
     _recorderSources := [];
     _primaryGeneratorId := "playwright-test";
     _selectedGeneratorId := "playwright-test" |}.

Definition sampleWorld (aliases : list (Page * string)) : World :=
  {| recorderApp := sampleApp aliases; store := ∅; now := 1000;
     console := []; unhandledRejections := [] |}.

Definition noPages : World := sampleWorld [].

Definition onePage : World := sampleWorld [(samplePage, "page")].

Definition otherPage : Page := {| guid := "page@2" |}.

(** Two tracked pages, in the order they were tracked. *)
Definition twoPages : World := sampleWorld [(samplePage, "page"); (otherPage, "page1")].

(** The same two pages, tracked in the other order. *)
Definition twoPagesSwapped : World :=
  sampleWorld [(otherPage, "page1"); (samplePage, "page")].

Definition actionParams (locator action : string) : Params.t :=
  {| Params.fileId := None; Params.autoExpect := None; Params.mode := None;
     Params.selector := None; Params.ariaTemplate := None;
     Params.locator := Some locator; Params.action := Some action;
     Params.extraction := None; Params.args := None; Params.code := None |}.

Definition extractionParams (locator extraction : string) : Params.t :=
  {| Params.fileId := None; Params.autoExpect := None; Params.mode := None;
     Params.selector := None; Params.ariaTemplate := None;
     Params.locator := Some locator; Params.action := None;
     Params.extraction := Some extraction; Params.args := None;
     Params.code := None |}.

Definition codeParams (code : string) : Params.t :=
  {| Params.fileId := None; Params.autoExpect := None; Params.mode := None;
     Params.selector := None; Params.ariaTemplate := None;
     Params.locator := None; Params.action := None;
     Params.extraction := None; Params.args := None; Params.code := Some code |}.

Definition sampleEnv (op : ExternalOp) : Completion Value := Normal VUndefined.

Definition javascript : LanguageGenerator.t :=
  {| LanguageGenerator.id := "playwright-test"; LanguageGenerator.name := "Test Runner";
     LanguageGenerator.groupName := "Node.js"; LanguageGenerator.highlighter := "javascript" |}.

Definition python : LanguageGenerator.t :=
  {| LanguageGenerator.id := "python"; LanguageGenerator.name := "Library";
     LanguageGenerator.groupName := "Python"; LanguageGenerator.highlighter := "python" |}.

Definition sampleGenerated (g : LanguageGenerator.t) : Generated.t :=
  {| Generated.header := "// " ++ LanguageGenerator.id g; Generated.footer := "";
     Generated.actionTexts := []; Generated.text := "// " ++ LanguageGenerator.id g |}.

(** A code generation in which the first target is broken. *)
Definition brokenJavascript (actions : list ActionInContext.t)
    (g : LanguageGenerator.t) (o : LanguageGeneratorOptions) : Completion Generated.t :=
  if String.eqb (LanguageGenerator.id g) "playwright-test"
  then Thrown (Error_ "generator failed")
  else Normal (sampleGenerated g).

Definition soundGeneration (actions : list ActionInContext.t)
    (g : LanguageGenerator.t) (o : LanguageGeneratorOptions) : Completion Generated.t :=
  Normal (sampleGenerated g).

Definition noCollapse (l : list ActionInContext.t) : list ActionInContext.t := l.

Definition sampleAction (pageGuid : string) (selector : string) : ActionInContext.t :=
  {| ActionInContext.frame :=
       {| FrameDescription.pageGuid := pageGuid; FrameDescription.pageAlias := "page";
          FrameDescription.framePath := [] |};
     ActionInContext.action :=
       {| Action.name := "click"; Action.selector := selector;
          Action.signals := []; Action.detail := DClick 0 "left" 1 |};
     ActionInContext.startTime := 0 |}.

Definition sampleSignal (pageGuid : string) : SignalInContext.t :=
  {| SignalInContext.frame :=
       {| FrameDescription.pageGuid := pageGuid; FrameDescription.pageAlias := "page";
          FrameDescription.framePath := [] |};
     SignalInContext.signal :=
       {| signalName := "navigation"; signalUrl := Some "https://example.com/" |};
     SignalInContext.timestamp := 5 |}.

(** Two recorded actions on two pages. *)
Definition recording : World :=
  {| recorderApp := setActions [0; 1]%nat (sampleApp [(samplePage, "page")]);
     store := <[1%nat := sampleAction "page@2" "#b"]>
                (<[0%nat := sampleAction "page@1" "#a"]> ∅);
     now := 1000; console := []; unhandledRejections := [] |}.

(** ** The rest of the app *)

(** The [for] loop with its early [return] is a search for the first
    language with the highlighter. *)
Definition determinePrimaryGeneratorId (sdkLanguage : string) : string :=
  match
    List.find
      (fun language => String.eqb (LanguageGenerator.highlighter language) sdkLanguage)
      languageSet
  with
  | Some language => LanguageGenerator.id language
  | None => sdkLanguage
  end.

(** Truthiness of a value. *)
Definition truthyValue (v : Value) : bool :=
  match v with
  | VUndefined | VNull => false
  | VBoolean b => b
  | VNumber n => negb (n =? 0)%Z
  | VString s => truthy s
  | VObject _ => true
  end.

(** [name] is [options?.name], absent when there are no options or they
    have no name. *)
Definition _buildRoleSelector (role : string) (name : option Value) : string :=
  let selector := "role=" ++ role in
  let selector :=
    match name with
    | Some n =>
        if truthyValue n then
          selector ++ "[name=" ++ dquote
            ++ (match n with
                | VString s => s
                | _ => String_ n
                end)
            ++ dquote ++ "i]"
        else selector
    | None => selector
    end in
  "internal:" ++ selector.

(** The argument of [getByText]: a string, or a regular expression with
    its source and flags. *)
Inductive TextPattern : Type :=
| TextString (text : string)
| TextRegExp (source flags : string).

Definition _buildTextSelector (text : TextPattern) : string :=
  match text with
  | TextRegExp source _ => "internal:text=" ++ source
  | TextString t => "internal:text=" ++ dquote ++ t ++ dquote ++ "i"
  end.

(** What a method of the locator wrapper calls on its frame. *)
Inductive FrameCall : Type :=
| CallClick
| CallFill (text : string)
| CallPress (key : string)
| CallQuery (q : FrameQuery).

(** One call on a frame through [controller.run(..., timeout)]. *)
Record FrameOperation := {
  opFrame : Frame;
  opSelector : string;
  opCall : FrameCall;
  opStrict : bool;
  opTimeout : Z
}.

(** An invocation of one of the methods of the locator wrapper. The
    options of [click] are spread over [{ strict: true }]; of them only
    [strict] is kept here. *)
Inductive LocatorCall : Type :=
| LClick (strict : option bool)
| LFill (text : string)
| LPress (key : string)
| LInnerText
| LTextContent
| LIsVisible
| LIsEnabled
| LIsChecked.

(** The keys of the object [_createLocatorWrapper] returns. *)
Definition locatorMethods : list string :=
  ["click"; "fill"; "press"; "innerText"; "textContent"; "isVisible";
   "isEnabled"; "isChecked"].

Definition _createLocatorWrapper (frame : Frame) (selector : string)
    (call : LocatorCall) : FrameOperation :=
  let operation (c : FrameCall) (strict : bool) : FrameOperation :=
    {| opFrame := frame; opSelector := selector; opCall := c;
       opStrict := strict; opTimeout := 5000 |} in
  match call with
  | LClick options => operation CallClick (default true options)
  | LFill text => operation (CallFill text) true
  | LPress key => operation (CallPress key) true
  | LInnerText => operation (CallQuery InnerText) true
  | LTextContent => operation (CallQuery TextContent) true
  | LIsVisible => operation (CallQuery IsVisible) true
  | LIsEnabled => operation (CallQuery IsEnabled) true
  | LIsChecked => operation (CallQuery IsChecked) true
  end.

(** The locator constructors of the object [_createPublicAPIWrapper]
    returns. *)
Inductive LocatorConstructor : Type :=
| ByLocator (selector : string)
| ByRole (role : string) (name : option Value)
| ByText (text : TextPattern)
| ByPlaceholder (placeholder : string)
| ByTestId (testId : string).

Definition _createPublicAPIWrapper (page : Page) (c : LocatorConstructor)
    : LocatorCall -> FrameOperation :=
  match c with
  | ByLocator selector => _createLocatorWrapper (mainFrame page) selector
  | ByRole role name =>
      _createLocatorWrapper (mainFrame page) (_buildRoleSelector role name)
  | ByText text =>
      _createLocatorWrapper (mainFrame page) (_buildTextSelector text)
  | ByPlaceholder placeholder =>
      _createLocatorWrapper (mainFrame page)
        ("[placeholder*=" ++ dquote ++ placeholder ++ dquote ++ "]")
  | ByTestId testId =>
      _createLocatorWrapper (mainFrame page)
        ("[data-testid=" ++ dquote ++ testId ++ dquote ++ "]")
  end.

(** ** The programmatic recorder *)

(** The merge predicate is imported from a module that is not part of
    the sources. *)
Variable shouldMergeAction : ActionInContext.t -> ActionInContext.t -> bool.

(** The events [ProgrammaticRecorderApp] emits on the inspected context. *)
Inductive RecorderEventOut : Type :=
| ActionAddedEvent (data : ActionInContext.t) (page : Page) (code : string)
| ActionUpdatedEvent (data : ActionInContext.t) (page : Page) (code : string)
| SignalAddedEvent (data : SignalInContext.t) (page : option Page) (code : string).

(** The variable [lastAction] of [run] and the events emitted so far. *)
Record Programmatic := {
  lastAction : option ActionInContext.t;
  emitted : list RecorderEventOut
}.

Definition findPageByGuid (pages : list Page) (pageGuid : string) : option Page :=
  List.find (fun p => String.eqb (guid p) pageGuid) pages.

Definition newline : string := String "010"%char EmptyString.

(** The listener of [RecorderEvent.ActionAdded], for the pages of the
    context, the generator and the options [run] fixed. *)
Definition programmaticActionAdded (pages : list Page)
    (languageGenerator : LanguageGenerator.t) (options : LanguageGeneratorOptions)
    (action : ActionInContext.t) (st : Programmatic) : Completion Programmatic :=
  match findPageByGuid pages
          (FrameDescription.pageGuid (ActionInContext.frame action)) with
  | None => Normal st
  | Some page =>
      match generateCode [action] languageGenerator options with
      | Thrown e => Thrown e
      | Normal generated =>
          let code := String.concat newline (Generated.actionTexts generated) in
          let added :=
            match lastAction st with
            | None => true
            | Some last => negb (shouldMergeAction action last)
            end in
          Normal
            {| lastAction := Some action;
               emitted :=
                 (emitted st
                  ++ [if added then ActionAddedEvent action page code
                      else ActionUpdatedEvent action page code])%list |}
      end
  end.

(** The listener of [RecorderEvent.SignalAdded]. *)
Definition programmaticSignalAdded (pages : list Page)
    (signal : SignalInContext.t) (st : Programmatic) : Programmatic :=
  {| lastAction := lastAction st;
     emitted :=
       (emitted st
        ++ [SignalAddedEvent signal
              (findPageByGuid pages
                 (FrameDescription.pageGuid (SignalInContext.frame signal)))
              ""])%list |}.

(** The actions the recorder reports, handled in order; a listener that
    throws ends the run with what was emitted before. *)
Fixpoint programmaticActions (pages : list Page)
    (languageGenerator : LanguageGenerator.t) (options : LanguageGeneratorOptions)
    (actions : list ActionInContext.t) (st : Programmatic) : Completion Programmatic :=
  match actions with
  | []%list => Normal st
  | (action :: rest)%list =>
      match programmaticActionAdded pages languageGenerator options action st with
      | Normal st' => programmaticActions pages languageGenerator options rest st'
      | Thrown e => Thrown e
      end
  end.

Definition knownPage (pages : list Page) (action : ActionInContext.t) : bool :=
  match findPageByGuid pages
          (FrameDescription.pageGuid (ActionInContext.frame action)) with
  | Some _ => true
  | None => false
  end.

(** ** More vocabulary *)

(** The Source of a generator that returns. *)
Definition sourceOf (actions : list ActionInContext.t)
    (options : LanguageGeneratorOptions) (g : LanguageGenerator.t) : option Source.t :=
  match generateCode actions g options with
  | Normal c => Some (makeSource g c)
  | Thrown _ => None
  end.

(** The output file after the Sources of a regeneration, in order, went
    through the primary check. *)
Definition mirrored (primary : string) (sources : list Source.t)
    (f : option ThrottledFile) : option ThrottledFile :=
  fold_left
    (fun f s =>
       if String.eqb (Source.id s) primary
       then option_map (setContent (Source.text s)) f else f)
    sources f.

(** The source to reveal after a loop over [generators]. *)
Definition revealed (reveal : bool) (selected : string)
    (generators : list LanguageGenerator.t) (revealSourceId : option string)
    : option string :=
  if reveal
     && existsb (fun g => String.eqb (LanguageGenerator.id g) selected) generators
  then Some selected else revealSourceId.

(** What no inbound event touches: the action objects, the primary
    generator and the user sources. *)
Definition untouched (w w' : World) : Prop :=
  store w' = store w
  /\ _primaryGeneratorId (recorderApp w') = _primaryGeneratorId (recorderApp w)
  /\ _userSources (recorderApp w') = _userSources (recorderApp w)
  /\ now w' = now w.

(** The action an emitted event is about. *)
Definition eventAction (ev : RecorderEventOut) : option ActionInContext.t :=
  match ev with
  | ActionAddedEvent data _ _ | ActionUpdatedEvent data _ _ => Some data
  | SignalAddedEvent _ _ _ => None
  end.

Definition isActionAdded (ev : RecorderEventOut) : bool :=
  match ev with
  | ActionAddedEvent _ _ _ => true
  | _ => false
  end.

(** The locator methods among the methods the classification of
    arbitrary code looks for. *)
Definition offeredQueries : list string :=
  List.filter (fun m => existsb (String.eqb m) locatorMethods) extractionMethods.

(** A text without the character [@]. *)
Fixpoint withoutAt (s : string) : bool :=
  match s with
  | EmptyString => true
  | String c r => negb (Ascii.eqb c "@"%char) && withoutAt r
  end.

(** ** More of the sample session *)

Definition outputFile : ThrottledFile :=
  {| file := "out.spec.ts"; content := None |}.

(** The session with one page and an output file. *)
Definition recordingToFile : World :=
  withApp (setThrottledOutputFile (Some outputFile)) onePage.

(** An action object that is not in the action list yet. *)
Definition pending : World :=
  {| recorderApp := sampleApp [(samplePage, "page")];
     store := <[0%nat := sampleAction "page@1" "#a"]> ∅;
     now := 1000; console := []; unhandledRejections := [] |}.

(** A code generation in which the second target is broken. *)
Definition brokenPython (actions : list ActionInContext.t)
    (g : LanguageGenerator.t) (o : LanguageGeneratorOptions) : Completion Generated.t :=
  if String.eqb (LanguageGenerator.id g) "python"
  then Thrown (Error_ "generator failed")
  else Normal (sampleGenerated g).

(** A page on which every operation throws the string boom. *)
Definition throwingEnv (op : ExternalOp) : Completion Value :=
  Thrown (Raised (VString "boom")).

(** A page on which every operation returns the text Hello. *)
Definition helloEnv (op : ExternalOp) : Completion Value := Normal (VString "Hello").

Definition fileParams (fileId : string) : Params.t :=
  {| Params.fileId := Some fileId; Params.autoExpect := None; Params.mode := None;
     Params.selector := None; Params.ariaTemplate := None;
     Params.locator := None; Params.action := None;
     Params.extraction := None; Params.args := None; Params.code := None |}.

Definition neverMerge (action last : ActionInContext.t) : bool := false.

Definition sampleToasts : list Toast.ToastMessage :=
  [{| Toast.id := "toast_1"; Toast.type := Toast.success; Toast.message := "Copied";
      Toast.duration := Some 3000%Z |};
   {| Toast.id := "toast_2"; Toast.type := Toast.error; Toast.message := "Failed";
      Toast.duration := Some 5000%Z |}].

Definition samplePackage : Publish.PackageJson :=
  {| Publish.version := "1.0.0";
     Publish.dependencies :=
       Some [("@sh_michael/playwright-core", "1.0.0"); ("ws", "8.17.1")];
     Publish.overrides :=
       Some [("playwright-core",
              Publish.OverrideString "npm:@sh_michael/playwright-core@1.0.0")] |}.

(** * Properties *)

(** ** Blank inputs *)

Lemma trimStart_blank (s : string) :
  onlyWhiteSpace s = true -> trimStart s = "".
Proof.
  induction s as [|c r IH]; simpl; [reflexivity|].
  intros H. apply andb_prop in H as [Hc Hr].
  rewrite Hc. exact (IH Hr).
Qed.

Lemma trimStart_not_blank (s : string) :
  onlyWhiteSpace s = false -> onlyWhiteSpace (trimStart s) = false.
Proof.
  induction s as [|c r IH]; simpl; [discriminate|].
  destruct (isWhiteSpace c) eqn:Hc; simpl.
  - exact IH.
  - intros _. rewrite Hc. reflexivity.
Qed.

Lemma trimEnd_empty (s : string) :
  trimEnd s = "" -> onlyWhiteSpace s = true.
Proof.
  induction s as [|c r IH]; simpl; [reflexivity|].
  destruct (trimEnd r) eqn:Hr; [|discriminate].
  destruct (isWhiteSpace c); [|discriminate].
  intros _. simpl. exact (IH eq_refl).
Qed.

(** The test [!x?.trim()] of the executors holds exactly of the blank
    inputs. *)
Lemma notTrimmed_blank (o : option string) : notTrimmed o = blank o.
Proof.
  destruct o as [s|]; [|reflexivity].
  unfold notTrimmed, blank, truthy, trim. rewrite negb_involutive.
  destruct (onlyWhiteSpace s) eqn:Hs.
  - rewrite (trimStart_blank s Hs). reflexivity.
  - apply String.eqb_neq. intros H.
    apply trimEnd_empty in H.
    rewrite (trimStart_not_blank s Hs) in H. discriminate.
Qed.

(** ** Cases of a [switch] *)

Lemma eqb_not_in (k c : string) (l : list string) :
  ~ In k l -> In c l -> String.eqb k c = false.
Proof.
  intros Hk Hc. apply String.eqb_neq. intros ->. exact (Hk Hc).
Qed.

Ltac no_case H :=
  repeat
    match goal with
    | |- context [String.eqb ?k ?c] =>
        rewrite (eqb_not_in k c _ H) by (simpl; tauto)
    end.

Lemma build_unsupported (selector : string) (kind : option string) (args : list string) :
  unsupported supportedActions kind ->
  _buildSyntheticAction selector kind args
  = Thrown (Error_ ("Unsupported action: " ++ interpolate kind)).
Proof.
  intros H. unfold _buildSyntheticAction.
  destruct kind as [k|]; simpl; [|reflexivity].
  change (~ In k supportedActions) in H.
  no_case H. reflexivity.
Qed.

Lemma build_supported (selector k : string) (args : list string) :
  In k supportedActions ->
  exists a, _buildSyntheticAction selector (Some k) args = Normal a.
Proof.
  unfold supportedActions. simpl.
  intros [<-|[<-|[<-|[<-|[<-|[<-|[<-|[]]]]]]]]; eexists; reflexivity.
Qed.

Lemma extraction_unsupported (frame : Frame) (selector : string)
    (kind : option string) (args : option (list string)) (w : World) :
  unsupported extractionKinds kind ->
  _performExtraction frame selector kind args w
  = Settled (Thrown (Error_ ("Unsupported extraction: " ++ interpolate kind))) w.
Proof.
  intros H. unfold _performExtraction.
  destruct kind as [k|]; simpl; [|reflexivity].
  change (~ In k extractionKinds) in H.
  no_case H. reflexivity.
Qed.

Lemma queryFor_none (k : string) (args : list string) :
  ~ In k extractionKinds -> queryFor k args = None.
Proof.
  intros H. unfold queryFor. no_case H. reflexivity.
Qed.

Lemma queryFor_some (k : string) (args : list string) :
  In k extractionKinds -> exists q, queryFor k args = Some q.
Proof.
  unfold extractionKinds. simpl.
  intros [<-|[<-|[<-|[<-|[<-|[<-|[<-|[<-|[]]]]]]]]]; eexists; reflexivity.
Qed.

Lemma extraction_supported (frame : Frame) (selector k : string)
    (args : list string) (w : World) (q : FrameQuery) (strict : bool) :
  queryFor k args = Some (q, strict) ->
  _performExtraction frame selector (Some k) (Some args) w
  = Suspended (Query frame selector q strict 5000) w Settled.
Proof.
  unfold queryFor, _performExtraction. simpl.
  repeat (destruct (String.eqb k _); [intros [= <- <-]; reflexivity|]).
  discriminate.
Qed.

(** ** The classification of arbitrary code *)

Example extraction_command_locator :
  _isExtractionCommand "getByText('Welcome').innerText()" = true.
Proof. reflexivity. Qed.

Example extraction_command_page :
  _isExtractionCommand " page.title ( ) " = true.
Proof. reflexivity. Qed.

Example action_command :
  _isExtractionCommand "locator('#submit').click()" = false.
Proof. reflexivity. Qed.

Example page_method_anchored :
  _isExtractionCommand "mypage.url()" = false.
Proof. reflexivity. Qed.

(** ** Validation *)

(** C4. A performAction or performExtraction request whose locator is
    absent or only white space, and an executeArbitraryCode request whose
    code is absent or blank, is rejected with the validation error before
    the executor suspends on anything, on the state it was started on:
    no call-log entry is created. *)
Theorem blank_input_fails_validation (c : Command) (p : Params.t) (w : World) :
  blank (requiredInput c p) = true ->
  execute c p w = Settled (Thrown (Error_ (validationMessage c))) w
  /\ callLog (recorder (worldOf (execute c p w))) = callLog (recorder w).
Proof.
  intros H.
  assert (E : execute c p w = Settled (Thrown (Error_ (validationMessage c))) w).
  { destruct c; simpl in *;
      [unfold _executeUIAction | unfold _executeUIExtraction
      | unfold _executeArbitraryCode];
      rewrite notTrimmed_blank, H; reflexivity. }
  rewrite E. split; reflexivity.
Qed.

(** ** Unknown events *)

Lemma command_event_returns (c : Command) (p : Params.t) (w : World) :
  completion (_handleUIEvent {| event := eventOf c; params := p |} w) = Normal tt.
Proof. destruct c; reflexivity. Qed.

(** C3. An event whose tag is none of the recognised kinds makes
    [_handleUIEvent] throw the "Unknown event" error synchronously, with
    the state untouched and no promise left behind; the failure of a
    command never completes the dispatcher this way, the dispatcher
    returns normally from every command event. *)
Theorem unknown_event_throws (data : EventData) (w : World) :
  ~ In (event data) recognizedEvents ->
  _handleUIEvent data w
  = {| completion := Thrown (Error_ ("Unknown event: " ++ event data));
       after := w; floating := None |}
  /\ forall c p w',
      completion (_handleUIEvent {| event := eventOf c; params := p |} w')
      = Normal tt.
Proof.
  intros H. split; [|exact command_event_returns].
  unfold _handleUIEvent. no_case H. reflexivity.
Qed.

(** ** Unsupported actions *)

(** C10. A performAction request with a locator that is not blank and an
    action kind outside click, dblclick, fill, press, check, uncheck and
    selectOption cannot be built: [_buildSyntheticAction] throws the
    "Unsupported action" error, the command is rejected without having
    suspended and on the state it was started on, so that no call-log
    entry is created, and with a tracked page the rejection is that
    error. The kinds hover and scroll, which [PerformActionParams]
    declares, are among them. *)
Theorem unsupported_action_rejected (p : Params.t) (w : World) :
  blank (Params.locator p) = false ->
  unsupported supportedActions (Params.action p) ->
  let failure := Error_ ("Unsupported action: " ++ interpolate (Params.action p)) in
  _buildSyntheticAction (default "" (Params.locator p)) (Params.action p)
    (default [] (Params.args p)) = Thrown failure
  /\ (exists e, _executeUIAction p w = Settled (Thrown e) w)
  /\ (pageAliases (recorder w) <> []%list ->
      _executeUIAction p w = Settled (Thrown failure) w)
  /\ (In "hover" declaredActions /\ unsupported supportedActions (Some "hover"))
  /\ (In "scroll" declaredActions /\ unsupported supportedActions (Some "scroll")).
Proof.
  intros Hl Hk failure.
  pose proof (build_unsupported (default "" (Params.locator p)) _
                (default [] (Params.args p)) Hk) as Hb.
  assert (Hw : pageAliases (recorder w) <> []%list ->
               _executeUIAction p w = Settled (Thrown failure) w).
  { intros Hp. unfold _executeUIAction, frameForSelector.
    rewrite notTrimmed_blank, Hl.
    destruct (pageAliases (recorder w)) as [|a l]; [contradiction|].
    cbn [length Nat.eqb]. rewrite Hb. reflexivity. }
  split; [exact Hb|]. split; [|split; [exact Hw|]].
  - destruct (pageAliases (recorder w)) as [|a l] eqn:Hp.
    + eexists. unfold _executeUIAction. rewrite notTrimmed_blank, Hl, Hp.
      reflexivity.
    + eexists. apply Hw. discriminate.
  - split; (split; [simpl; tauto|]); simpl; intros H;
      repeat (destruct H as [H|H]; [discriminate|]); exact H.
Qed.

(** ** No tracked page *)

(** C6, amended. A performAction or performExtraction command whose
    locator is not blank, dispatched while no page is tracked, fails in
    frame resolution with a "no pages available" error on the state it
    was started on, before any call-log entry is created. *)
Theorem no_pages_fails_resolution (p : Params.t) (w : World) :
  pageAliases (recorder w) = []%list ->
  blank (Params.locator p) = false ->
  failsWithNoPages w (_executeUIAction p w)
  /\ failsWithNoPages w (_executeUIExtraction p w).
Proof.
  intros Hp Hl. split; eexists.
  - unfold _executeUIAction. rewrite notTrimmed_blank, Hl, Hp.
    split; reflexivity.
  - unfold _executeUIExtraction, frameForSelector.
    rewrite notTrimmed_blank, Hl, Hp. split; reflexivity.
Qed.

(** ** The target of arbitrary code *)

(** C8. With at least one tracked page, an executeArbitraryCode command
    either is rejected by validation, its code being blank, or evaluates
    its code on the first page of the page aliases, whatever the code is;
    it starts no other operation. *)
Theorem arbitrary_code_targets_first_page (p : Params.t) (w : World)
    (page : Page) (pageAlias : string) (others : list (Page * string)) :
  pageAliases (recorder w) = ((page, pageAlias) :: others)%list ->
  match _executeArbitraryCode p w with
  | Suspended op _ k =>
      blank (Params.code p) = false
      /\ op = Evaluate page (default "" (Params.code p))
      /\ forall c w2, exists c' w3, k c w2 = Settled c' w3
  | Settled _ _ => blank (Params.code p) = true
  end.
Proof.
  intros Hp. unfold _executeArbitraryCode.
  rewrite notTrimmed_blank, Hp.
  destruct (blank (Params.code p)); [reflexivity|].
  cbn. split; [reflexivity|]. split; [reflexivity|].
  intros [result|e] w2; cbn; eauto.
Qed.

(** ** Failures at the dispatch boundary *)

(** The promise of performAction and performExtraction is discarded with
    [void]: when the command fails, the rejection has no handler. *)
Lemma discarded_failure_unhandled (env : ExternalOp -> Completion Value)
    (c : Command) (p : Params.t) (w w' : World) (e : Exn) :
  c <> ExecuteArbitraryCodeCommand ->
  run env (execute c p w) = (Thrown e, w') ->
  dispatch env {| event := eventOf c; params := p |} w
  = (Normal tt, unhandledRejection e w').
Proof.
  intros Hc Hr. destruct c; [| |contradiction]; unfold dispatch, settle; cbn;
    cbn in Hr; rewrite Hr; reflexivity.
Qed.

(** The promise of executeArbitraryCode has a handler that logs the
    failure on the console. *)
Lemma caught_failure_logged (env : ExternalOp -> Completion Value)
    (p : Params.t) (w w' : World) (e : Exn) :
  run env (_executeArbitraryCode p w) = (Thrown e, w') ->
  dispatch env {| event := "executeArbitraryCode"; params := p |} w
  = (Normal tt, consoleError "Failed to execute arbitrary code:" e w').
Proof.
  intros Hr. unfold dispatch, settle. cbn. rewrite Hr. reflexivity.
Qed.

(** C1, at the failing input. Dispatching performAction with the empty
    locator and the action click: the executor rejects with "Locator is
    required", the dispatcher returns normally, nothing is written to the
    console, and the rejection ends as an unhandled rejection of the
    process. *)
Theorem performAction_failure_unhandled (env : ExternalOp -> Completion Value)
    (w : World) :
  dispatch env {| event := "performAction"; params := actionParams "" "click" |} w
  = (Normal tt, unhandledRejection (Error_ "Locator is required") w)
  /\ console (snd (dispatch env
        {| event := "performAction"; params := actionParams "" "click" |} w))
     = console w
  /\ unhandledRejections (snd (dispatch env
        {| event := "performAction"; params := actionParams "" "click" |} w))
     = (unhandledRejections w ++ [Error_ "Locator is required"])%list.
Proof. repeat split. Qed.

(** ** Extraction kinds *)

(** C5. Each of the eight extraction kinds starts the query that goes
    with it, on the resolved frame and the selector, under the deadline
    5000; any other kind, or none, fails with the "Unsupported extraction"
    error without a query. In the command, which has pushed its entry to
    the call log by then, that error takes the path a failed query takes:
    the entry is updated to [error] with the message and the failure is
    raised again. *)
Theorem extraction_kinds_dispatch (frame : Frame) (p : Params.t) (w : World) :
  (forall selector args w0 k,
      In k extractionKinds ->
      exists q strict,
        queryFor k args = Some (q, strict)
        /\ _performExtraction frame selector (Some k) (Some args) w0
           = Suspended (Query frame selector q strict 5000) w0 Settled)
  /\ (forall selector args w0 kind,
      unsupported extractionKinds kind ->
      _performExtraction frame selector kind args w0
      = Settled (Thrown (Error_ ("Unsupported extraction: " ++ interpolate kind))) w0)
  /\ (blank (Params.locator p) = false ->
      frameForSelector (default "" (Params.locator p)) (recorder w) = Normal frame ->
      exists a callLogId w1,
        pushTemporaryCallLog a w = (callLogId, w1)
        /\ Action.name (ActionInContext.action a)
           = "extract_" ++ interpolate (Params.extraction p)
        /\ (forall k,
             Params.extraction p = Some k ->
             In k extractionKinds ->
             exists q strict kont,
               queryFor k (default [] (Params.args p)) = Some (q, strict)
               /\ _executeUIExtraction p w
                  = Suspended
                      (Query frame (default "" (Params.locator p)) q strict 5000)
                      w1 kont
               /\ forall e w2, kont (Thrown e) w2 = reportFailure callLogId e w2)
        /\ (unsupported extractionKinds (Params.extraction p) ->
            _executeUIExtraction p w
            = reportFailure callLogId
                (Error_ ("Unsupported extraction: " ++ interpolate (Params.extraction p)))
                w1)).
Proof.
  split; [|split].
  - intros selector args w0 k Hk.
    destruct (queryFor_some k args Hk) as [[q strict] Hq].
    exists q, strict. split; [exact Hq|].
    exact (extraction_supported frame selector k args w0 q strict Hq).
  - intros selector args w0 kind Hk.
    exact (extraction_unsupported frame selector kind args w0 Hk).
  - intros Hl Hf. unfold _executeUIExtraction.
    rewrite notTrimmed_blank, Hl, Hf.
    match goal with
    | |- context [pushTemporaryCallLog ?a w] =>
        exists a; destruct (pushTemporaryCallLog a w) as [callLogId w1]
    end.
    exists callLogId, w1. split; [reflexivity|]. split; [reflexivity|]. split.
    + intros k Hk Hin.
      destruct (queryFor_some k (default [] (Params.args p)) Hin) as [[q strict] Hq].
      exists q, strict. rewrite Hk.
      rewrite (extraction_supported _ _ k _ _ q strict Hq).
      eexists. split; [exact Hq|]. split; [reflexivity|].
      intros e w2. reflexivity.
    + intros Hk. rewrite (extraction_unsupported _ _ _ _ _ Hk). reflexivity.
Qed.

Lemma push_created (a : ActionInContext.t) (w : World) :
  exists e,
    entryCreated w (snd (pushTemporaryCallLog a w)) e
    /\ CallLog.id e = fst (pushTemporaryCallLog a w).
Proof. eexists. repeat split. Qed.

(** ** The life of a call-log entry *)

Lemma complete_others (logId : nat) (st : CallLogStatus) (payload : option Value)
    (time : Z) (log : list CallLog.t) :
  Forall (fun e => CallLog.id e < logId) log ->
  List.map (completeEntry logId st payload time) log = log.
Proof.
  induction 1 as [|e log He _ IH]; [reflexivity|].
  simpl. rewrite IH. f_equal.
  unfold completeEntry.
  replace (CallLog.id e =? logId)%nat with false
    by (symmetry; apply Nat.eqb_neq; lia).
  destruct (CallLog.status e); reflexivity.
Qed.

Lemma completed_entry (w w1 w2 : World) (e : CallLog.t) (c : Completion unit) :
  Forall (fun e' => CallLog.id e' < nextLogId (recorder w)) (callLog (recorder w)) ->
  entryCreated w w1 e ->
  entryCompleted (CallLog.id e) c w1 w2 ->
  exists e',
    callLog (recorder w2) = (callLog (recorder w) ++ [e'])%list
    /\ CallLog.id e' = CallLog.id e
    /\ settledEntry c e'.
Proof.
  intros Hwf (Hlog & Hst & Herr & Hid & _) [Hc _].
  rewrite <- Hid in Hwf.
  assert (Hthis : forall st payload,
    List.map (completeEntry (CallLog.id e) st payload (now w1)) (callLog (recorder w1))
    = (callLog (recorder w)
       ++ [completeEntry (CallLog.id e) st payload (now w1) e])%list).
  { intros st payload. rewrite Hlog, List.map_app, complete_others by exact Hwf.
    reflexivity. }
  destruct c as [[]|err].
  - destruct Hc as [payload Hc]. rewrite Hthis in Hc.
    eexists. split; [exact Hc|].
    unfold completeEntry. rewrite Hst, Nat.eqb_refl. cbn. auto.
  - rewrite Hthis in Hc. eexists. split; [exact Hc|].
    unfold completeEntry. rewrite Hst, Nat.eqb_refl. cbn. auto.
Qed.

Lemma lifecycle_action (p : Params.t) (w : World) :
  passesValidation PerformActionCommand p = true ->
  passesResolution PerformActionCommand p w = true ->
  buildable PerformActionCommand p ->
  lifecycle PerformActionCommand p w (_executeUIAction p w).
Proof.
  unfold passesValidation, passesResolution. cbn [requiredInput].
  intros Hv Hr (k & Hk & Hin).
  apply negb_true_iff in Hv. apply andb_prop in Hr as [Hn Hf].
  apply negb_true_iff in Hn.
  destruct (build_supported (default "" (Params.locator p)) k
              (default [] (Params.args p)) Hin) as [a Ha].
  unfold lifecycle, _executeUIAction. cbn [operationOf].
  rewrite notTrimmed_blank, Hv, Hn.
  destruct (frameForSelector _ _) as [frame|]; [|discriminate].
  rewrite Hk, Ha.
  match goal with
  | |- context [pushTemporaryCallLog ?x w] =>
      destruct (push_created x w) as (entry & Hc & Hi);
      destruct (pushTemporaryCallLog x w) as [callLogId w1]
  end.
  cbn in Hc, Hi. subst callLogId.
  match goal with
  | |- context [Suspended (PerformAction ?aliases ?x) w1 _] =>
      exists entry, w1, (Suspended (PerformAction aliases x) w1 Settled)
  end.
  split; [exact Hc|]. split.
  - eexists. split; [|reflexivity]. reflexivity.
  - apply follows_suspended. intros [v|e] w2.
    + apply (follows_settled _ (Normal v)). split; [|reflexivity].
      exists None. reflexivity.
    + apply (follows_settled _ (Thrown e)). split; reflexivity.
Qed.

Lemma lifecycle_extraction (p : Params.t) (w : World) :
  passesValidation PerformExtractionCommand p = true ->
  passesResolution PerformExtractionCommand p w = true ->
  lifecycle PerformExtractionCommand p w (_executeUIExtraction p w).
Proof.
  unfold passesValidation, passesResolution. cbn [requiredInput].
  intros Hv Hf. apply negb_true_iff in Hv.
  unfold lifecycle, _executeUIExtraction. cbn [operationOf].
  rewrite notTrimmed_blank, Hv.
  destruct (frameForSelector _ _) as [frame|]; [|discriminate].
  match goal with
  | |- context [pushTemporaryCallLog ?x w] =>
      destruct (push_created x w) as (entry & Hc & Hi);
      destruct (pushTemporaryCallLog x w) as [callLogId w1]
  end.
  cbn in Hc, Hi. subst callLogId.
  exists entry, w1,
    (_performExtraction frame (default "" (Params.locator p)) (Params.extraction p)
       (Some (default [] (Params.args p))) w1).
  split; [exact Hc|]. split.
  { exists frame. split; reflexivity. }
  assert (Hk : (exists k, Params.extraction p = Some k /\ In k extractionKinds)
               \/ unsupported extractionKinds (Params.extraction p)).
  { destruct (Params.extraction p) as [k|]; [|right; exact I].
    destruct (in_dec string_dec k extractionKinds); [left; eauto|right; assumption]. }
  destruct Hk as [(k & Hk & Hin)|Hk].
  - destruct (queryFor_some k (default [] (Params.args p)) Hin) as [[q strict] Hq].
    rewrite Hk, (extraction_supported _ _ k _ _ q strict Hq). cbn [await].
    apply follows_suspended. intros [v|e] w2.
    + apply (follows_settled _ (Normal v)). split; [|reflexivity].
      exists (Some v). reflexivity.
    + apply (follows_settled _ (Thrown e)). split; reflexivity.
  - rewrite (extraction_unsupported _ _ _ _ _ Hk). cbn [await].
    apply (follows_settled _ (Thrown _)). split; reflexivity.
Qed.

Lemma lifecycle_code (p : Params.t) (w : World) :
  passesValidation ExecuteArbitraryCodeCommand p = true ->
  passesResolution ExecuteArbitraryCodeCommand p w = true ->
  lifecycle ExecuteArbitraryCodeCommand p w (_executeArbitraryCode p w).
Proof.
  unfold passesValidation, passesResolution. cbn [requiredInput].
  intros Hv Hn. apply negb_true_iff in Hv.
  unfold lifecycle, _executeArbitraryCode. cbn [operationOf].
  rewrite notTrimmed_blank, Hv.
  destruct (pageAliases (recorder w)) as [|[page pageAlias] others] eqn:Hp;
    [discriminate|].
  match goal with
  | |- context [pushTemporaryCallLog ?x w] =>
      destruct (push_created x w) as (entry & Hc & Hi);
      destruct (pushTemporaryCallLog x w) as [callLogId w1]
  end.
  cbn in Hc, Hi. subst callLogId.
  exists entry, w1, (_executePlaywrightCode page (default "" (Params.code p)) w1).
  split; [exact Hc|]. split.
  { exists page, pageAlias, others. split; reflexivity. }
  cbn [_executePlaywrightCode await].
  apply follows_suspended. intros [v|e] w2; cbn [await].
  - apply (follows_settled _ (Normal v)). split.
    + exists (Some v). destruct v; reflexivity.
    + destruct v; reflexivity.
  - apply (follows_settled _ (Thrown _)). split; reflexivity.
Qed.

(** An operation leaves the state as it is. *)
Lemma operation_world (c : Command) (p : Params.t) (w w1 : World) (body : Task Value)
    (env : ExternalOp -> Completion Value) :
  operationOf c p w w1 body -> snd (run env body) = w1.
Proof.
  destruct c; cbn [operationOf].
  - intros (a & _ & ->). reflexivity.
  - intros (frame & _ & ->).
    assert (Hk : (exists k, Params.extraction p = Some k /\ In k extractionKinds)
                 \/ unsupported extractionKinds (Params.extraction p)).
    { destruct (Params.extraction p) as [k|]; [|right; exact I].
      destruct (in_dec string_dec k extractionKinds); [left; eauto|right; assumption]. }
    destruct Hk as [(k & Hk & Hin)|Hk].
    + destruct (queryFor_some k (default [] (Params.args p)) Hin) as [[q strict] Hq].
      rewrite Hk, (extraction_supported _ _ k _ _ q strict Hq). reflexivity.
    + rewrite (extraction_unsupported _ _ _ _ _ Hk). reflexivity.
  - intros (page & pageAlias & others & _ & ->).
    cbn. destruct (env _); reflexivity.
Qed.

(** A command that follows an operation settles as the operation does,
    with the transition made on the state the operation left. *)
Lemma follows_run (logId : nat) (body : Task Value) (t : Task unit)
    (env : ExternalOp -> Completion Value) :
  follows logId body t ->
  fst (run env t) = reraised (fst (run env body))
  /\ entryCompleted logId (fst (run env t)) (snd (run env body)) (snd (run env t)).
Proof.
  induction 1 as [r w2 w3 Hd|op w1 kb kt _ IH].
  - split; [reflexivity|exact Hd].
  - cbn [run]. apply IH.
Qed.

Lemma lifecycle_run (c : Command) (p : Params.t) (w : World) (t : Task unit)
    (env : ExternalOp -> Completion Value) :
  lifecycle c p w t ->
  Forall (fun e => CallLog.id e < nextLogId (recorder w)) (callLog (recorder w)) ->
  exists e',
    callLog (recorder (snd (run env t))) = (callLog (recorder w) ++ [e'])%list
    /\ CallLog.id e' = nextLogId (recorder w)
    /\ settledEntry (fst (run env t)) e'.
Proof.
  intros (e & w1 & body & Hc & Hop & Hf) Hwf.
  destruct (follows_run _ _ _ env Hf) as [_ Hd].
  rewrite (operation_world c p w w1 body env Hop) in Hd.
  destruct (completed_entry w w1 _ e _ Hwf Hc Hd) as (e' & H1 & H2 & H3).
  exists e'. destruct Hc as (_ & _ & _ & Hid & _).
  split; [exact H1|]. split; [congruence|exact H3].
Qed.

(** C2, amended. A command that passes validation and resolution and,
    for performAction, has an action kind that can be built, creates one
    temporary entry, in progress, before its operation begins: the
    action that was built, the query of the extraction or the evaluation
    of the code. The command is suspended exactly where the operation
    is; when the operation completes the entry makes one transition, to
    [done] on success and to [error] with the message of the failure
    otherwise, and the command has settled, raising that very failure to
    its caller. It fails at once, no operation being started, exactly
    when it is a performExtraction with an unsupported kind. Run on its
    own from a call log whose ids are below the next id, the command
    leaves the call log with exactly that one entry more, in its
    terminal status. *)
Theorem command_call_log_lifecycle (c : Command) (p : Params.t) (w : World) :
  passesValidation c p = true ->
  passesResolution c p w = true ->
  buildable c p ->
  lifecycle c p w (execute c p w)
  /\ ((exists c' w', execute c p w = Settled c' w')
      <-> c = PerformExtractionCommand
          /\ unsupported extractionKinds (Params.extraction p))
  /\ (Forall (fun e => CallLog.id e < nextLogId (recorder w)) (callLog (recorder w)) ->
      forall env, exists e',
        callLog (recorder (snd (run env (execute c p w))))
        = (callLog (recorder w) ++ [e'])%list
        /\ CallLog.id e' = nextLogId (recorder w)
        /\ settledEntry (fst (run env (execute c p w))) e').
Proof.
  intros Hv Hr Hb.
  assert (Hl : lifecycle c p w (execute c p w)).
  { destruct c; cbn [execute].
    - exact (lifecycle_action p w Hv Hr Hb).
    - exact (lifecycle_extraction p w Hv Hr).
    - exact (lifecycle_code p w Hv Hr). }
  split; [exact Hl|]. split.
  - destruct Hl as (e & w1 & body & _ & Hop & Hf). split.
    + intros (c' & w' & Ht). rewrite Ht in Hf.
      inversion Hf as [r w2 w3 Hd Hbody Hsettled|]; subst.
      destruct c; cbn [operationOf] in Hop.
      * destruct Hop as (a & _ & Hbody). discriminate.
      * split; [reflexivity|].
        destruct Hop as (frame & _ & Hbody).
        destruct (Params.extraction p) as [k|]; [|exact I].
        intros Hin.
        destruct (queryFor_some k (default [] (Params.args p)) Hin) as [[q strict] Hq].
        rewrite (extraction_supported _ _ k _ _ q strict Hq) in Hbody. discriminate.
      * destruct Hop as (page & pageAlias & others & _ & Hbody). discriminate.
    + intros [-> Hk]. cbn [operationOf] in Hop.
      destruct Hop as (frame & _ & ->).
      rewrite (extraction_unsupported _ _ _ _ _ Hk) in Hf.
      inversion Hf; subst. eauto.
  - intros Hwf env. exact (lifecycle_run c p w _ env Hl Hwf).
Qed.

(** ** Regeneration of the Sources *)

Lemma withApp_outputFile_id (w : World) :
  withApp (setThrottledOutputFile (_throttledOutputFile (recorderApp w))) w = w.
Proof. destruct w as [[] ? ? ? ?]. reflexivity. Qed.

(** The loop touches nothing but the throttled output file. *)
Lemma forEachGenerator_generates (reveal : bool) (actions : list ActionInContext.t)
    (options : LanguageGeneratorOptions) (generators : list LanguageGenerator.t) :
  Forall (generates actions options) generators ->
  forall acc rid w,
    _languageGeneratorOptions (recorderApp w) = options ->
    exists sources rid' f,
      forEachGenerator reveal actions generators acc rid w
      = (Normal ((acc ++ sources)%list, rid'),
         withApp (setThrottledOutputFile f) w)
      /\ Forall2 (produces actions options) generators sources.
Proof.
  induction 1 as [|g rest Hg _ IH]; intros acc rid w Ho.
  - exists []%list, rid, (_throttledOutputFile (recorderApp w)).
    cbn. rewrite withApp_outputFile_id, app_nil_r. split; [reflexivity|constructor].
  - unfold generates in Hg.
    destruct (generateCode actions g options) as [c|] eqn:Hc; [|discriminate].
    cbn [forEachGenerator]. unfold bind, gets, liftCompletion. rewrite Ho, Hc.
    destruct (String.eqb (LanguageGenerator.id g) (_primaryGeneratorId (recorderApp w)));
      cbn [modify ret];
      match goal with
      | |- context [forEachGenerator _ _ _ ?a ?r ?x] =>
          destruct (IH a r x Ho) as (sources & rid' & f & Hrun & Hall)
      end;
      exists (makeSource g c :: sources)%list, rid', f;
      rewrite Hrun, <- app_assoc; (split; [reflexivity|]);
      (constructor; [exists c; auto|exact Hall]).
Qed.

Lemma forEachGenerator_throws (reveal : bool) (actions : list ActionInContext.t)
    (options : LanguageGeneratorOptions) (before : list LanguageGenerator.t)
    (g : LanguageGenerator.t) (rest : list LanguageGenerator.t) (e : Exn) :
  Forall (generates actions options) before ->
  generateCode actions g options = Thrown e ->
  forall acc rid w,
    _languageGeneratorOptions (recorderApp w) = options ->
    exists f,
      forEachGenerator reveal actions (before ++ g :: rest) acc rid w
      = (Thrown e, withApp (setThrottledOutputFile f) w).
Proof.
  intros Hb He. induction Hb as [|g0 before Hg _ IH]; intros acc rid w Ho.
  - exists (_throttledOutputFile (recorderApp w)).
    cbn [List.app forEachGenerator]. unfold bind, gets, liftCompletion.
    rewrite Ho, He, withApp_outputFile_id. reflexivity.
  - unfold generates in Hg.
    destruct (generateCode actions g0 options) as [c|] eqn:Hc; [|discriminate].
    cbn [List.app forEachGenerator]. unfold bind, gets, liftCompletion. rewrite Ho, Hc.
    destruct (String.eqb (LanguageGenerator.id g0) (_primaryGeneratorId (recorderApp w)));
      cbn [modify ret];
      match goal with
      | |- context [forEachGenerator _ _ _ ?a ?r ?x] =>
          destruct (IH a r x Ho) as (f & Hrun)
      end;
      exists f; rewrite Hrun; reflexivity.
Qed.

Lemma updateActions_loop (reveal : bool) (w : World) :
  _updateActions reveal w
  = match forEachGenerator reveal (collapsed w) languageSet []%list None w with
    | (Normal r, w1) =>
        (_pushAllSources ;; _revealSource (snd r))
          (withApp (setRecorderSources (fst r)) w1)
    | (Thrown e, w1) => (Thrown e, w1)
    end.
Proof.
  unfold _updateActions, bind at 1 2 3, gets, modify, collapsed.
  destruct (forEachGenerator _ _ _ _ _ _) as [[r|e] w1]; reflexivity.
Qed.

(** C7, amended. Regeneration is fail-fast. When every registered
    generator returns, [_updateActions] completes and stores one Source
    per generator, in the order of the language set. When a generator
    throws after the ones before it returned, [_updateActions] throws
    that error: the stored recorder Sources and what was pushed to the
    control surface stay as they were, so neither the generators before
    the failing one nor the ones after it have a Source of this
    regeneration. *)
Theorem regeneration_fails_fast (reveal : bool) (w : World) :
  let actions := collapsed w in
  let options := _languageGeneratorOptions (recorderApp w) in
  let w' := snd (_updateActions reveal w) in
  (Forall (generates actions options) languageSet ->
   fst (_updateActions reveal w) = Normal tt
   /\ Forall2 (produces actions options) languageSet (_recorderSources (recorderApp w')))
  /\ (forall before g rest e,
       languageSet = (before ++ g :: rest)%list ->
       Forall (generates actions options) before ->
       generateCode actions g options = Thrown e ->
       fst (_updateActions reveal w) = Thrown e
       /\ _recorderSources (recorderApp w') = _recorderSources (recorderApp w)
       /\ _uiPage (recorderApp w') = _uiPage (recorderApp w)).
Proof.
  intros actions options w'. subst w'. rewrite updateActions_loop. split.
  - intros Hall.
    destruct (forEachGenerator_generates reveal actions options languageSet Hall
                []%list None w eq_refl) as (sources & rid & f & Hrun & Hs).
    fold actions. rewrite Hrun. cbn [List.app fst snd].
    unfold bind, modify, _pushAllSources, _revealSource.
    destruct rid as [i|]; [destruct (truthy i)|]; (split; [reflexivity|exact Hs]).
  - intros before g rest e Hset Hb He.
    destruct (forEachGenerator_throws reveal actions options before g rest e Hb He
                []%list None w eq_refl) as (f & Hrun).
    fold actions. rewrite Hset, Hrun. repeat split.
Qed.

(** ** Signals *)

Lemma forEachGenerator_frame (reveal : bool) (actions : list ActionInContext.t)
    (generators : list LanguageGenerator.t) :
  forall acc rid w,
    exists c f,
      forEachGenerator reveal actions generators acc rid w
      = (c, withApp (setThrottledOutputFile f) w).
Proof.
  induction generators as [|g rest IH]; intros acc rid w.
  - exists (Normal (acc, rid)), (_throttledOutputFile (recorderApp w)).
    cbn. rewrite withApp_outputFile_id. reflexivity.
  - cbn [forEachGenerator]. unfold bind, gets, liftCompletion.
    destruct (generateCode actions g _) as [c|e].
    + destruct (String.eqb (LanguageGenerator.id g) (_primaryGeneratorId (recorderApp w)));
        cbn [modify ret];
        match goal with
        | |- context [forEachGenerator _ _ _ ?a ?r ?x] =>
            destruct (IH a r x) as (c' & f & Hrun)
        end;
        exists c', f; rewrite Hrun; reflexivity.
    + exists (Thrown e), (_throttledOutputFile (recorderApp w)).
      rewrite withApp_outputFile_id. reflexivity.
Qed.

(** Regeneration reads the recorded actions and leaves them alone. *)
Lemma updateActions_frame (reveal : bool) (w : World) :
  store (snd (_updateActions reveal w)) = store w
  /\ _actions (recorderApp (snd (_updateActions reveal w))) = _actions (recorderApp w).
Proof.
  rewrite updateActions_loop.
  destruct (forEachGenerator_frame reveal (collapsed w) languageSet []%list None w)
    as ([r|e] & f & Hrun); rewrite Hrun; [|split; reflexivity].
  unfold bind, modify, _pushAllSources, _revealSource.
  destruct (snd r) as [i|]; [destruct (truthy i)|]; split; reflexivity.
Qed.

Lemma find_skip {A} (f : A -> bool) (l1 l2 : list A) :
  Forall (fun x => f x = false) l1 -> List.find f (l1 ++ l2)%list = List.find f l2.
Proof.
  induction 1 as [|x l1 Hx _ IH]; [reflexivity|].
  simpl. rewrite Hx. exact IH.
Qed.

Lemma findLastOnPage_last (pageGuid : string) (w : World)
    (before : list nat) (l : nat) (after : list nat) :
  _actions (recorderApp w) = (before ++ l :: after)%list ->
  onPage pageGuid w l = true ->
  Forall (fun l' => onPage pageGuid w l' = false) after ->
  findLastOnPage pageGuid w = Some l.
Proof.
  intros Ha Hl Hafter. unfold findLastOnPage. rewrite Ha.
  rewrite rev_app_distr. cbn [rev]. rewrite <- app_assoc.
  change (List.find (onPage pageGuid w) (rev after ++ [l] ++ rev before)%list = Some l).
  rewrite find_skip by (apply Forall_rev; exact Hafter).
  cbn. rewrite Hl. reflexivity.
Qed.

Lemma findLastOnPage_none (pageGuid : string) (w : World) :
  Forall (fun l' => onPage pageGuid w l' = false) (_actions (recorderApp w)) ->
  findLastOnPage pageGuid w = None.
Proof.
  intros H. unfold findLastOnPage.
  change (List.find (onPage pageGuid w) (rev (_actions (recorderApp w))) = None).
  rewrite <- (app_nil_r (rev _)).
  rewrite find_skip by (apply Forall_rev; exact H). reflexivity.
Qed.

Lemma onSignalAdded_effect (signal : SignalInContext.t) (w : World) :
  let w' := snd (_onSignalAdded signal w) in
  _actions (recorderApp w') = _actions (recorderApp w)
  /\ store w'
     = match findLastOnPage
               (FrameDescription.pageGuid (SignalInContext.frame signal)) w with
       | Some l =>
           alter (ActionInContext.pushSignal (SignalInContext.signal signal)) l (store w)
       | None => store w
       end.
Proof.
  unfold _onSignalAdded, bind, gets.
  destruct (findLastOnPage _ w) as [l|]; cbn [modify ret];
    match goal with
    | |- context [_updateActions false ?x] =>
        destruct (updateActions_frame false x) as [Hs Ha]
    end; rewrite Hs, Ha; split; reflexivity.
Qed.

(** C9. The signal that arrives is appended to the end of the signals of
    the most recent recorded action on the page of the signal's frame:
    the last reference of the action list whose object has that page.
    The signals already attached keep their order before it, the other
    fields of that object, every other object of the store and the action
    list itself are unchanged; if no recorded action is on that page, the
    store and the action list are unchanged. *)
Theorem signal_attaches_to_last_action_on_page (signal : SignalInContext.t) (w : World) :
  let pageGuid := FrameDescription.pageGuid (SignalInContext.frame signal) in
  let w' := snd (_onSignalAdded signal w) in
  _actions (recorderApp w') = _actions (recorderApp w)
  /\ (forall before l after a,
       _actions (recorderApp w) = (before ++ l :: after)%list ->
       store w !! l = Some a ->
       FrameDescription.pageGuid (ActionInContext.frame a) = pageGuid ->
       Forall (fun l' => onPage pageGuid w l' = false) after ->
       store w' !! l
       = Some
           {| ActionInContext.frame := ActionInContext.frame a;
              ActionInContext.action :=
                {| Action.name := Action.name (ActionInContext.action a);
                   Action.selector := Action.selector (ActionInContext.action a);
                   Action.signals :=
                     (Action.signals (ActionInContext.action a)
                      ++ [SignalInContext.signal signal])%list;
                   Action.detail := Action.detail (ActionInContext.action a) |};
              ActionInContext.startTime := ActionInContext.startTime a |}
       /\ forall l', l' <> l -> store w' !! l' = store w !! l')
  /\ (Forall (fun l => onPage pageGuid w l = false) (_actions (recorderApp w)) ->
      store w' = store w).
Proof.
  intros pageGuid w'. subst w'.
  destruct (onSignalAdded_effect signal w) as [Ha Hs]. fold pageGuid in Hs.
  split; [exact Ha|split].
  - intros before l after a Hl Hlook Hpage Hafter.
    assert (Hon : onPage pageGuid w l = true).
    { unfold onPage. rewrite Hlook. apply String.eqb_eq. exact Hpage. }
    rewrite (findLastOnPage_last pageGuid w before l after Hl Hon Hafter) in Hs.
    rewrite Hs. split.
    + rewrite lookup_alter_eq, Hlook. reflexivity.
    + intros l' Hne. apply lookup_alter_ne. congruence.
  - intros Hnone. rewrite (findLastOnPage_none pageGuid w Hnone) in Hs. exact Hs.
Qed.

(** * Further properties of the code *)

(** ** Strings *)

Lemma append_cons (x : ascii) (a b : string) : String x a ++ b = String x (a ++ b).
Proof. reflexivity. Qed.

Lemma append_nil (b : string) : "" ++ b = b.
Proof. reflexivity. Qed.

Lemma append_assoc (a b c : string) : (a ++ b) ++ c = a ++ (b ++ c).
Proof.
  induction a as [|x a IH]; [reflexivity|].
  rewrite !append_cons, IH. reflexivity.
Qed.

Lemma append_empty_r (a : string) : a ++ "" = a.
Proof.
  induction a as [|x a IH]; [reflexivity|].
  rewrite append_cons, IH. reflexivity.
Qed.

Lemma rev_app_append (s t : string) : String.rev_app s t = String.rev s ++ t.
Proof.
  unfold String.rev. revert t.
  induction s as [|c s IH]; intros t; [reflexivity|].
  cbn [String.rev_app].
  rewrite IH, (IH (String c "")), append_assoc. reflexivity.
Qed.

Lemma rev_cons (c : ascii) (s : string) :
  String.rev (String c s) = String.rev s ++ String c "".
Proof. unfold String.rev at 1. cbn [String.rev_app]. apply rev_app_append. Qed.

Lemma rev_append (a b : string) : String.rev (a ++ b) = String.rev b ++ String.rev a.
Proof.
  induction a as [|c a IH].
  - rewrite append_nil. change (String.rev "") with "".
    rewrite append_empty_r. reflexivity.
  - rewrite append_cons, !rev_cons, IH, append_assoc. reflexivity.
Qed.

Lemma rev_involutive (s : string) : String.rev (String.rev s) = s.
Proof.
  induction s as [|c s IH]; [reflexivity|].
  rewrite rev_cons, rev_append, IH. reflexivity.
Qed.

Lemma append_inj_r (a b t : string) : a ++ t = b ++ t -> a = b.
Proof.
  intros H. apply (f_equal String.rev) in H. rewrite !rev_append in H.
  apply (inj (String.app (String.rev t))) in H.
  apply (f_equal String.rev) in H. rewrite !rev_involutive in H. exact H.
Qed.

Lemma prefix_append (a b : string) : String.prefix a (a ++ b) = true.
Proof.
  induction a as [|c a IH]; [destruct b; reflexivity|].
  rewrite append_cons. cbn [String.prefix].
  destruct (ascii_dec c c); [exact IH|contradiction].
Qed.

Lemma trimStart_append (s t' : string) (c : ascii) :
  isWhiteSpace c = false ->
  trimStart (s ++ String c t') = trimStart s ++ String c t'.
Proof.
  intros Hc. induction s as [|a s IH].
  - rewrite append_nil. cbn [trimStart]. rewrite Hc. reflexivity.
  - rewrite append_cons. cbn [trimStart].
    destruct (isWhiteSpace a); [exact IH|reflexivity].
Qed.

Lemma trimEnd_append (u : string) (c : ascii) :
  isWhiteSpace c = false ->
  trimEnd (u ++ String c "") = u ++ String c "".
Proof.
  intros Hc. induction u as [|a u IH].
  - rewrite append_nil. cbn [trimEnd]. rewrite Hc. reflexivity.
  - rewrite append_cons. cbn [trimEnd]. rewrite IH.
    destruct u; reflexivity.
Qed.

(** Trimming a text that goes on with a character that is no white space
    and ends in one only strips what comes before. *)
Lemma trim_between (s t : string) (c d : ascii) :
  isWhiteSpace c = false ->
  isWhiteSpace d = false ->
  trim (s ++ String c (t ++ String d ""))
  = trimStart s ++ String c (t ++ String d "").
Proof.
  intros Hc Hd. unfold trim. rewrite trimStart_append by exact Hc.
  rewrite <- (append_cons c t (String d "")), <- append_assoc.
  apply trimEnd_append. exact Hd.
Qed.

(** ** The classification of arbitrary code, in general *)

(** X1. A call without arguments of one of the eight query methods, on any
    receiver and with white space before it or not, is classified as an
    extraction. *)
Theorem query_call_is_extraction (receiver m : string) :
  In m extractionMethods ->
  _isExtractionCommand (receiver ++ "." ++ m ++ "()") = true.
Proof.
  intros Hm. unfold _isExtractionCommand.
  replace (receiver ++ "." ++ m ++ "()")
    with (receiver ++ String "."%char ((m ++ "(") ++ String ")"%char ""))
    by (rewrite append_assoc; reflexivity).
  rewrite trim_between by reflexivity.
  rewrite <- (append_cons "."%char (m ++ "(") (String ")"%char "")).
  rewrite <- (append_cons "."%char m "(").
  rewrite !rev_append.
  generalize (String.rev (trimStart receiver)). intros x.
  unfold extractionMethods in Hm. cbn [In] in Hm.
  repeat (destruct Hm as [<-|Hm]; [destruct x; reflexivity|]). contradiction.
Qed.

(** X2. A call whose parentheses hold something, the character before the
    closing one being neither white space nor the opening parenthesis,
    is never classified as an extraction, whatever the method is. *)
Theorem call_with_arguments_is_no_extraction (receiver : string) (c : ascii) :
  isWhiteSpace c = false ->
  c <> "("%char ->
  _isExtractionCommand (receiver ++ String c ")") = false.
Proof.
  intros Hc Hp. unfold _isExtractionCommand.
  change (String c ")") with (String c ("" ++ String ")"%char "")).
  rewrite trim_between by (exact Hc || reflexivity).
  rewrite <- (append_cons c "" ")"), !rev_append.
  generalize (String.rev (trimStart receiver)). intros x.
  change (String.rev ")") with ")". change (String.rev (String c "")) with (String c "").
  rewrite append_assoc, !append_cons, !append_nil.
  unfold callTail. cbn [trimStart]. change (isWhiteSpace ")") with false.
  cbv iota. change (Ascii.eqb ")" ")") with true. cbv iota.
  cbn [trimStart]. rewrite Hc.
  destruct (Ascii.eqb c "("%char) eqn:He; [|reflexivity].
  apply Ascii.eqb_eq in He. contradiction.
Qed.

(** ** What a regeneration pushes and writes *)

Lemma revealed_step (reveal : bool) (selected : string) (g : LanguageGenerator.t)
    (rest : list LanguageGenerator.t) (rid : option string) :
  revealed reveal selected rest
    (if reveal && String.eqb (LanguageGenerator.id g) selected
     then Some (LanguageGenerator.id g) else rid)
  = revealed reveal selected (g :: rest) rid.
Proof.
  unfold revealed. cbn [existsb].
  destruct reveal; [|reflexivity]. cbn [andb].
  destruct (String.eqb (LanguageGenerator.id g) selected) eqn:Hg; cbn [orb];
    [|reflexivity].
  apply String.eqb_eq in Hg. rewrite Hg.
  destruct (existsb _ rest); reflexivity.
Qed.

(** The loop over generators that all return: the Sources in order, the
    source to reveal and the output file. *)
Lemma forEachGenerator_result (reveal : bool) (actions : list ActionInContext.t)
    (options : LanguageGeneratorOptions) (generators : list LanguageGenerator.t) :
  Forall (generates actions options) generators ->
  forall acc rid w,
    _languageGeneratorOptions (recorderApp w) = options ->
    exists sources,
      Forall2 (produces actions options) generators sources
      /\ forEachGenerator reveal actions generators acc rid w
         = (Normal ((acc ++ sources)%list,
                    revealed reveal (_selectedGeneratorId (recorderApp w)) generators rid),
            withApp (setThrottledOutputFile
                       (mirrored (_primaryGeneratorId (recorderApp w)) sources
                          (_throttledOutputFile (recorderApp w)))) w).
Proof.
  induction 1 as [|g rest Hg _ IH]; intros acc rid w Ho.
  - exists []%list. split; [constructor|].
    unfold revealed. cbn [existsb]. rewrite andb_false_r.
    cbn. rewrite withApp_outputFile_id, app_nil_r. reflexivity.
  - unfold generates in Hg.
    destruct (generateCode actions g options) as [c|] eqn:Hc; [|discriminate].
    cbn [forEachGenerator]. unfold bind, gets, liftCompletion. rewrite Ho, Hc.
    destruct (String.eqb (LanguageGenerator.id g) (_primaryGeneratorId (recorderApp w)))
      eqn:Hp; cbn [modify ret];
      match goal with
      | |- context [forEachGenerator _ _ _ ?a ?r ?x] =>
          destruct (IH a r x Ho) as (sources & Hall & Hrun)
      end;
      exists (makeSource g c :: sources)%list;
      (split; [constructor; [exists c; auto|exact Hall]|]);
      rewrite Hrun, <- app_assoc;
      change (_selectedGeneratorId (recorderApp (withApp _ w)))
        with (_selectedGeneratorId (recorderApp w));
      change (Source.id (makeSource g c)) with (LanguageGenerator.id g);
      rewrite revealed_step;
      cbn [mirrored fold_left]; change (Source.id (makeSource g c))
        with (LanguageGenerator.id g); rewrite Hp; reflexivity.
Qed.

Lemma forEachGenerator_partial (reveal : bool) (actions : list ActionInContext.t)
    (options : LanguageGeneratorOptions) (before : list LanguageGenerator.t)
    (g : LanguageGenerator.t) (rest : list LanguageGenerator.t) (e : Exn) :
  Forall (generates actions options) before ->
  generateCode actions g options = Thrown e ->
  forall acc rid w,
    _languageGeneratorOptions (recorderApp w) = options ->
    exists sources,
      Forall2 (produces actions options) before sources
      /\ forEachGenerator reveal actions (before ++ g :: rest) acc rid w
         = (Thrown e,
            withApp (setThrottledOutputFile
                       (mirrored (_primaryGeneratorId (recorderApp w)) sources
                          (_throttledOutputFile (recorderApp w)))) w).
Proof.
  intros Hb He. induction Hb as [|g0 before Hg _ IH]; intros acc rid w Ho.
  - exists []%list. split; [constructor|].
    cbn [List.app forEachGenerator]. unfold bind, gets, liftCompletion.
    rewrite Ho, He. cbn [mirrored fold_left].
    rewrite withApp_outputFile_id. reflexivity.
  - unfold generates in Hg.
    destruct (generateCode actions g0 options) as [c|] eqn:Hc; [|discriminate].
    cbn [List.app forEachGenerator]. unfold bind, gets, liftCompletion. rewrite Ho, Hc.
    destruct (String.eqb (LanguageGenerator.id g0) (_primaryGeneratorId (recorderApp w)))
      eqn:Hp; cbn [modify ret];
      match goal with
      | |- context [forEachGenerator _ _ _ ?a ?r ?x] =>
          destruct (IH a r x Ho) as (sources & Hall & Hrun)
      end;
      exists (makeSource g0 c :: sources)%list;
      (split; [constructor; [exists c; auto|exact Hall]|]);
      rewrite Hrun;
      cbn [mirrored fold_left]; change (Source.id (makeSource g0 c))
        with (LanguageGenerator.id g0); rewrite Hp; reflexivity.
Qed.

Lemma mirrored_app (primary : string) (l1 l2 : list Source.t)
    (f : option ThrottledFile) :
  mirrored primary (l1 ++ l2)%list f = mirrored primary l2 (mirrored primary l1 f).
Proof. unfold mirrored. apply fold_left_app. Qed.

Lemma mirrored_others (primary : string) (l : list Source.t) (f : option ThrottledFile) :
  Forall (fun s => Source.id s <> primary) l -> mirrored primary l f = f.
Proof.
  intros H. revert f. induction H as [|s l Hs _ IH]; intros f; [reflexivity|].
  cbn [mirrored fold_left]. apply String.eqb_neq in Hs. rewrite Hs. apply IH.
Qed.

Lemma mirrored_some (primary : string) (l : list Source.t) (f : ThrottledFile) :
  exists f', mirrored primary l (Some f) = Some f' /\ file f' = file f.
Proof.
  revert f. induction l as [|s l IH]; intros f; [exists f; split; reflexivity|].
  cbn [mirrored fold_left].
  destruct (String.eqb (Source.id s) primary); cbn [option_map].
  - destruct (IH (setContent (Source.text s) f)) as (f' & H1 & H2).
    exists f'. split; [exact H1|exact H2].
  - apply IH.
Qed.

(** The output file after the Sources [l1 ++ s :: l2], the last Source of
    the primary generator being [s]. *)
Lemma mirrored_last (primary : string) (l1 l2 : list Source.t) (s : Source.t)
    (f : ThrottledFile) :
  Source.id s = primary ->
  Forall (fun s' => Source.id s' <> primary) l2 ->
  mirrored primary (l1 ++ s :: l2)%list (Some f)
  = Some {| file := file f; content := Some (Source.text s) |}.
Proof.
  intros Hs Hl2. rewrite mirrored_app.
  destruct (mirrored_some primary l1 f) as (f' & H1 & H2). rewrite H1.
  change (s :: l2)%list with ([s] ++ l2)%list. rewrite mirrored_app.
  rewrite mirrored_others by exact Hl2.
  cbn [mirrored fold_left]. apply String.eqb_eq in Hs. rewrite Hs.
  cbn [option_map]. unfold setContent. rewrite H2. reflexivity.
Qed.

Lemma produces_ids (actions : list ActionInContext.t) (options : LanguageGeneratorOptions)
    (generators : list LanguageGenerator.t) (sources : list Source.t) (i : string) :
  Forall2 (produces actions options) generators sources ->
  Forall (fun g => LanguageGenerator.id g <> i) generators ->
  Forall (fun s => Source.id s <> i) sources.
Proof.
  induction 1 as [|g s gs ss (c & _ & ->) _ IH]; intros Hg; [constructor|].
  inversion Hg; subst. constructor; [assumption|]. apply IH. assumption.
Qed.

(** The state after a regeneration in which every generator returns. *)
Lemma updateActions_generates (reveal : bool) (w : World) :
  Forall (generates (collapsed w) (_languageGeneratorOptions (recorderApp w)))
    languageSet ->
  exists sources,
    Forall2 (produces (collapsed w) (_languageGeneratorOptions (recorderApp w)))
      languageSet sources
    /\ _updateActions reveal w
       = (Normal tt,
          let w3 :=
            withApp (evaluateOnUI
                       (PlaywrightSetSources (_userSources (recorderApp w) ++ sources)))
              (withApp (setRecorderSources sources)
                 (withApp (setThrottledOutputFile
                             (mirrored (_primaryGeneratorId (recorderApp w)) sources
                                (_throttledOutputFile (recorderApp w)))) w)) in
          match revealed reveal (_selectedGeneratorId (recorderApp w)) languageSet None with
          | Some i =>
              if truthy i then withApp (evaluateOnUI (PlaywrightSelectSource i)) w3
              else w3
          | None => w3
          end).
Proof.
  intros Hall.
  destruct (forEachGenerator_result reveal _ _ languageSet Hall []%list None w eq_refl)
    as (sources & Hs & Hrun).
  exists sources. split; [exact Hs|].
  rewrite updateActions_loop, Hrun. cbn [List.app fst snd].
  unfold bind, modify, _pushAllSources, _revealSource.
  destruct (revealed _ _ _ _) as [i|]; [destruct (truthy i)|]; reflexivity.
Qed.

(** X3. A regeneration in which every generator returns pushes the Sources
    to the control surface once, the user Sources first, and then asks
    it to select the selected generator exactly when the regeneration
    was asked to reveal, the selected id is not empty and a generator
    has it. *)
Theorem regeneration_pushes_sources_then_reveals (reveal : bool) (w : World) :
  Forall (generates (collapsed w) (_languageGeneratorOptions (recorderApp w)))
    languageSet ->
  let w' := snd (_updateActions reveal w) in
  let selected := _selectedGeneratorId (recorderApp w) in
  _uiPage (recorderApp w')
  = (_uiPage (recorderApp w)
     ++ PlaywrightSetSources
          (_userSources (recorderApp w) ++ _recorderSources (recorderApp w'))
        :: (if reveal
               && existsb (fun g => String.eqb (LanguageGenerator.id g) selected)
                    languageSet
               && truthy selected
            then [PlaywrightSelectSource selected] else []))%list.
Proof.
  intros Hall w' selected. subst w'.
  destruct (updateActions_generates reveal w Hall) as (sources & _ & ->).
  unfold revealed. fold selected. cbn [snd].
  destruct (reveal && existsb _ languageSet); cbn [andb].
  - destruct (truthy selected); cbn; rewrite <- ?app_assoc; reflexivity.
  - reflexivity.
Qed.

(** X4. After a regeneration in which every generator returns, a configured
    output file holds the text of the Source of the primary generator,
    the last one with the primary id; with no such generator the file is
    as it was. *)
Theorem output_file_mirrors_primary (reveal : bool) (w : World) (f : ThrottledFile) :
  Forall (generates (collapsed w) (_languageGeneratorOptions (recorderApp w)))
    languageSet ->
  _throttledOutputFile (recorderApp w) = Some f ->
  let w' := snd (_updateActions reveal w) in
  let primary := _primaryGeneratorId (recorderApp w) in
  (forall before g rest c,
      languageSet = (before ++ g :: rest)%list ->
      LanguageGenerator.id g = primary ->
      Forall (fun g' => LanguageGenerator.id g' <> primary) rest ->
      generateCode (collapsed w) g (_languageGeneratorOptions (recorderApp w)) = Normal c ->
      _throttledOutputFile (recorderApp w')
      = Some {| file := file f; content := Some (Generated.text c) |})
  /\ (Forall (fun g => LanguageGenerator.id g <> primary) languageSet ->
      _throttledOutputFile (recorderApp w') = Some f).
Proof.
  intros Hall Hf w' primary. subst w'.
  destruct (updateActions_generates reveal w Hall) as (sources & Hs & Hrun).
  assert (Hfile : _throttledOutputFile (recorderApp (snd (_updateActions reveal w)))
                  = mirrored primary sources (Some f)).
  { rewrite Hrun, <- Hf. cbn [snd].
    destruct (revealed _ _ _ _) as [i|]; [destruct (truthy i)|]; reflexivity. }
  rewrite Hfile. split.
  - intros before g rest c Hset Hg Hrest Hc. rewrite Hset in Hs.
    apply Forall2_app_inv_l in Hs as (sb & sr & Hsb & Hsr & ->).
    inversion Hsr as [|g' s rest' sr' (c' & Hc' & ->) Hrest']; subst.
    rewrite Hc in Hc'. injection Hc' as <-.
    rewrite (mirrored_last primary sb sr' (makeSource g c) f Hg).
    + reflexivity.
    + exact (produces_ids _ _ rest sr' primary Hrest' Hrest).
  - intros Hnone. apply mirrored_others.
    exact (produces_ids _ _ languageSet sources primary Hs Hnone).
Qed.

(** X5. A regeneration that fails leaves a trace: when the primary generator
    returned before another generator throws, the output file has
    already got the new text, although no Source of this regeneration
    is stored. *)
Theorem failed_regeneration_still_writes_output (reveal : bool) (w : World)
    (f : ThrottledFile) (before mid rest : list LanguageGenerator.t)
    (g bad : LanguageGenerator.t) (c : Generated.t) (e : Exn) :
  let actions := collapsed w in
  let options := _languageGeneratorOptions (recorderApp w) in
  let primary := _primaryGeneratorId (recorderApp w) in
  _throttledOutputFile (recorderApp w) = Some f ->
  languageSet = (before ++ g :: mid ++ bad :: rest)%list ->
  Forall (generates actions options) (before ++ g :: mid)%list ->
  LanguageGenerator.id g = primary ->
  Forall (fun g' => LanguageGenerator.id g' <> primary) mid ->
  generateCode actions g options = Normal c ->
  generateCode actions bad options = Thrown e ->
  let w' := snd (_updateActions reveal w) in
  fst (_updateActions reveal w) = Thrown e
  /\ _throttledOutputFile (recorderApp w')
     = Some {| file := file f; content := Some (Generated.text c) |}
  /\ _recorderSources (recorderApp w') = _recorderSources (recorderApp w).
Proof.
  intros actions options primary Hf Hset Hdone Hg Hmid Hc Hbad w'. subst w'.
  assert (Hset' : languageSet = ((before ++ g :: mid) ++ bad :: rest)%list)
    by (rewrite Hset, <- app_assoc; reflexivity).
  destruct (forEachGenerator_partial reveal actions options (before ++ g :: mid)%list
              bad rest e Hdone Hbad []%list None w eq_refl) as (sources & Hs & Hrun).
  rewrite updateActions_loop. fold actions. rewrite Hset', Hrun, Hf.
  cbn [fst snd]. split; [reflexivity|]. split; [|reflexivity].
  cbn. fold primary.
  apply Forall2_app_inv_l in Hs as (sb & sr & Hsb & Hsr & ->).
  inversion Hsr as [|g' s rest' sr' (c' & Hc' & ->) Hrest']; subst.
  fold actions options in Hc'. rewrite Hc in Hc'. injection Hc' as <-.
  rewrite (mirrored_last primary sb sr' (makeSource g c) f Hg).
  - reflexivity.
  - exact (produces_ids _ _ mid sr' primary Hrest' Hmid).
Qed.

(** ** What the events leave alone *)

Lemma updateActions_untouched (reveal : bool) (w : World) :
  untouched w (snd (_updateActions reveal w))
  /\ _actions (recorderApp (snd (_updateActions reveal w))) = _actions (recorderApp w)
  /\ _recorder (recorderApp (snd (_updateActions reveal w))) = _recorder (recorderApp w)
  /\ console (snd (_updateActions reveal w)) = console w
  /\ unhandledRejections (snd (_updateActions reveal w)) = unhandledRejections w.
Proof.
  rewrite updateActions_loop.
  destruct (forEachGenerator_frame reveal (collapsed w) languageSet []%list None w)
    as ([r|e] & f & Hrun); rewrite Hrun; [|repeat split].
  unfold bind, modify, _pushAllSources, _revealSource.
  destruct (snd r) as [i|]; [destruct (truthy i)|]; repeat split.
Qed.

(** A command run to its settlement touches the recorder and the control
    surface only. *)
Lemma execute_untouched (env : ExternalOp -> Completion Value) (c : Command)
    (p : Params.t) (w : World) :
  let w' := snd (run env (execute c p w)) in
  untouched w w'
  /\ _actions (recorderApp w') = _actions (recorderApp w)
  /\ console w' = console w
  /\ unhandledRejections w' = unhandledRejections w.
Proof.
  destruct c; cbn [execute].
  - unfold _executeUIAction.
    destruct (notTrimmed _); [repeat split|].
    destruct (length _ =? 0)%nat; [repeat split|].
    destruct (frameForSelector _ _); [|repeat split].
    destruct (_buildSyntheticAction _ _ _); [|repeat split].
    cbn [pushTemporaryCallLog run]. destruct (env _); repeat split.
  - unfold _executeUIExtraction.
    destruct (notTrimmed _); [repeat split|].
    destruct (frameForSelector _ _) as [frame|]; [|repeat split].
    cbn [pushTemporaryCallLog].
    assert (Hk : (exists k, Params.extraction p = Some k /\ In k extractionKinds)
                 \/ unsupported extractionKinds (Params.extraction p)).
    { destruct (Params.extraction p) as [k|]; [|right; exact I].
      destruct (in_dec string_dec k extractionKinds); [left; eauto|right; assumption]. }
    destruct Hk as [(k & Hk & Hin)|Hk].
    + destruct (queryFor_some k (default [] (Params.args p)) Hin) as [[q strict] Hq].
      rewrite Hk, (extraction_supported _ _ k _ _ q strict Hq).
      cbn [await run]. destruct (env _); repeat split.
    + rewrite (extraction_unsupported _ _ _ _ _ Hk). repeat split.
  - unfold _executeArbitraryCode.
    destruct (notTrimmed _); [repeat split|].
    destruct (pageAliases (recorder w)) as [|[page alias] others]; [repeat split|].
    cbn [pushTemporaryCallLog _executePlaywrightCode await run].
    destruct (env _) as [v|e]; [destruct v|]; repeat split.
Qed.

Lemma execute_started_untouched (c : Command) (p : Params.t) (w : World) :
  let w' := worldOf (execute c p w) in
  untouched w w'
  /\ _actions (recorderApp w') = _actions (recorderApp w)
  /\ console w' = console w
  /\ unhandledRejections w' = unhandledRejections w.
Proof.
  destruct c; cbn [execute].
  - unfold _executeUIAction.
    destruct (notTrimmed _); [repeat split|].
    destruct (length _ =? 0)%nat; [repeat split|].
    destruct (frameForSelector _ _); [|repeat split].
    destruct (_buildSyntheticAction _ _ _); repeat split.
  - unfold _executeUIExtraction.
    destruct (notTrimmed _); [repeat split|].
    destruct (frameForSelector _ _) as [frame|]; [|repeat split].
    cbn [pushTemporaryCallLog].
    assert (Hk : (exists k, Params.extraction p = Some k /\ In k extractionKinds)
                 \/ unsupported extractionKinds (Params.extraction p)).
    { destruct (Params.extraction p) as [k|]; [|right; exact I].
      destruct (in_dec string_dec k extractionKinds); [left; eauto|right; assumption]. }
    destruct Hk as [(k & Hk & Hin)|Hk].
    + destruct (queryFor_some k (default [] (Params.args p)) Hin) as [[q strict] Hq].
      rewrite Hk, (extraction_supported _ _ k _ _ q strict Hq). repeat split.
    + rewrite (extraction_unsupported _ _ _ _ _ Hk). repeat split.
  - unfold _executeArbitraryCode.
    destruct (notTrimmed _); [repeat split|].
    destruct (pageAliases (recorder w)) as [|[page alias] others]; repeat split.
Qed.

(** X6. No inbound event, run with what it starts to its settlement, touches
    the action objects, the primary generator, the user sources or the
    clock; the action list changes on clear only, which empties it. *)
Theorem events_leave_recording_alone (env : ExternalOp -> Completion Value)
    (data : EventData) (w : World) :
  let w' := snd (dispatch env data w) in
  untouched w w'
  /\ _actions (recorderApp w')
     = if String.eqb (event data) "clear" then []%list else _actions (recorderApp w).
Proof.
  unfold dispatch, _handleUIEvent.
  destruct (String.eqb (event data) "clear") eqn:E1.
  { cbn [returned floating after snd fst]. unfold bind. cbn [modify].
    match goal with
    | |- context [_updateActions true ?x] =>
        destruct (updateActions_untouched true x) as (Hu & Ha & _);
        destruct (_updateActions true x) as [[[]|e] w1]
    end; cbn [snd] in *; cbn [callRecorder modify snd]; split;
      solve [exact Hu | exact Ha]. }
  destruct (String.eqb (event data) "fileChanged").
  { cbn [returned floating after snd fst]. unfold bind, gets.
    destruct (List.find _ _) as [source|]; [|repeat split].
    destruct (Source.isRecorded source); repeat split. }
  destruct (String.eqb (event data) "setAutoExpect").
  { cbn [returned floating after snd fst]. unfold bind. cbn [modify].
    match goal with
    | |- context [_updateActions false ?x] =>
        destruct (updateActions_untouched false x) as (Hu & Ha & _)
    end. split; [exact Hu|exact Ha]. }
  destruct (String.eqb (event data) "setMode"); [repeat split|].
  destruct (String.eqb (event data) "resume"); [repeat split|].
  destruct (String.eqb (event data) "pause"); [repeat split|].
  destruct (String.eqb (event data) "step"); [repeat split|].
  destruct (String.eqb (event data) "highlightRequested").
  { cbn [returned floating after snd fst]. unfold bind.
    destruct (Params.selector _) as [s|]; [destruct (truthy s)|];
      (destruct (Params.ariaTemplate _) as [t|]; [destruct (truthy t)|]);
      repeat split. }
  destruct (String.eqb (event data) "performAction").
  { cbn [discarded floating snd]. unfold settle. cbn [promise onRejected].
    destruct (execute_untouched env PerformActionCommand (params data) w)
      as (Hu & Ha & _).
    cbn [execute] in Hu, Ha. cbv zeta in Hu, Ha.
    destruct (run env _) as [[[]|e] w1]; cbn [snd] in *; split;
      solve [exact Hu | exact Ha]. }
  destruct (String.eqb (event data) "performExtraction").
  { cbn [discarded floating snd]. unfold settle. cbn [promise onRejected].
    destruct (execute_untouched env PerformExtractionCommand (params data) w)
      as (Hu & Ha & _).
    cbn [execute] in Hu, Ha. cbv zeta in Hu, Ha.
    destruct (run env _) as [[[]|e] w1]; cbn [snd] in *; split;
      solve [exact Hu | exact Ha]. }
  destruct (String.eqb (event data) "executeArbitraryCode").
  { cbn [caught floating snd]. unfold settle. cbn [promise onRejected].
    destruct (execute_untouched env ExecuteArbitraryCodeCommand (params data) w)
      as (Hu & Ha & _).
    cbn [execute] in Hu, Ha. cbv zeta in Hu, Ha.
    destruct (run env _) as [[[]|e] w1]; cbn [snd] in *; split;
      solve [exact Hu | exact Ha]. }
  repeat split.
Qed.

(** ** The containment of arbitrary code *)

(** X7. Whatever an executeArbitraryCode command does, the dispatcher returns
    normally and no rejection is left unhandled: a failure is written to
    the console, once, and a success writes nothing there. *)
Theorem arbitrary_code_is_contained (env : ExternalOp -> Completion Value)
    (p : Params.t) (w : World) :
  let r := dispatch env {| event := "executeArbitraryCode"; params := p |} w in
  fst r = Normal tt
  /\ unhandledRejections (snd r) = unhandledRejections w
  /\ console (snd r)
     = match fst (run env (_executeArbitraryCode p w)) with
       | Normal _ => console w
       | Thrown e => (console w ++ [("Failed to execute arbitrary code:", e)])%list
       end.
Proof.
  destruct (execute_untouched env ExecuteArbitraryCodeCommand p w)
    as (_ & _ & Hc & Hr).
  cbn [execute] in Hc, Hr. cbv zeta in Hc, Hr.
  unfold dispatch, settle. cbn.
  destruct (run env (_executeArbitraryCode p w)) as [[[]|e] w1]; cbn [fst snd] in *;
    cbn; rewrite ?Hc, ?Hr; repeat split.
Qed.

(** X8. When the evaluation of the code throws, an [Error] or any other
    value, the command rejects with an [Error] whose message names the
    code and the message of what was thrown; this is what the dispatcher
    logs, and the control surface gets no result. *)
Theorem arbitrary_code_failure_is_wrapped (env : ExternalOp -> Completion Value)
    (p : Params.t) (w : World) (code : string) (page : Page) (pageAlias : string)
    (others : list (Page * string)) (thrown : Exn) :
  Params.code p = Some code ->
  blank (Some code) = false ->
  pageAliases (recorder w) = ((page, pageAlias) :: others)%list ->
  env (Evaluate page code) = Thrown thrown ->
  let failure :=
    Error_ ("Failed to execute code " ++ dquote ++ code ++ dquote ++ ": "
            ++ errorMessage thrown) in
  let r := dispatch env {| event := "executeArbitraryCode"; params := p |} w in
  fst (run env (_executeArbitraryCode p w)) = Thrown failure
  /\ console (snd r)
     = (console w ++ [("Failed to execute arbitrary code:", failure)])%list
  /\ _uiPage (recorderApp (snd r)) = _uiPage (recorderApp w).
Proof.
  intros Hcode Hb Hp He failure r.
  assert (Hrun : fst (run env (_executeArbitraryCode p w)) = Thrown failure
                 /\ _uiPage (recorderApp (snd (run env (_executeArbitraryCode p w))))
                    = _uiPage (recorderApp w)).
  { unfold _executeArbitraryCode. rewrite notTrimmed_blank, Hcode, Hb, Hp.
    cbn [default pushTemporaryCallLog _executePlaywrightCode await run].
    unfold id. rewrite He. split; reflexivity. }
  destruct Hrun as [Hrun Hui]. split; [exact Hrun|].
  destruct (execute_untouched env ExecuteArbitraryCodeCommand p w)
    as (_ & _ & Hc & _).
  cbn [execute] in Hc. cbv zeta in Hc.
  subst r. unfold dispatch, settle. cbn.
  destruct (run env (_executeArbitraryCode p w)) as [[[]|e] w1]; cbn [fst snd] in *;
    [discriminate|].
  injection Hrun as ->. cbn. rewrite Hc. split; [reflexivity|exact Hui].
Qed.

(** ** The results the control surface gets *)

(** X9. A successful executeArbitraryCode command hands its result to the
    control surface unless the result is [undefined], tagged as an
    extraction or an action by the classification of the code; a
    successful performExtraction command hands over whatever the query
    returned, [undefined] included, tagged with the extraction kind. *)
Theorem results_reach_the_control_surface (env : ExternalOp -> Completion Value)
    (p : Params.t) (w : World) :
  (forall code page pageAlias others result,
      Params.code p = Some code ->
      blank (Some code) = false ->
      pageAliases (recorder w) = ((page, pageAlias) :: others)%list ->
      env (Evaluate page code) = Normal result ->
      _uiPage (recorderApp (snd (run env (_executeArbitraryCode p w))))
      = (_uiPage (recorderApp w)
         ++ match result with
            | VUndefined => []
            | _ =>
                [PlaywrightExtractionResult result
                   (Some (if _isExtractionCommand code
                          then "extraction" else "action"))]
            end)%list)
  /\ (forall locator frame kind q strict result,
      Params.locator p = Some locator ->
      blank (Some locator) = false ->
      frameForSelector locator (recorder w) = Normal frame ->
      Params.extraction p = Some kind ->
      queryFor kind (default [] (Params.args p)) = Some (q, strict) ->
      env (Query frame locator q strict 5000) = Normal result ->
      _uiPage (recorderApp (snd (run env (_executeUIExtraction p w))))
      = (_uiPage (recorderApp w)
         ++ [PlaywrightExtractionResult result (Some kind)])%list).
Proof.
  split.
  - intros code page pageAlias others result Hcode Hb Hp He.
    unfold _executeArbitraryCode. rewrite notTrimmed_blank, Hcode, Hb, Hp.
    cbn [default pushTemporaryCallLog _executePlaywrightCode await run].
    unfold id. rewrite He. destruct result; cbn; rewrite ?app_nil_r; reflexivity.
  - intros locator frame kind q strict result Hl Hb Hf Hk Hq He.
    unfold _executeUIExtraction. rewrite notTrimmed_blank, Hl, Hb.
    cbn [default]. unfold id. rewrite Hf, Hk. cbn [pushTemporaryCallLog].
    rewrite (extraction_supported _ _ kind _ _ q strict Hq).
    cbn [await run]. rewrite He. reflexivity.
Qed.

(** ** Clearing *)

(** X10. The event clear empties the action list, regenerates the Sources
    from the collapse of no action and then clears the recorder. When a
    generator throws, the dispatcher throws that error synchronously with
    the action list already empty: the recorder is not cleared and the
    stored Sources are still those of the actions that are gone. *)
Theorem clear_regenerates_or_aborts (p : Params.t) (w : World) :
  let options := _languageGeneratorOptions (recorderApp w) in
  let none := collapseActions []%list in
  let d := _handleUIEvent {| event := "clear"; params := p |} w in
  floating d = None
  /\ _actions (recorderApp (after d)) = []%list
  /\ (Forall (generates none options) languageSet ->
      completion d = Normal tt
      /\ calls (recorder (after d)) = (calls (recorder w) ++ [RClear])%list
      /\ Forall2 (produces none options) languageSet
           (_recorderSources (recorderApp (after d))))
  /\ (forall before g rest e,
       languageSet = (before ++ g :: rest)%list ->
       Forall (generates none options) before ->
       generateCode none g options = Thrown e ->
       completion d = Thrown e
       /\ calls (recorder (after d)) = calls (recorder w)
       /\ _recorderSources (recorderApp (after d)) = _recorderSources (recorderApp w)).
Proof.
  intros options none d. subst d. unfold _handleUIEvent.
  cbn [event params]. change (String.eqb "clear" "clear") with true. cbv iota.
  unfold returned, bind. cbn [modify floating after completion].
  set (w0 := withApp (setActions []%list) w).
  assert (Hnone : collapsed w0 = none) by reflexivity.
  split; [reflexivity|]. split; [|split].
  - destruct (updateActions_untouched true w0) as (_ & Ha & _).
    destruct (_updateActions true w0) as [[[]|e] w1]; cbn [snd fst] in *; exact Ha.
  - intros Hall.
    destruct (updateActions_generates true w0) as (sources & Hs & Hrun);
      [rewrite Hnone; exact Hall|].
    rewrite Hrun. cbn [fst snd callRecorder modify]. rewrite Hnone in Hs.
    destruct (revealed _ _ _ _) as [i|]; [destruct (truthy i)|];
      (split; [reflexivity|split; [reflexivity|exact Hs]]).
  - intros before g rest e Hset Hb He.
    destruct (forEachGenerator_throws true none options before g rest e Hb He
                []%list None w0 eq_refl) as (f & Hrun).
    rewrite updateActions_loop, Hnone, Hset, Hrun. repeat split.
Qed.

(** ** Selecting a source *)

(** X11. A fileChanged event without a file id, or with an id no Source has,
    changes nothing at all. *)
Theorem fileChanged_unknown_is_noop (p : Params.t) (w : World) :
  (forall i s,
      Params.fileId p = Some i ->
      In s (_recorderSources (recorderApp w) ++ _userSources (recorderApp w))%list ->
      Source.id s <> i) ->
  _handleUIEvent {| event := "fileChanged"; params := p |} w
  = {| completion := Normal tt; after := w; floating := None |}.
Proof.
  intros H. unfold _handleUIEvent. cbn [event params].
  change (String.eqb "fileChanged" "clear") with false.
  change (String.eqb "fileChanged" "fileChanged") with true. cbv iota.
  unfold returned, bind, gets.
  replace (List.find _ _) with (@None Source.t); [reflexivity|].
  symmetry. rewrite <- (app_nil_r (_ ++ _)%list). rewrite find_skip; [reflexivity|].
  apply Forall_forall. intros s Hs.
  destruct (Params.fileId p) as [i|]; [|reflexivity].
  apply String.eqb_neq. exact (H i s eq_refl Hs).
Qed.

(** X12. After a regeneration in which every generator returns, a fileChanged
    event with the id of a generator selects that generator and tells
    the recorder the language of the first generator with that id. *)
Theorem fileChanged_selects_generated_source (reveal : bool) (p : Params.t) (w : World)
    (before : list LanguageGenerator.t) (g : LanguageGenerator.t)
    (rest : list LanguageGenerator.t) :
  Forall (generates (collapsed w) (_languageGeneratorOptions (recorderApp w)))
    languageSet ->
  languageSet = (before ++ g :: rest)%list ->
  Forall (fun g' => LanguageGenerator.id g' <> LanguageGenerator.id g) before ->
  Params.fileId p = Some (LanguageGenerator.id g) ->
  let d := _handleUIEvent {| event := "fileChanged"; params := p |}
             (snd (_updateActions reveal w)) in
  completion d = Normal tt
  /\ _selectedGeneratorId (recorderApp (after d)) = LanguageGenerator.id g
  /\ calls (recorder (after d))
     = (calls (recorder w) ++ [RSetLanguage (LanguageGenerator.highlighter g)])%list.
Proof.
  intros Hall Hset Hbefore Hid d. subst d.
  destruct (updateActions_generates reveal w Hall) as (sources & Hs & Hrun).
  rewrite Hset in Hs.
  apply Forall2_app_inv_l in Hs as (sb & sr & Hsb & Hsr & ->).
  inversion Hsr as [|g' s rest' sr' (c & Hc & ->) Hrest']; subst.
  pose proof (produces_ids _ _ before sb _ Hsb Hbefore) as Hsb'.
  assert (Hw : exists w1,
             snd (_updateActions reveal w) = w1
             /\ _recorderSources (recorderApp w1) = (sb ++ makeSource g c :: sr')%list
             /\ calls (recorder w1) = calls (recorder w)).
  { rewrite Hrun. cbn [snd]. eexists. split; [reflexivity|].
    destruct (revealed _ _ _ _) as [i|]; [destruct (truthy i)|]; split; reflexivity. }
  destruct Hw as (w1 & -> & Hsrc & Hcalls).
  unfold _handleUIEvent. cbn [event params].
  change (String.eqb "fileChanged" "clear") with false.
  change (String.eqb "fileChanged" "fileChanged") with true. cbv iota.
  unfold returned, bind, gets. rewrite Hid, Hsrc, <- !app_assoc.
  rewrite find_skip.
  - cbn [List.app List.find]. change (Source.id (makeSource g c))
      with (LanguageGenerator.id g). rewrite String.eqb_refl.
    cbn. unfold recorder in Hcalls. rewrite Hcalls. repeat split.
  - eapply Forall_impl; [|exact Hsb']. intros s Hne. apply String.eqb_neq. exact Hne.
Qed.

(** ** An action and its signal *)

Lemma onActionAdded_effect (l : nat) (w : World) :
  _actions (recorderApp (snd (_onActionAdded l w))) = (_actions (recorderApp w) ++ [l])%list
  /\ store (snd (_onActionAdded l w)) = store w.
Proof.
  unfold _onActionAdded, bind. cbn [modify].
  match goal with
  | |- context [_updateActions true ?x] =>
      destruct (updateActions_frame true x) as [Hs Ha]
  end.
  rewrite Hs, Ha. split; reflexivity.
Qed.

(** X13. A signal that arrives after an action was added on its page attaches
    to that action, whatever was recorded before and whether or not the
    regenerations on the way throw; the action list has grown by the
    action, and every other action object is as it was. *)
Theorem signal_attaches_to_action_just_added (l : nat) (signal : SignalInContext.t)
    (w : World) (a : ActionInContext.t) :
  store w !! l = Some a ->
  FrameDescription.pageGuid (ActionInContext.frame a)
  = FrameDescription.pageGuid (SignalInContext.frame signal) ->
  let w' := snd (_onSignalAdded signal (snd (_onActionAdded l w))) in
  _actions (recorderApp w') = (_actions (recorderApp w) ++ [l])%list
  /\ store w' !! l
     = Some (ActionInContext.pushSignal (SignalInContext.signal signal) a)
  /\ forall l', l' <> l -> store w' !! l' = store w !! l'.
Proof.
  intros Hl Hpage w'. subst w'.
  destruct (onActionAdded_effect l w) as [Ha Hs].
  destruct (onSignalAdded_effect signal (snd (_onActionAdded l w))) as [Ha' Hs'].
  assert (Hon : onPage (FrameDescription.pageGuid (SignalInContext.frame signal))
                  (snd (_onActionAdded l w)) l = true).
  { unfold onPage. rewrite Hs, Hl. apply String.eqb_eq. exact Hpage. }
  rewrite (findLastOnPage_last _ _ (_actions (recorderApp w)) l []%list Ha Hon
             (Forall_nil _)) in Hs'.
  rewrite Ha', Ha, Hs', Hs. split; [reflexivity|]. split.
  - rewrite lookup_alter_eq, Hl. reflexivity.
  - intros l' Hne. apply lookup_alter_ne. congruence.
Qed.

(** ** The primary generator *)

(** X14. The primary generator for an SDK language is the first generator of
    the language set with that highlighter; without one, the id is the
    SDK language itself. *)
Theorem determinePrimaryGeneratorId_first_match (sdkLanguage : string) :
  (forall before g rest,
      languageSet = (before ++ g :: rest)%list ->
      LanguageGenerator.highlighter g = sdkLanguage ->
      Forall (fun g' => LanguageGenerator.highlighter g' <> sdkLanguage) before ->
      determinePrimaryGeneratorId sdkLanguage = LanguageGenerator.id g)
  /\ (Forall (fun g => LanguageGenerator.highlighter g <> sdkLanguage) languageSet ->
      determinePrimaryGeneratorId sdkLanguage = sdkLanguage).
Proof.
  unfold determinePrimaryGeneratorId. split.
  - intros before g rest Hset Hg Hb. rewrite Hset, find_skip.
    + cbn [List.find]. apply String.eqb_eq in Hg. rewrite Hg. reflexivity.
    + eapply Forall_impl; [|exact Hb]. intros g' Hne. apply String.eqb_neq. exact Hne.
  - intros Hnone. rewrite <- (app_nil_r languageSet), find_skip; [reflexivity|].
    eapply Forall_impl; [|exact Hnone]. intros g' Hne. apply String.eqb_neq. exact Hne.
Qed.

(** ** The synthetic action *)

Lemma orElse_not_empty (o : option string) (d : string) :
  d <> "" -> orElse o d <> "".
Proof.
  intros Hd. unfold orElse. destruct o as [s|]; [|exact Hd].
  unfold truthy. destruct (String.eqb s "") eqn:Hs; cbn [negb]; [exact Hd|].
  apply String.eqb_neq. exact Hs.
Qed.

(** X15. Whatever the kind and the arguments, an action that
    [_buildSyntheticAction] returns has the selector it was given and no
    signal, and one of six names; its click is a left click without
    modifiers, single or double; its key to press is never empty, Enter
    standing in for a missing or empty one; its options to select hold
    at most the first argument, and never the empty string. *)
Theorem built_action_shape (selector : string) (kind : option string)
    (args : list string) (a : Action.t) :
  _buildSyntheticAction selector kind args = Normal a ->
  Action.selector a = selector
  /\ Action.signals a = []%list
  /\ In (Action.name a) ["click"; "fill"; "press"; "check"; "uncheck"; "select"]
  /\ match Action.detail a with
     | DClick modifiers button clickCount =>
         modifiers = 0%Z /\ button = "left" /\ (clickCount = 1%Z \/ clickCount = 2%Z)
     | DPress key modifiers => key <> "" /\ modifiers = 0%Z
     | DSelect options =>
         Forall (fun o => o <> "") options
         /\ (options = []%list \/ options = firstn 1 args)
     | DFill text => text = orElse (head args) ""
     | DCheck | DUncheck => True
     | DArgs _ | DRecorded _ => False
     end.
Proof.
  unfold _buildSyntheticAction.
  destruct kind as [k|]; [|discriminate].
  assert (Hx : forall x, truthy x = true -> x <> "").
  { intros x H. unfold truthy in H. apply negb_true_iff in H.
    apply String.eqb_neq. exact H. }
  destruct args as [|x args];
    repeat (destruct (String.eqb k _);
            [intros [= <-]; cbn;
             try (destruct (truthy x) eqn:Ht; [apply Hx in Ht|]);
             repeat split; auto 10;
             try (apply orElse_not_empty; discriminate)|]);
    discriminate.
Qed.

(** ** The programmatic recorder *)

(** Actions on pages the context does not know are as if they had not
    been reported. *)
Lemma programmaticActions_known (pages : list Page) (g : LanguageGenerator.t)
    (o : LanguageGeneratorOptions) (actions : list ActionInContext.t) :
  forall st,
    programmaticActions pages g o actions st
    = programmaticActions pages g o (List.filter (knownPage pages) actions) st.
Proof.
  induction actions as [|a actions IH]; intros st; [reflexivity|].
  cbn [programmaticActions List.filter].
  destruct (knownPage pages a) eqn:Ha.
  - cbn [programmaticActions].
    destruct (programmaticActionAdded pages g o a st); [apply IH|reflexivity].
  - unfold programmaticActionAdded. unfold knownPage in Ha.
    destruct (findPageByGuid pages _); [discriminate|]. apply IH.
Qed.

Lemma last_cons {A} (x d : A) (l : list A) : last (x :: l) d = last l x.
Proof.
  revert x d. induction l as [|y l IH]; intros x d; [reflexivity|].
  change (last (x :: y :: l) d) with (last (y :: l) d). rewrite !IH. reflexivity.
Qed.

Lemma programmaticActions_from (pages : list Page) (g : LanguageGenerator.t)
    (o : LanguageGeneratorOptions) (actions : list ActionInContext.t) :
  Forall (fun a => isNormal (generateCode [a] g o) = true)
    (List.filter (knownPage pages) actions) ->
  forall st,
    exists events,
      programmaticActions pages g o actions st
      = Normal {| lastAction :=
                    last (List.map Some (List.filter (knownPage pages) actions))
                      (lastAction st);
                  emitted := (emitted st ++ events)%list |}
      /\ List.map eventAction events
         = List.map Some (List.filter (knownPage pages) actions)
      /\ (lastAction st = None ->
          match events with
          | ev :: _ => isActionAdded ev = true
          | [] => True
          end)%list.
Proof.
  induction actions as [|a actions IH]; intros Hall st.
  - exists []%list. cbn. rewrite app_nil_r. destruct st; repeat split.
  - cbn [programmaticActions List.filter] in *.
    unfold programmaticActionAdded, knownPage in *.
    destruct (findPageByGuid pages _) as [page|].
    + inversion Hall as [|? ? Ha Hrest]; subst.
      destruct (generateCode [a] g o) as [c|]; [|discriminate].
      match goal with
      | |- context [programmaticActions _ _ _ _ ?x] =>
          destruct (IH Hrest x) as (events & Hrun & Hmap & _)
      end.
      rewrite Hrun. cbn [lastAction emitted].
      eexists (_ :: events)%list. split; [|split].
      * rewrite <- app_assoc. cbn [List.app List.map].
        rewrite last_cons. reflexivity.
      * cbn [List.map eventAction]. rewrite Hmap.
        destruct (match lastAction st with Some _ => _ | None => _ end); reflexivity.
      * intros Hnone. rewrite Hnone. reflexivity.
    + apply IH. exact Hall.
Qed.

(** X16. The actions the recorder reports, handled in order from the start:
    every action on a page the context knows yields one event about it,
    in order, the first of them an actionAdded; an action on a page the
    context does not know yields nothing and is not remembered as the
    last action, so that the run is the run on the known actions
    alone. *)
Theorem programmatic_events_follow_known_actions (pages : list Page)
    (g : LanguageGenerator.t) (o : LanguageGeneratorOptions)
    (actions : list ActionInContext.t) :
  let known := List.filter (knownPage pages) actions in
  let start := {| lastAction := None; emitted := [] |} in
  Forall (fun a => isNormal (generateCode [a] g o) = true) known ->
  exists st,
    programmaticActions pages g o actions start = Normal st
    /\ programmaticActions pages g o known start = Normal st
    /\ List.map eventAction (emitted st) = List.map Some known
    /\ lastAction st = last (List.map Some known) None
    /\ match emitted st with
       | ev :: _ => isActionAdded ev = true
       | [] => True
       end%list.
Proof.
  intros known start Hall.
  destruct (programmaticActions_from pages g o actions Hall start)
    as (events & Hrun & Hmap & Hfirst).
  eexists. split; [exact Hrun|]. split.
  - rewrite <- Hrun. symmetry. apply programmaticActions_known.
  - cbn [emitted lastAction List.app start].
    split; [exact Hmap|]. split; [reflexivity|exact (Hfirst eq_refl)].
Qed.

(** ** Selectors of the public API *)

(** X17. The text selector of a string determines the string; a regular
    expression loses its flags, and one whose source is a quoted text
    followed by i gets the selector of that text. *)
Theorem text_selector_collisions :
  (forall t1 t2,
      _buildTextSelector (TextString t1) = _buildTextSelector (TextString t2) ->
      t1 = t2)
  /\ (forall source flags1 flags2,
      _buildTextSelector (TextRegExp source flags1)
      = _buildTextSelector (TextRegExp source flags2))
  /\ (forall t flags,
      _buildTextSelector (TextRegExp (dquote ++ t ++ dquote ++ "i") flags)
      = _buildTextSelector (TextString t)).
Proof.
  split; [|split]; [|reflexivity|reflexivity].
  intros t1 t2 H. unfold _buildTextSelector in H.
  apply (inj (String.app "internal:text=")) in H.
  apply (inj (String.app dquote)) in H.
  exact (append_inj_r t1 t2 _ H).
Qed.

(** X18. The role selector does not escape what it is given: a name that is
    absent or falsy adds nothing, and a role that ends in a name
    attribute gets the selector of the role with that name. *)
Theorem role_selector_collisions (role : string) :
  (forall v, truthyValue v = false ->
             _buildRoleSelector role (Some v) = _buildRoleSelector role None)
  /\ (forall n, n <> "" ->
                _buildRoleSelector (role ++ "[name=" ++ dquote ++ n ++ dquote ++ "i]") None
                = _buildRoleSelector role (Some (VString n))).
Proof.
  split.
  - intros v Hv. unfold _buildRoleSelector. rewrite Hv. reflexivity.
  - intros n Hn. unfold _buildRoleSelector.
    assert (Ht : truthyValue (VString n) = true).
    { cbn. unfold truthy. apply negb_true_iff, String.eqb_neq. exact Hn. }
    rewrite Ht, append_assoc. reflexivity.
Qed.

(** X19. Whatever constructor made a locator and whatever method is called on
    it, the call goes to the main frame of the page under the deadline
    5000, on a selector the method has no part in; it is strict unless
    it is a click whose options switch strictness off. Of the methods
    the classification of arbitrary code looks for, the locator has
    five: getAttribute, count and boundingBox are looked for and are no
    methods of the locator. *)
Theorem public_api_calls (page : Page) (c : LocatorConstructor) (call : LocatorCall) :
  let operation := _createPublicAPIWrapper page c call in
  opFrame operation = mainFrame page
  /\ opTimeout operation = 5000%Z
  /\ (forall call', opSelector (_createPublicAPIWrapper page c call')
                    = opSelector operation)
  /\ (opStrict operation = false -> call = LClick (Some false))
  /\ offeredQueries
     = ["innerText"; "textContent"; "isVisible"; "isEnabled"; "isChecked"]
  /\ (forall m,
        In m ["getAttribute"; "count"; "boundingBox"] ->
        In m extractionMethods /\ ~ In m locatorMethods).
Proof.
  clear scanFrames.
  intros operation. subst operation.
  split; [destruct c, call; reflexivity|].
  split; [destruct c, call; reflexivity|].
  split; [intros call'; destruct c, call, call'; reflexivity|].
  split.
  - destruct c, call; cbn; try discriminate;
      destruct strict as [[]|]; cbn; try discriminate; reflexivity.
  - split; [reflexivity|].
    intros m Hm. split.
    + cbn in Hm. unfold extractionMethods. cbn.
      destruct Hm as [<-|[<-|[<-|[]]]]; tauto.
    + cbn in Hm. destruct Hm as [<-|[<-|[<-|[]]]]; cbn; intros H;
        repeat (destruct H as [H|H]; [discriminate|]); exact H.
Qed.

(** ** The dropdown and the executors *)

(** X20. Every extraction the dropdown offers starts a query in
    [_performExtraction]; of the actions it offers, exactly hover and
    scroll cannot be built; and a change of the type leaves a value that
    is an option of the new type. *)
Theorem dropdown_options_and_executors :
  (forall k frame selector args w,
      In k ActionDropdown.extractions ->
      exists q strict,
        _performExtraction frame selector (Some k) (Some args) w
        = Suspended (Query frame selector q strict 5000) w Settled)
  /\ (forall k selector args,
      In k ActionDropdown.actions ->
      (isNormal (_buildSyntheticAction selector (Some k) args) = false
       <-> k = "hover" \/ k = "scroll"))
  /\ (forall type,
      In (snd (ActionDropdown.onTypeChange type))
         (ActionDropdown.options (fst (ActionDropdown.onTypeChange type)))).
Proof.
  clear scanFrames.
  split; [|split].
  - intros k frame selector args w Hk.
    destruct (queryFor_some k args Hk) as [[q strict] Hq].
    exists q, strict. exact (extraction_supported frame selector k args w q strict Hq).
  - intros k selector args Hk. cbn in Hk.
    repeat (destruct Hk as [<-|Hk];
            [cbn; split; [try discriminate; tauto
                         |intros [H|H]; try discriminate; reflexivity]|]).
    contradiction.
  - intros []; cbn; tauto.
Qed.

End RecorderApp.

(** * The properties on the sample session *)

Lemma blank_input_fails_validation_sample :
  blank (requiredInput PerformExtractionCommand (extractionParams "   " "innerText")) = true
  /\ execute sampleScan PerformExtractionCommand (extractionParams "   " "innerText") onePage
     = Settled (Thrown (Error_ "Locator is required")) onePage
  /\ callLog (recorder (worldOf
       (execute sampleScan PerformExtractionCommand
          (extractionParams "   " "innerText") onePage)))
     = callLog (recorder onePage).
Proof.
  split; [reflexivity|].
  apply (blank_input_fails_validation sampleScan PerformExtractionCommand
           (extractionParams "   " "innerText") onePage).
  reflexivity.
Defined.

(** The tag languageChanged is declared by [EventData] and has no branch
    in the dispatcher. *)
Lemma unknown_event_throws_sample :
  ~ In "languageChanged" recognizedEvents
  /\ _handleUIEvent [javascript; python] noCollapse soundGeneration sampleScan
       {| event := "languageChanged"; params := Params.empty |} onePage
     = {| completion := Thrown (Error_ "Unknown event: languageChanged");
          after := onePage; floating := None |}.
Proof.
  assert (H : ~ In "languageChanged" recognizedEvents).
  { simpl. intros H. repeat (destruct H as [H|H]; [discriminate|]). exact H. }
  split; [exact H|].
  exact (proj1 (unknown_event_throws [javascript; python] noCollapse soundGeneration
                  sampleScan {| event := "languageChanged"; params := Params.empty |}
                  onePage H)).
Defined.

Lemma unsupported_action_rejected_sample :
  blank (Params.locator (actionParams "#submit" "hover")) = false
  /\ unsupported supportedActions (Some "hover")
  /\ _executeUIAction sampleScan (actionParams "#submit" "hover") onePage
     = Settled (Thrown (Error_ "Unsupported action: hover")) onePage.
Proof.
  assert (H : unsupported supportedActions (Some "hover")).
  { simpl. intros H. repeat (destruct H as [H|H]; [discriminate|]). exact H. }
  split; [reflexivity|]. split; [exact H|].
  destruct (unsupported_action_rejected sampleScan (actionParams "#submit" "hover")
              onePage eq_refl H) as (_ & _ & Hrun & _).
  apply Hrun. discriminate.
Defined.

Lemma extraction_kinds_dispatch_sample :
  In "innerText" extractionKinds
  /\ unsupported extractionKinds (Some "outerHTML")
  /\ blank (Params.locator (extractionParams "#title" "innerText")) = false
  /\ frameForSelector sampleScan "#title" (recorder onePage)
     = Normal (mainFrame samplePage)
  /\ (exists q strict,
        queryFor "innerText" [] = Some (q, strict)
        /\ _performExtraction (mainFrame samplePage) "#title" (Some "innerText")
             (Some []) onePage
           = Suspended (Query (mainFrame samplePage) "#title" q strict 5000)
               onePage Settled)
  /\ _performExtraction (mainFrame samplePage) "#title" (Some "outerHTML")
       (Some []) onePage
     = Settled (Thrown (Error_ "Unsupported extraction: outerHTML")) onePage
  /\ (exists q strict w1 kont,
        _executeUIExtraction sampleScan (extractionParams "#title" "innerText") onePage
        = Suspended (Query (mainFrame samplePage) "#title" q strict 5000) w1 kont).
Proof.
  assert (Hin : In "innerText" extractionKinds) by (simpl; tauto).
  assert (Hun : unsupported extractionKinds (Some "outerHTML")).
  { simpl. intros H. repeat (destruct H as [H|H]; [discriminate|]). exact H. }
  destruct (extraction_kinds_dispatch sampleScan (mainFrame samplePage)
              (extractionParams "#title" "innerText") onePage) as (H1 & H2 & H3).
  split; [exact Hin|]. split; [exact Hun|].
  split; [reflexivity|]. split; [reflexivity|]. split; [|split].
  - exact (H1 "#title" []%list onePage "innerText" Hin).
  - exact (H2 "#title" (Some []%list) onePage (Some "outerHTML") Hun).
  - destruct (H3 eq_refl eq_refl) as (a & callLogId & w1 & _ & _ & Hk & _).
    destruct (Hk "innerText" eq_refl Hin) as (q & strict & kont & _ & Hrun & _).
    exists q, strict, w1, kont. exact Hrun.
Defined.

Lemma command_call_log_lifecycle_sample :
  passesValidation PerformActionCommand (actionParams "#submit" "click") = true
  /\ passesResolution sampleScan PerformActionCommand (actionParams "#submit" "click")
       onePage = true
  /\ buildable PerformActionCommand (actionParams "#submit" "click")
  /\ lifecycle sampleScan PerformActionCommand (actionParams "#submit" "click") onePage
       (execute sampleScan PerformActionCommand (actionParams "#submit" "click") onePage).
Proof.
  assert (Hb : buildable PerformActionCommand (actionParams "#submit" "click")).
  { exists "click". split; [reflexivity|simpl; tauto]. }
  split; [reflexivity|]. split; [reflexivity|]. split; [exact Hb|].
  exact (proj1 (command_call_log_lifecycle sampleScan PerformActionCommand
                  (actionParams "#submit" "click") onePage eq_refl eq_refl Hb)).
Defined.

(** C2, as stated, fails. The request for the action hover on the
    locator #submit, with one tracked page, passes validation and
    resolution; it is rejected when the action is built, and no call-log
    entry is ever created for it. *)
Lemma hover_passes_and_creates_no_entry :
  passesValidation PerformActionCommand (actionParams "#submit" "hover") = true
  /\ passesResolution sampleScan PerformActionCommand (actionParams "#submit" "hover")
       onePage = true
  /\ run sampleEnv
       (execute sampleScan PerformActionCommand (actionParams "#submit" "hover") onePage)
     = (Thrown (Error_ "Unsupported action: hover"), onePage)
  /\ callLog (recorder onePage) = []%list
  /\ ~ lifecycle sampleScan PerformActionCommand (actionParams "#submit" "hover") onePage
         (execute sampleScan PerformActionCommand (actionParams "#submit" "hover") onePage).
Proof.
  split; [reflexivity|]. split; [reflexivity|]. split; [reflexivity|].
  split; [reflexivity|].
  assert (E : execute sampleScan PerformActionCommand (actionParams "#submit" "hover")
                onePage
              = Settled (Thrown (Error_ "Unsupported action: hover")) onePage)
    by reflexivity.
  rewrite E. intros (e & w1 & body & _ & (a & _ & ->) & Hf).
  inversion Hf.
Qed.

Lemma no_pages_fails_resolution_sample :
  pageAliases (recorder noPages) = []%list
  /\ blank (Params.locator (actionParams "#submit" "click")) = false
  /\ failsWithNoPages noPages
       (_executeUIAction sampleScan (actionParams "#submit" "click") noPages)
  /\ failsWithNoPages noPages
       (_executeUIExtraction sampleScan (actionParams "#submit" "click") noPages).
Proof.
  split; [reflexivity|]. split; [reflexivity|].
  apply (no_pages_fails_resolution sampleScan (actionParams "#submit" "click") noPages);
    reflexivity.
Defined.

(** C6, as stated, fails. With no tracked page, the performAction request
    with the empty locator is rejected by validation with "Locator is
    required": frame resolution is not reached and the error is not the
    "no pages available" one. *)
Lemma blank_locator_fails_before_resolution :
  pageAliases (recorder noPages) = []%list
  /\ _executeUIAction sampleScan (actionParams "" "click") noPages
     = Settled (Thrown (Error_ "Locator is required")) noPages
  /\ ~ failsWithNoPages noPages
         (_executeUIAction sampleScan (actionParams "" "click") noPages).
Proof.
  split; [reflexivity|]. split; [reflexivity|].
  intros (e & He & Hp).
  assert (E : _executeUIAction sampleScan (actionParams "" "click") noPages
              = Settled (Thrown (Error_ "Locator is required")) noPages)
    by reflexivity.
  rewrite E in He. injection He as <-. discriminate.
Qed.

Lemma regeneration_fails_fast_sample :
  ([javascript; python] = [] ++ javascript :: [python])%list
  /\ Forall (generates brokenJavascript
               (collapsed noCollapse onePage) sampleOptions) []%list
  /\ brokenJavascript (collapsed noCollapse onePage) javascript sampleOptions
     = Thrown (Error_ "generator failed")
  /\ fst (_updateActions [javascript; python] noCollapse brokenJavascript true onePage)
     = Thrown (Error_ "generator failed")
  /\ _recorderSources (recorderApp (snd
       (_updateActions [javascript; python] noCollapse brokenJavascript true onePage)))
     = []%list
  /\ Forall (generates soundGeneration
               (collapsed noCollapse onePage) sampleOptions) [javascript; python]
  /\ Forall2 (produces soundGeneration (collapsed noCollapse onePage) sampleOptions)
       [javascript; python]
       (_recorderSources (recorderApp (snd
          (_updateActions [javascript; python] noCollapse soundGeneration true onePage)))).
Proof.
  assert (Hall : Forall (generates soundGeneration
                           (collapsed noCollapse onePage) sampleOptions)
                   [javascript; python])
    by (repeat constructor).
  split; [reflexivity|]. split; [constructor|]. split; [reflexivity|].
  destruct (regeneration_fails_fast [javascript; python] noCollapse brokenJavascript
              true onePage) as [_ H].
  destruct (H []%list javascript [python] (Error_ "generator failed")
              eq_refl (Forall_nil _) eq_refl) as (H1 & H2 & _).
  split; [exact H1|]. split; [exact H2|]. split; [exact Hall|].
  destruct (regeneration_fails_fast [javascript; python] noCollapse soundGeneration
              true onePage) as [H' _].
  exact (proj2 (H' Hall)).
Defined.

(** C7, as stated, fails. With the generators javascript and python
    registered and the first one throwing, [_updateActions] throws and
    the Source of python, whose generator returns, is not among the
    recorder Sources. *)
Lemma broken_generator_blocks_the_others :
  brokenJavascript (collapsed noCollapse onePage) javascript sampleOptions
  = Thrown (Error_ "generator failed")
  /\ brokenJavascript (collapsed noCollapse onePage) python sampleOptions
     = Normal (sampleGenerated python)
  /\ fst (_updateActions [javascript; python] noCollapse brokenJavascript true onePage)
     = Thrown (Error_ "generator failed")
  /\ _recorderSources (recorderApp (snd
       (_updateActions [javascript; python] noCollapse brokenJavascript true onePage)))
     = []%list
  /\ ~ isolatesGenerators [javascript; python] noCollapse brokenJavascript true onePage.
Proof.
  split; [reflexivity|]. split; [reflexivity|]. split; [reflexivity|].
  split; [reflexivity|].
  intros H.
  destruct (H javascript (Error_ "generator failed")) as [_ Hs];
    [simpl; tauto|reflexivity|].
  specialize (Hs python (sampleGenerated python)).
  cbv in Hs. apply Hs; [right; left; reflexivity|reflexivity].
Qed.

(** With two tracked pages the code is evaluated on the one that was
    tracked first, also when the code names the other one, and on the
    other one when the order of tracking is the other way round. *)
Lemma arbitrary_code_targets_first_page_sample :
  pageAliases (recorder twoPages) = [(samplePage, "page"); (otherPage, "page1")]
  /\ pageAliases (recorder twoPagesSwapped) = [(otherPage, "page1"); (samplePage, "page")]
  /\ samplePage <> otherPage
  /\ match _executeArbitraryCode (codeParams "page1.title()") twoPages with
     | Suspended op _ k =>
         blank (Params.code (codeParams "page1.title()")) = false
         /\ op = Evaluate samplePage "page1.title()"
         /\ forall c w2, exists c' w3, k c w2 = Settled c' w3
     | Settled _ _ => blank (Params.code (codeParams "page1.title()")) = true
     end
  /\ match _executeArbitraryCode (codeParams "page1.title()") twoPagesSwapped with
     | Suspended op _ k =>
         blank (Params.code (codeParams "page1.title()")) = false
         /\ op = Evaluate otherPage "page1.title()"
         /\ forall c w2, exists c' w3, k c w2 = Settled c' w3
     | Settled _ _ => blank (Params.code (codeParams "page1.title()")) = true
     end.
Proof.
  split; [reflexivity|]. split; [reflexivity|]. split; [discriminate|]. split.
  - exact (arbitrary_code_targets_first_page (codeParams "page1.title()") twoPages
             samplePage "page" [(otherPage, "page1")] eq_refl).
  - exact (arbitrary_code_targets_first_page (codeParams "page1.title()") twoPagesSwapped
             otherPage "page1" [(samplePage, "page")] eq_refl).
Defined.

Lemma signal_attaches_to_last_action_on_page_sample :
  let w' := snd (_onSignalAdded [javascript; python] noCollapse soundGeneration
                   (sampleSignal "page@1") recording) in
  _actions (recorderApp recording) = ([] ++ 0%nat :: [1%nat])%list
  /\ store recording !! 0%nat = Some (sampleAction "page@1" "#a")
  /\ Forall (fun l' => onPage "page@1" recording l' = false) [1%nat]
  /\ Action.signals (ActionInContext.action (default (sampleAction "" "") (store w' !! 0%nat)))
     = [SignalInContext.signal (sampleSignal "page@1")]
  /\ store w' !! 1%nat = store recording !! 1%nat.
Proof.
  intros w'.
  assert (Hl : store recording !! 0%nat = Some (sampleAction "page@1" "#a"))
    by reflexivity.
  assert (Ha : Forall (fun l' => onPage "page@1" recording l' = false) [1%nat])
    by (constructor; [reflexivity|constructor]).
  split; [reflexivity|]. split; [exact Hl|]. split; [exact Ha|].
  destruct (signal_attaches_to_last_action_on_page [javascript; python] noCollapse
              soundGeneration (sampleSignal "page@1") recording) as (_ & H & _).
  destruct (H []%list 0%nat [1%nat] (sampleAction "page@1" "#a")
              eq_refl Hl eq_refl Ha) as [H0 H1].
  split.
  - subst w'. rewrite H0. reflexivity.
  - apply H1. discriminate.
Defined.

(** * The toasts *)

(** X21. Removing the toast that was just added, under an id no other toast
    has, gives the toasts back. *)
Theorem toast_added_then_removed (newId : string) (type : Toast.ToastType)
    (message : string) (duration : option Z) (toasts : list Toast.ToastMessage) :
  Forall (fun toast => Toast.id toast <> newId) toasts ->
  Toast.removeToast newId (Toast.addToast newId type message duration toasts) = toasts.
Proof.
  intros H. unfold Toast.removeToast, Toast.addToast.
  rewrite List.filter_app. cbn. rewrite String.eqb_refl. cbn.
  rewrite app_nil_r.
  induction H as [|toast toasts Ht _ IH]; [reflexivity|].
  cbn. apply String.eqb_neq in Ht. rewrite Ht. cbn. rewrite IH. reflexivity.
Qed.

(** X22. Removal is by id: afterwards no toast has the id, also when several
    had it; removing again, or removing an id no toast has, changes
    nothing; and the toasts with other ids stay, in order, so that
    removal and the addition of a toast with another id commute. *)
Theorem toast_removal_by_id (oldId : string) (toasts : list Toast.ToastMessage) :
  Forall (fun toast => Toast.id toast <> oldId) (Toast.removeToast oldId toasts)
  /\ Toast.removeToast oldId (Toast.removeToast oldId toasts)
     = Toast.removeToast oldId toasts
  /\ (Forall (fun toast => Toast.id toast <> oldId) toasts ->
      Toast.removeToast oldId toasts = toasts)
  /\ (forall newId type message duration,
      newId <> oldId ->
      Toast.removeToast oldId (Toast.addToast newId type message duration toasts)
      = Toast.addToast newId type message duration (Toast.removeToast oldId toasts)).
Proof.
  assert (Hkeep : forall l,
    Forall (fun toast => Toast.id toast <> oldId) l -> Toast.removeToast oldId l = l).
  { induction 1 as [|toast l Ht _ IH]; [reflexivity|].
    cbn. apply String.eqb_neq in Ht. rewrite Ht. cbn. unfold Toast.removeToast in IH.
    rewrite IH. reflexivity. }
  assert (Hgone : Forall (fun toast => Toast.id toast <> oldId)
                    (Toast.removeToast oldId toasts)).
  { apply List.Forall_forall. intros toast Hin.
    apply List.filter_In in Hin as [_ Hne].
    apply negb_true_iff, String.eqb_neq in Hne. exact Hne. }
  split; [exact Hgone|]. split; [exact (Hkeep _ Hgone)|]. split; [apply Hkeep|].
  intros newId type message duration Hne.
  unfold Toast.removeToast, Toast.addToast. rewrite List.filter_app. cbn.
  apply String.eqb_neq in Hne. rewrite Hne. reflexivity.
Qed.

(** * The version script *)

Lemma includes_append (needle a b : string) :
  Publish.includes needle (a ++ needle ++ b) = true.
Proof.
  induction a as [|c a IH].
  - rewrite append_nil. destruct (needle ++ b) eqn:E; cbn [Publish.includes];
      rewrite <- E, prefix_append; reflexivity.
  - rewrite append_cons. cbn [Publish.includes]. rewrite IH. apply orb_true_r.
Qed.

Lemma dropChars_append (a b : string) :
  Publish.dropChars (String.length a) (a ++ b) = b.
Proof.
  induction a as [|c a IH]; [destruct b; reflexivity|].
  rewrite append_cons. exact IH.
Qed.

Lemma prefix_split (a s : string) :
  String.prefix a s = true -> s = a ++ Publish.dropChars (String.length a) s.
Proof.
  revert s. induction a as [|c a IH]; intros s H.
  - destruct s; reflexivity.
  - destruct s as [|b s]; [discriminate|]. cbn [String.prefix] in H.
    destruct (ascii_dec c b) as [<-|]; [|discriminate].
    rewrite append_cons. cbn [String.length Publish.dropChars]. f_equal. exact (IH s H).
Qed.

Lemma untilAt_split (s : string) :
  s = fst (Publish.untilAt s) ++ snd (Publish.untilAt s)
  /\ withoutAt (fst (Publish.untilAt s)) = true
  /\ (snd (Publish.untilAt s) = ""
      \/ exists t, snd (Publish.untilAt s) = String "@"%char t).
Proof.
  induction s as [|c s (IH1 & IH2 & IH3)]; [repeat split; left; reflexivity|].
  cbn [Publish.untilAt].
  destruct (Ascii.eqb c "@"%char) eqn:Hc.
  - apply Ascii.eqb_eq in Hc. subst c. repeat split. right. eauto.
  - destruct (Publish.untilAt s) as [name rest]. cbn [fst snd] in *.
    rewrite append_cons, <- IH1. cbn [withoutAt]. rewrite Hc, IH2.
    repeat split. exact IH3.
Qed.

Lemma untilAt_append (name t : string) :
  withoutAt name = true ->
  Publish.untilAt (name ++ String "@"%char t) = (name, String "@"%char t).
Proof.
  induction name as [|c name IH]; intros H; [reflexivity|].
  cbn [withoutAt] in H. apply andb_prop in H as [Hc Hn].
  apply negb_true_iff in Hc.
  rewrite append_cons. cbn [Publish.untilAt]. rewrite Hc, (IH Hn). reflexivity.
Qed.

(** The values the pattern matches: the scope, a package name without
    [@] that is not empty, an [@], and anything. *)
Lemma matchInternal_matches (name t : string) :
  name <> "" ->
  withoutAt name = true ->
  Publish.matchInternal ("npm:@sh_michael/" ++ name ++ "@" ++ t)
  = Some ("@sh_michael/" ++ name).
Proof.
  intros Hne Hn. unfold Publish.matchInternal.
  rewrite prefix_append.
  change 16 with (String.length "npm:@sh_michael/").
  rewrite dropChars_append.
  change ("@" ++ t) with (String "@"%char t).
  rewrite (untilAt_append name t Hn).
  destruct name; [contradiction|reflexivity].
Qed.

Lemma matchInternal_form (value package : string) :
  Publish.matchInternal value = Some package ->
  exists name t,
    value = "npm:@sh_michael/" ++ name ++ "@" ++ t
    /\ package = "@sh_michael/" ++ name
    /\ name <> ""
    /\ withoutAt name = true.
Proof.
  unfold Publish.matchInternal.
  destruct (String.prefix "npm:@sh_michael/" value) eqn:Hp; [|discriminate].
  apply prefix_split in Hp.
  change (String.length "npm:@sh_michael/") with 16 in Hp.
  destruct (untilAt_split (Publish.dropChars 16 value)) as (Hs & Hn & Hr).
  destruct (Publish.untilAt (Publish.dropChars 16 value)) as [name rest].
  cbn [fst snd] in *.
  destruct name as [|c name]; [discriminate|].
  destruct rest as [|d rest]; [discriminate|].
  intros [= <-].
  destruct Hr as [Hr|(t & Hr)]; [discriminate|]. injection Hr as -> ->.
  exists (String c name), t. split; [|repeat split; [discriminate|exact Hn]].
  rewrite Hp at 1. rewrite Hs. reflexivity.
Qed.

(** X23. [updatePackageVersion] sets the version, gives the new version to
    every dependency of the @sh_michael scope and to no other, keeps the
    dependencies and their order, and leaves the overrides alone;
    applied again with the same version it changes nothing. *)
Theorem updatePackageVersion_scope (newVersion : string)
    (packageJson : Publish.PackageJson) :
  let updated := Publish.updatePackageVersion newVersion packageJson in
  Publish.version updated = newVersion
  /\ Publish.overrides updated = Publish.overrides packageJson
  /\ option_map (List.map fst) (Publish.dependencies updated)
     = option_map (List.map fst) (Publish.dependencies packageJson)
  /\ (forall deps deps' i dep v,
      Publish.dependencies packageJson = Some deps ->
      Publish.dependencies updated = Some deps' ->
      nth_error deps i = Some (dep, v) ->
      nth_error deps' i
      = Some (dep, if String.prefix "@sh_michael/" dep then newVersion else v))
  /\ Publish.updatePackageVersion newVersion updated = updated.
Proof.
  intros updated. subst updated. unfold Publish.updatePackageVersion.
  cbn [Publish.version Publish.overrides Publish.dependencies].
  split; [reflexivity|]. split; [reflexivity|].
  assert (Hfst : forall e, fst (Publish.updateDependency newVersion e) = fst e).
  { intros [dep v]. unfold Publish.updateDependency. cbn.
    destruct (String.prefix _ dep); reflexivity. }
  assert (Hidem : forall e, Publish.updateDependency newVersion
                              (Publish.updateDependency newVersion e)
                            = Publish.updateDependency newVersion e).
  { intros [dep v]. unfold Publish.updateDependency. cbn.
    destruct (String.prefix _ dep) eqn:Hp; cbn; rewrite Hp; reflexivity. }
  split; [|split].
  - destruct (Publish.dependencies packageJson) as [deps|]; [|reflexivity].
    cbn [option_map]. f_equal. rewrite List.map_map.
    apply List.map_ext. exact Hfst.
  - intros deps deps' i dep v Hd Hd' Hi. rewrite Hd in Hd'.
    cbn [option_map] in Hd'. injection Hd' as <-.
    rewrite List.nth_error_map, Hi. cbn. unfold Publish.updateDependency. cbn.
    destruct (String.prefix _ dep); reflexivity.
  - f_equal. destruct (Publish.dependencies packageJson) as [deps|]; [|reflexivity].
    cbn [option_map]. f_equal. rewrite List.map_map.
    apply List.map_ext. exact Hidem.
Qed.

Lemma updateOverride_matches (newVersion key name old : string) :
  name <> "" ->
  withoutAt name = true ->
  Publish.updateOverride newVersion
    (key, Publish.OverrideString ("npm:@sh_michael/" ++ name ++ "@" ++ old))
  = (key, Publish.OverrideString ("npm:@sh_michael/" ++ name ++ "@" ++ newVersion)).
Proof.
  intros Hne Hn. unfold Publish.updateOverride. cbn [fst snd].
  change ("npm:@sh_michael/" ++ name ++ "@" ++ old)
    with ("npm:" ++ "@sh_michael/" ++ (name ++ "@" ++ old)) at 1.
  rewrite includes_append.
  rewrite (matchInternal_matches name old Hne Hn). reflexivity.
Qed.

(** X24. [updateRootOverrides] replaces, in an override that is the text
    npm:, the scope, a package name and [@], everything after that [@] by
    the new version, whatever stood there; an override that is not of
    this form, or is an object, stays as it is. *)
Theorem updateRootOverrides_replaces_version (newVersion : string)
    (entry : string * Publish.OverrideValue) :
  (forall name old,
      name <> "" ->
      withoutAt name = true ->
      snd entry = Publish.OverrideString ("npm:@sh_michael/" ++ name ++ "@" ++ old) ->
      Publish.updateOverride newVersion entry
      = (fst entry,
         Publish.OverrideString ("npm:@sh_michael/" ++ name ++ "@" ++ newVersion)))
  /\ ((forall name old,
        name <> "" ->
        withoutAt name = true ->
        snd entry <> Publish.OverrideString ("npm:@sh_michael/" ++ name ++ "@" ++ old)) ->
      Publish.updateOverride newVersion entry = entry).
Proof.
  destruct entry as [key value]. cbn [fst snd]. split.
  - intros name old Hne Hn ->. exact (updateOverride_matches newVersion key name old Hne Hn).
  - intros Hno. destruct value as [value|entries]; [|reflexivity].
    unfold Publish.updateOverride. cbn [fst snd].
    destruct (Publish.includes _ value); [|reflexivity].
    destruct (Publish.matchInternal value) as [package|] eqn:Hm; [|reflexivity].
    destruct (matchInternal_form value package Hm) as (name & t & -> & _ & Hne & Hn).
    exfalso. exact (Hno name t Hne Hn eq_refl).
Qed.

(** X25. [updateRootOverrides] keeps the version, the dependencies and the
    keys of the overrides in their order, and applied again with the
    same version it changes nothing. *)
Theorem updateRootOverrides_idempotent (newVersion : string)
    (packageJson : Publish.PackageJson) :
  let updated := Publish.updateRootOverrides newVersion packageJson in
  Publish.version updated = Publish.version packageJson
  /\ Publish.dependencies updated = Publish.dependencies packageJson
  /\ option_map (List.map fst) (Publish.overrides updated)
     = option_map (List.map fst) (Publish.overrides packageJson)
  /\ Publish.updateRootOverrides newVersion updated = updated.
Proof.
  intros updated. subst updated. unfold Publish.updateRootOverrides.
  cbn [Publish.version Publish.overrides Publish.dependencies].
  split; [reflexivity|]. split; [reflexivity|].
  assert (Hfst : forall e, fst (Publish.updateOverride newVersion e) = fst e).
  { intros [k [value|entries]]; unfold Publish.updateOverride; cbn [fst snd];
      [|reflexivity].
    destruct (Publish.includes _ value); [|reflexivity].
    destruct (Publish.matchInternal value); reflexivity. }
  assert (Hidem : forall e, Publish.updateOverride newVersion
                              (Publish.updateOverride newVersion e)
                            = Publish.updateOverride newVersion e).
  { intros [k [value|entries]]; [|reflexivity].
    unfold Publish.updateOverride at 2 3. cbn [fst snd].
    destruct (Publish.includes "@sh_michael/" value) eqn:Hi.
    - destruct (Publish.matchInternal value) as [package|] eqn:Hm.
      + destruct (matchInternal_form value package Hm) as (name & t & _ & -> & Hne & Hn).
        exact (updateOverride_matches newVersion k name newVersion Hne Hn).
      + unfold Publish.updateOverride. cbn [fst snd]. rewrite Hi, Hm. reflexivity.
    - unfold Publish.updateOverride. cbn [fst snd]. rewrite Hi. reflexivity. }
  split.
  - destruct (Publish.overrides packageJson) as [l|]; [|reflexivity].
    cbn [option_map]. f_equal. rewrite List.map_map.
    apply List.map_ext. exact Hfst.
  - f_equal. destruct (Publish.overrides packageJson) as [l|]; [|reflexivity].
    cbn [option_map]. f_equal. rewrite List.map_map.
    apply List.map_ext. exact Hidem.
Qed.

(** * The further properties on the sample session *)

Lemma query_call_is_extraction_sample :
  In "count" extractionMethods
  /\ _isExtractionCommand ("  page.locator('li')" ++ "." ++ "count" ++ "()") = true.
Proof.
  assert (H : In "count" extractionMethods) by (cbn; auto 10).
  split; [exact H|].
  exact (query_call_is_extraction "  page.locator('li')" "count" H).
Defined.

Lemma call_with_arguments_is_no_extraction_sample :
  isWhiteSpace "'" = false
  /\ "'"%char <> "("%char
  /\ _isExtractionCommand ("page.locator('a').getAttribute('href" ++ String "'" ")")
     = false.
Proof.
  assert (H : "'"%char <> "("%char) by discriminate.
  split; [reflexivity|]. split; [exact H|].
  exact (call_with_arguments_is_no_extraction "page.locator('a').getAttribute('href"
           "'"%char eq_refl H).
Defined.

Lemma regeneration_pushes_sources_then_reveals_sample :
  Forall (generates soundGeneration (collapsed noCollapse onePage) sampleOptions)
    [javascript; python]
  /\ _uiPage (recorderApp (snd
       (_updateActions [javascript; python] noCollapse soundGeneration true onePage)))
     = [PlaywrightSetSources
          [makeSource javascript (sampleGenerated javascript);
           makeSource python (sampleGenerated python)];
        PlaywrightSelectSource "playwright-test"].
Proof.
  assert (Hall : Forall (generates soundGeneration
                           (collapsed noCollapse onePage) sampleOptions)
                   [javascript; python])
    by (repeat constructor).
  split; [exact Hall|].
  exact (regeneration_pushes_sources_then_reveals [javascript; python] noCollapse
           soundGeneration true onePage Hall).
Defined.

Lemma output_file_mirrors_primary_sample :
  Forall (generates soundGeneration (collapsed noCollapse recordingToFile) sampleOptions)
    [javascript; python]
  /\ _throttledOutputFile (recorderApp recordingToFile) = Some outputFile
  /\ Forall (fun g => LanguageGenerator.id g <> "playwright-test") [python]
  /\ _throttledOutputFile (recorderApp (snd
       (_updateActions [javascript; python] noCollapse soundGeneration true
          recordingToFile)))
     = Some {| file := "out.spec.ts"; content := Some "// playwright-test" |}.
Proof.
  assert (Hall : Forall (generates soundGeneration
                           (collapsed noCollapse recordingToFile) sampleOptions)
                   [javascript; python])
    by (repeat constructor).
  assert (Hrest : Forall (fun g => LanguageGenerator.id g <> "playwright-test") [python])
    by (repeat constructor; discriminate).
  split; [exact Hall|]. split; [reflexivity|]. split; [exact Hrest|].
  exact (proj1 (output_file_mirrors_primary [javascript; python] noCollapse
                  soundGeneration true recordingToFile outputFile Hall eq_refl)
           []%list javascript [python] (sampleGenerated javascript)
           eq_refl eq_refl Hrest eq_refl).
Defined.

Lemma failed_regeneration_still_writes_output_sample :
  let r := _updateActions [javascript; python] noCollapse brokenPython true
             recordingToFile in
  Forall (generates brokenPython (collapsed noCollapse recordingToFile) sampleOptions)
    [javascript]
  /\ brokenPython (collapsed noCollapse recordingToFile) python sampleOptions
     = Thrown (Error_ "generator failed")
  /\ fst r = Thrown (Error_ "generator failed")
  /\ _throttledOutputFile (recorderApp (snd r))
     = Some {| file := "out.spec.ts"; content := Some "// playwright-test" |}
  /\ _recorderSources (recorderApp (snd r)) = []%list.
Proof.
  intros r.
  assert (Hdone : Forall (generates brokenPython
                            (collapsed noCollapse recordingToFile) sampleOptions)
                    [javascript])
    by (repeat constructor).
  split; [exact Hdone|]. split; [reflexivity|].
  exact (failed_regeneration_still_writes_output [javascript; python] noCollapse
           brokenPython true recordingToFile outputFile []%list []%list []%list
           javascript python (sampleGenerated javascript) (Error_ "generator failed")
           eq_refl eq_refl Hdone eq_refl (Forall_nil _) eq_refl eq_refl).
Defined.

Lemma arbitrary_code_failure_is_wrapped_sample :
  let failure :=
    Error_ ("Failed to execute code " ++ dquote ++ "page.title()" ++ dquote ++ ": boom") in
  let r := dispatch [javascript; python] noCollapse soundGeneration sampleScan throwingEnv
             {| event := "executeArbitraryCode"; params := codeParams "page.title()" |}
             onePage in
  blank (Some "page.title()") = false
  /\ throwingEnv (Evaluate samplePage "page.title()") = Thrown (Raised (VString "boom"))
  /\ fst (run throwingEnv (_executeArbitraryCode (codeParams "page.title()") onePage))
     = Thrown failure
  /\ console (snd r) = [("Failed to execute arbitrary code:", failure)]
  /\ _uiPage (recorderApp (snd r)) = []%list.
Proof.
  intros failure r.
  split; [reflexivity|]. split; [reflexivity|].
  exact (arbitrary_code_failure_is_wrapped [javascript; python] noCollapse
           soundGeneration sampleScan throwingEnv (codeParams "page.title()") onePage
           "page.title()" samplePage "page" []%list (Raised (VString "boom"))
           eq_refl eq_refl eq_refl eq_refl).
Defined.

Lemma results_reach_the_control_surface_sample :
  blank (Some "page.title()") = false
  /\ helloEnv (Evaluate samplePage "page.title()") = Normal (VString "Hello")
  /\ _uiPage (recorderApp (snd
       (run helloEnv (_executeArbitraryCode (codeParams "page.title()") onePage))))
     = [PlaywrightExtractionResult (VString "Hello") (Some "extraction")]
  /\ blank (Some "#title") = false
  /\ frameForSelector sampleScan "#title" (recorder onePage) = Normal (mainFrame samplePage)
  /\ queryFor "innerText" [] = Some (InnerText, true)
  /\ _uiPage (recorderApp (snd
       (run helloEnv
          (_executeUIExtraction sampleScan (extractionParams "#title" "innerText")
             onePage))))
     = [PlaywrightExtractionResult (VString "Hello") (Some "innerText")].
Proof.
  split; [reflexivity|]. split; [reflexivity|]. split.
  - exact (proj1 (results_reach_the_control_surface sampleScan helloEnv
                    (codeParams "page.title()") onePage)
             "page.title()" samplePage "page" []%list (VString "Hello")
             eq_refl eq_refl eq_refl eq_refl).
  - split; [reflexivity|]. split; [reflexivity|]. split; [reflexivity|].
    exact (proj2 (results_reach_the_control_surface sampleScan helloEnv
                    (extractionParams "#title" "innerText") onePage)
             "#title" (mainFrame samplePage) "innerText" InnerText true (VString "Hello")
             eq_refl eq_refl eq_refl eq_refl eq_refl eq_refl).
Defined.

Lemma clear_regenerates_or_aborts_sample :
  let clear := {| event := "clear"; params := Params.empty |} in
  let sound := _handleUIEvent [javascript; python] noCollapse soundGeneration sampleScan
                 clear recording in
  let broken := _handleUIEvent [javascript; python] noCollapse brokenJavascript sampleScan
                  clear recording in
  Forall (generates soundGeneration (noCollapse []) sampleOptions) [javascript; python]
  /\ brokenJavascript (noCollapse []) javascript sampleOptions
     = Thrown (Error_ "generator failed")
  /\ completion sound = Normal tt
  /\ _actions (recorderApp (after sound)) = []%list
  /\ calls (recorder (after sound)) = [RClear]
  /\ completion broken = Thrown (Error_ "generator failed")
  /\ _actions (recorderApp (after broken)) = []%list
  /\ calls (recorder (after broken)) = []%list.
Proof.
  intros clear sound broken.
  assert (Hall : Forall (generates soundGeneration (noCollapse []) sampleOptions)
                   [javascript; python])
    by (repeat constructor).
  destruct (clear_regenerates_or_aborts [javascript; python] noCollapse soundGeneration
              sampleScan Params.empty recording) as (_ & Ha & Hs & _).
  destruct (clear_regenerates_or_aborts [javascript; python] noCollapse brokenJavascript
              sampleScan Params.empty recording) as (_ & Ha' & _ & Hb).
  destruct (Hs Hall) as (Hc & Hcalls & _).
  destruct (Hb []%list javascript [python] (Error_ "generator failed")
              eq_refl (Forall_nil _) eq_refl) as (Hc' & Hcalls' & _).
  split; [exact Hall|]. split; [reflexivity|].
  split; [exact Hc|]. split; [exact Ha|]. split; [exact Hcalls|].
  split; [exact Hc'|]. split; [exact Ha'|exact Hcalls'].
Defined.

Lemma fileChanged_unknown_is_noop_sample :
  let w := snd (_updateActions [javascript; python] noCollapse soundGeneration false
                  onePage) in
  List.map Source.id (_recorderSources (recorderApp w) ++ _userSources (recorderApp w))
  = ["playwright-test"; "python"]
  /\ _handleUIEvent [javascript; python] noCollapse soundGeneration sampleScan
       {| event := "fileChanged"; params := fileParams "csharp" |} w
     = {| completion := Normal tt; after := w; floating := None |}.
Proof.
  intros w. split; [reflexivity|].
  apply (fileChanged_unknown_is_noop [javascript; python] noCollapse soundGeneration
           sampleScan (fileParams "csharp") w).
  intros i s [= <-] Hin. cbn in Hin.
  destruct Hin as [<-|[<-|[]]]; discriminate.
Defined.

Lemma fileChanged_selects_generated_source_sample :
  let d := _handleUIEvent [javascript; python] noCollapse soundGeneration sampleScan
             {| event := "fileChanged"; params := fileParams "python" |}
             (snd (_updateActions [javascript; python] noCollapse soundGeneration false
                     onePage)) in
  Forall (generates soundGeneration (collapsed noCollapse onePage) sampleOptions)
    [javascript; python]
  /\ Forall (fun g' => LanguageGenerator.id g' <> "python") [javascript]
  /\ completion d = Normal tt
  /\ _selectedGeneratorId (recorderApp (after d)) = "python"
  /\ calls (recorder (after d)) = [RSetLanguage "python"].
Proof.
  intros d.
  assert (Hall : Forall (generates soundGeneration
                           (collapsed noCollapse onePage) sampleOptions)
                   [javascript; python])
    by (repeat constructor).
  assert (Hb : Forall (fun g' => LanguageGenerator.id g' <> "python") [javascript])
    by (repeat constructor; discriminate).
  split; [exact Hall|]. split; [exact Hb|].
  exact (fileChanged_selects_generated_source [javascript; python] noCollapse
           soundGeneration sampleScan false (fileParams "python") onePage
           [javascript] python []%list Hall eq_refl Hb eq_refl).
Defined.

Lemma signal_attaches_to_action_just_added_sample :
  let w' := snd (_onSignalAdded [javascript; python] noCollapse soundGeneration
                   (sampleSignal "page@1")
                   (snd (_onActionAdded [javascript; python] noCollapse soundGeneration
                           0%nat pending))) in
  store pending !! 0%nat = Some (sampleAction "page@1" "#a")
  /\ _actions (recorderApp w') = [0%nat]
  /\ store w' !! 0%nat
     = Some (ActionInContext.pushSignal (SignalInContext.signal (sampleSignal "page@1"))
               (sampleAction "page@1" "#a")).
Proof.
  intros w'.
  assert (Hl : store pending !! 0%nat = Some (sampleAction "page@1" "#a"))
    by reflexivity.
  destruct (signal_attaches_to_action_just_added [javascript; python] noCollapse
              soundGeneration 0%nat (sampleSignal "page@1") pending
              (sampleAction "page@1" "#a") Hl eq_refl) as (Ha & Hs & _).
  split; [exact Hl|]. split; [exact Ha|exact Hs].
Defined.

Lemma determinePrimaryGeneratorId_first_match_sample :
  Forall (fun g' => LanguageGenerator.highlighter g' <> "python") [javascript]
  /\ determinePrimaryGeneratorId [javascript; python] "python" = "python"
  /\ determinePrimaryGeneratorId [javascript; python] "javascript" = "playwright-test"
  /\ Forall (fun g => LanguageGenerator.highlighter g <> "csharp") [javascript; python]
  /\ determinePrimaryGeneratorId [javascript; python] "csharp" = "csharp".
Proof.
  assert (Hb : Forall (fun g' => LanguageGenerator.highlighter g' <> "python") [javascript])
    by (repeat constructor; discriminate).
  assert (Hn : Forall (fun g => LanguageGenerator.highlighter g <> "csharp")
                 [javascript; python])
    by (repeat constructor; discriminate).
  split; [exact Hb|]. split; [|split; [|split; [exact Hn|]]].
  - exact (proj1 (determinePrimaryGeneratorId_first_match [javascript; python] "python")
             [javascript] python []%list eq_refl eq_refl Hb).
  - exact (proj1 (determinePrimaryGeneratorId_first_match [javascript; python] "javascript")
             []%list javascript [python] eq_refl eq_refl (Forall_nil _)).
  - exact (proj2 (determinePrimaryGeneratorId_first_match [javascript; python] "csharp") Hn).
Defined.

Lemma built_action_shape_sample :
  let a := {| Action.name := "press"; Action.selector := "#search";
              Action.signals := []; Action.detail := DPress "Enter" 0 |} in
  _buildSyntheticAction "#search" (Some "press") [""] = Normal a
  /\ Action.selector a = "#search"
  /\ Action.signals a = []%list
  /\ In (Action.name a) ["click"; "fill"; "press"; "check"; "uncheck"; "select"]
  /\ "Enter" <> ""
  /\ 0%Z = 0%Z.
Proof.
  intros a. split; [reflexivity|].
  exact (built_action_shape "#search" (Some "press") [""] a eq_refl).
Defined.

Lemma programmatic_events_follow_known_actions_sample :
  let actions := [sampleAction "page@1" "#a"; sampleAction "page@2" "#b";
                  sampleAction "page@1" "#c"] in
  let known := [sampleAction "page@1" "#a"; sampleAction "page@1" "#c"] in
  let start := {| lastAction := None; emitted := [] |} in
  Forall (fun a => isNormal (soundGeneration [a] javascript sampleOptions) = true) known
  /\ exists st,
      programmaticActions soundGeneration neverMerge [samplePage] javascript sampleOptions
        actions start = Normal st
      /\ programmaticActions soundGeneration neverMerge [samplePage] javascript
           sampleOptions known start = Normal st
      /\ List.map eventAction (emitted st) = List.map Some known
      /\ lastAction st = Some (sampleAction "page@1" "#c")
      /\ match emitted st with
         | ev :: _ => isActionAdded ev = true
         | [] => True
         end%list.
Proof.
  intros actions known start.
  assert (Hall : Forall (fun a => isNormal (soundGeneration [a] javascript sampleOptions)
                                  = true) known)
    by (repeat constructor).
  split; [exact Hall|].
  exact (programmatic_events_follow_known_actions soundGeneration neverMerge [samplePage]
           javascript sampleOptions actions Hall).
Defined.

Lemma text_selector_collisions_sample :
  _buildTextSelector (TextString "Sign in") = _buildTextSelector (TextString "Sign in")
  /\ "Sign in" = "Sign in"
  /\ _buildTextSelector (TextRegExp "sign in" "i") = _buildTextSelector (TextRegExp "sign in" "")
  /\ _buildTextSelector (TextRegExp (dquote ++ "Sign in" ++ dquote ++ "i") "")
     = _buildTextSelector (TextString "Sign in").
Proof.
  destruct text_selector_collisions as (H1 & H2 & H3).
  split; [reflexivity|]. split; [exact (H1 "Sign in" "Sign in" eq_refl)|].
  split; [exact (H2 "sign in" "i" "")|exact (H3 "Sign in" "")].
Defined.

Lemma role_selector_collisions_sample :
  truthyValue (VString "") = false
  /\ _buildRoleSelector "button" (Some (VString "")) = "internal:role=button"
  /\ "Save" <> ""
  /\ _buildRoleSelector ("button" ++ "[name=" ++ dquote ++ "Save" ++ dquote ++ "i]") None
     = _buildRoleSelector "button" (Some (VString "Save")).
Proof.
  assert (Hn : "Save" <> "") by discriminate.
  destruct (role_selector_collisions "button") as (H1 & H2).
  split; [reflexivity|]. split; [exact (H1 (VString "") eq_refl)|].
  split; [exact Hn|exact (H2 "Save" Hn)].
Defined.

Lemma public_api_calls_sample :
  let operation :=
    _createPublicAPIWrapper samplePage (ByTestId "submit") (LClick (Some false)) in
  opStrict operation = false
  /\ opSelector operation = "[data-testid=" ++ dquote ++ "submit" ++ dquote ++ "]"
  /\ opSelector (_createPublicAPIWrapper samplePage (ByTestId "submit") LInnerText)
     = opSelector operation
  /\ In "count" ["getAttribute"; "count"; "boundingBox"]
  /\ In "count" extractionMethods
  /\ ~ In "count" locatorMethods.
Proof.
  intros operation.
  assert (Hm : In "count" ["getAttribute"; "count"; "boundingBox"]) by (cbn; auto).
  destruct (public_api_calls samplePage (ByTestId "submit") (LClick (Some false)))
    as (_ & _ & Hs & _ & _ & Hc).
  destruct (Hc "count" Hm) as [Hx Hno].
  split; [reflexivity|]. split; [reflexivity|]. split; [exact (Hs LInnerText)|].
  split; [exact Hm|]. split; [exact Hx|exact Hno].
Defined.

Lemma dropdown_options_and_executors_sample :
  In "count" ActionDropdown.extractions
  /\ (exists q strict,
        _performExtraction (mainFrame samplePage) "li" (Some "count") (Some []) onePage
        = Suspended (Query (mainFrame samplePage) "li" q strict 5000) onePage Settled)
  /\ In "hover" ActionDropdown.actions
  /\ isNormal (_buildSyntheticAction "#menu" (Some "hover") []) = false.
Proof.
  assert (He : In "count" ActionDropdown.extractions) by (cbn; auto 10).
  assert (Ha : In "hover" ActionDropdown.actions) by (cbn; auto 10).
  destruct dropdown_options_and_executors as (H1 & H2 & _).
  split; [exact He|].
  split; [exact (H1 "count" (mainFrame samplePage) "li" []%list onePage He)|].
  split; [exact Ha|].
  apply (H2 "hover" "#menu" []%list Ha). left. reflexivity.
Defined.

Lemma toast_added_then_removed_sample :
  Forall (fun toast => Toast.id toast <> "toast_3") sampleToasts
  /\ Toast.removeToast "toast_3" (Toast.showInfo "toast_3" "Saved" sampleToasts)
     = sampleToasts.
Proof.
  assert (H : Forall (fun toast => Toast.id toast <> "toast_3") sampleToasts)
    by (repeat constructor; discriminate).
  split; [exact H|].
  exact (toast_added_then_removed "toast_3" Toast.info "Saved" (Some 4000%Z)
           sampleToasts H).
Defined.

Lemma toast_removal_by_id_sample :
  Forall (fun toast => Toast.id toast <> "toast_3") sampleToasts
  /\ Toast.removeToast "toast_3" sampleToasts = sampleToasts
  /\ "toast_3" <> "toast_1"
  /\ Toast.removeToast "toast_1" (Toast.showInfo "toast_3" "Saved" sampleToasts)
     = Toast.showInfo "toast_3" "Saved" (Toast.removeToast "toast_1" sampleToasts).
Proof.
  assert (H : Forall (fun toast => Toast.id toast <> "toast_3") sampleToasts)
    by (repeat constructor; discriminate).
  assert (Hne : "toast_3" <> "toast_1") by discriminate.
  destruct (toast_removal_by_id "toast_3" sampleToasts) as (_ & _ & Hk & _).
  destruct (toast_removal_by_id "toast_1" sampleToasts) as (_ & _ & _ & Hc).
  split; [exact H|]. split; [exact (Hk H)|]. split; [exact Hne|].
  exact (Hc "toast_3" Toast.info "Saved" (Some 4000%Z) Hne).
Defined.

Lemma updatePackageVersion_scope_sample :
  let updated := Publish.updatePackageVersion "1.0.1" samplePackage in
  Publish.dependencies samplePackage
  = Some [("@sh_michael/playwright-core", "1.0.0"); ("ws", "8.17.1")]
  /\ Publish.version updated = "1.0.1"
  /\ nth_error (default [] (Publish.dependencies updated)) 0
     = Some ("@sh_michael/playwright-core", "1.0.1")
  /\ nth_error (default [] (Publish.dependencies updated)) 1 = Some ("ws", "8.17.1").
Proof.
  intros updated.
  destruct (updatePackageVersion_scope "1.0.1" samplePackage) as (Hv & _ & _ & Hd & _).
  split; [reflexivity|]. split; [exact Hv|]. split.
  - exact (Hd _ _ 0%nat "@sh_michael/playwright-core" "1.0.0" eq_refl eq_refl eq_refl).
  - exact (Hd _ _ 1%nat "ws" "8.17.1" eq_refl eq_refl eq_refl).
Defined.

Lemma updateRootOverrides_replaces_version_sample :
  "playwright-core" <> ""
  /\ withoutAt "playwright-core" = true
  /\ Publish.updateOverride "1.0.1"
       ("playwright-core", Publish.OverrideString "npm:@sh_michael/playwright-core@1.0.0")
     = ("playwright-core", Publish.OverrideString "npm:@sh_michael/playwright-core@1.0.1")
  /\ (forall name old,
        Publish.OverrideString "npm:playwright-core@1.0.0"
        <> Publish.OverrideString ("npm:@sh_michael/" ++ name ++ "@" ++ old))
  /\ Publish.updateOverride "1.0.1"
       ("playwright-core", Publish.OverrideString "npm:playwright-core@1.0.0")
     = ("playwright-core", Publish.OverrideString "npm:playwright-core@1.0.0").
Proof.
  assert (Hne : "playwright-core" <> "") by discriminate.
  assert (Hno : forall name old,
             Publish.OverrideString "npm:playwright-core@1.0.0"
             <> Publish.OverrideString ("npm:@sh_michael/" ++ name ++ "@" ++ old))
    by (intros name old; discriminate).
  split; [exact Hne|]. split; [reflexivity|]. split; [|split; [exact Hno|]].
  - exact (proj1 (updateRootOverrides_replaces_version "1.0.1"
                    ("playwright-core",
                     Publish.OverrideString "npm:@sh_michael/playwright-core@1.0.0"))
             "playwright-core" "1.0.0" Hne eq_refl eq_refl).
  - exact (proj2 (updateRootOverrides_replaces_version "1.0.1"
                    ("playwright-core",
                     Publish.OverrideString "npm:playwright-core@1.0.0"))
             (fun name old _ _ => Hno name old)).
Defined.
